(** * istio-test: the metadata retry client, the metadata handler and the
      health aggregation of [internal/metadata/metadata.go]

    The package is embedded shallowly.  Integers ([int], [time.Duration],
    HTTP status codes) are [Z]: the loop counter stays below [maxRetries]
    and the check counters below the size of a map, so none of them wraps.
    The float64 multiplier is the rational it denotes, and a float64
    product is computed only where it is exact.  Go strings, which are
    byte sequences, are [string]; the [map[string]HealthCheck] of the
    health response is a [gmap string HealthCheck].  Everything the package
    reads from outside (the context, the network, the clock) is an
    explicit oracle, and everything it does to the outside (network calls,
    sleeps, log lines) is recorded in a trace of events.  *)

From Stdlib Require Import ZArith QArith_base Qminmax Qpower String Ascii List DecimalString Lia.
From stdpp Require Import gmap strings list fin_maps.
Import ListNotations.
Local Open Scope string_scope.
Local Open Scope Z_scope.

(** ** Stand-ins for the Go standard library *)

(** [error] values.  A leaf error carries its text; [wrapError] is the
    value [fmt.Errorf] builds for a format that ends in [%w]: its text is
    the prefix followed by the text of the wrapped error, which [Unwrap]
    gives back. *)
Inductive error : Type :=
  | errors_New (text : string)
  | wrapError (prefix : string) (cause : error).

Fixpoint Error (e : error) : string :=
  match e with
  | errors_New text => text
  | wrapError prefix cause => prefix ++ Error cause
  end.

Definition Unwrap (e : error) : option error :=
  match e with
  | errors_New _ => None
  | wrapError _ cause => Some cause
  end.

(** [fmt.Errorf(prefix + "%w", e)].  When the operand of [%w] is the nil
    interface, [fmt] prints [%!w(<nil>)] in its place and the result is a
    plain error that wraps nothing. *)
Definition fmt_Errorf (prefix : string) (e : option error) : error :=
  match e with
  | Some cause => wrapError prefix cause
  | None => errors_New (prefix ++ "%!w(<nil>)")
  end.

(** The two values [ctx.Err()] can take once the context is done. *)
Inductive ctxErr : Type := Canceled | DeadlineExceeded.

Definition context_Err (e : ctxErr) : error :=
  match e with
  | Canceled => errors_New "context canceled"
  | DeadlineExceeded => errors_New "context deadline exceeded"
  end.

Definition ctxErr_eqb (a b : ctxErr) : bool :=
  match a, b with
  | Canceled, Canceled | DeadlineExceeded, DeadlineExceeded => true
  | _, _ => false
  end.

(** The verb [%d]. *)
Definition itoa (z : Z) : string := NilZero.string_of_int (Z.to_int z).

(** [time.Duration] counts nanoseconds. *)
Definition Millisecond : Z := 1000000.
Definition Second : Z := 1000 * Millisecond.

(** [strings.Split(s, sep)] for a separator of one byte: the pieces of [s]
    between the occurrences of [sep], in order.  For the empty string the
    result is the one-element slice holding the empty string. *)
Fixpoint strings_Split (s : string) (sep : ascii) : list string :=
  match s with
  | EmptyString => [EmptyString]
  | String ch rest =>
      if Ascii.eqb ch sep then EmptyString :: strings_Split rest sep
      else match strings_Split rest sep with
           | piece :: pieces => String ch piece :: pieces
           | [] => [String ch EmptyString]
           end
  end.

Definition strings_HasSuffix (s suffix : string) : bool :=
  (String.length suffix <=? String.length s)%nat &&
  String.eqb (substring (String.length s - String.length suffix)
                        (String.length suffix) s) suffix.

Definition strings_TrimSuffix (s suffix : string) : string :=
  if strings_HasSuffix s suffix
  then substring 0 (String.length s - String.length suffix) s
  else s.

(** ** The retry client *)

(** The [net/http] status constants the package names. *)
Definition StatusOK : Z := 200.
Definition StatusBadRequest : Z := 400.
Definition StatusTooManyRequests : Z := 429.
Definition StatusInternalServerError : Z := 500.
Definition StatusBadGateway : Z := 502.
Definition StatusServiceUnavailable : Z := 503.

Definition ClusterNameURL : string :=
  "http://metadata.google.internal/computeMetadata/v1/instance/attributes/cluster-name".
Definition ClusterLocationURL : string :=
  "http://metadata.google.internal/computeMetadata/v1/instance/attributes/cluster-location".
Definition InstanceZoneURL : string :=
  "http://metadata.google.internal/computeMetadata/v1/instance/zone".

(** [Client], without its [*http.Client] but with the timeout that client
    is built with; durations are in nanoseconds. *)
Record Client : Type := NewClient {
  httpTimeout : Z;
  maxRetries : Z;
  baseRetryDelay : Z;
  maxRetryDelay : Z;
  retryMultiplier : Q
}.

Definition defaultClient : Client :=
  NewClient (10 * Second) 3 (100 * Millisecond) (2 * Second) (inject_Z 2).

(** What [c.httpClient.Do] hands back: a transport-level error, or a
    response with its status code and what [io.ReadAll] makes of its body. *)
Record Response : Type := {
  StatusCode : Z;
  Body : string;
  ReadErr : option error
}.

Inductive DoResult : Type :=
  | DoError (err : error)
  | DoResponse (resp : Response).

(** The surroundings of one call of [FetchMetadata], indexed by the loop
    counter [attempt]: the state of the context at the check that opens
    iteration [attempt], whether a request can be built for a URL, and the
    outcome of the network call of iteration [attempt] (a GET with the
    header [Metadata-Flavor: Google]).  The last field is what a float64
    product, converted to [time.Duration], comes to where the model of
    [scaleDuration] does not know it. *)
Record Env : Type := {
  ctx_Err : Z -> option ctxErr;
  NewRequestWithContext : string -> option error;
  Do : Z -> DoResult;
  float64_inexact : Z -> Q -> Z
}.

Inductive LogEntry : Type :=
  | LogRetryTransport (attemptNo : Z) (delay : Z) (err : error)
  | LogRetryStatus (attemptNo : Z) (status : Z) (delay : Z)
  | LogSucceeded (attemptNo : Z)
  | LogText (text : string).

Inductive Event : Type :=
  | EvDo (url : string)
  | EvSleep (d : Z)
  | EvInfo (entry : LogEntry)
  | EvError (entry : LogEntry)
  | EvWithTimeout (d : Z).

(** Go's [(string, error)]. *)
Definition Result : Type := string * option error.

Definition emit {A : Type} (evs : list Event) (r : A * list Event) : A * list Event :=
  (fst r, (evs ++ snd r)%list).

(** The integers up to [2^53] in magnitude are float64 values. *)
Definition float64Exact : Z := 2 ^ 53.

Fixpoint isPowerOfTwo (p : positive) : bool :=
  match p with
  | xH => true
  | xO p => isPowerOfTwo p
  | xI _ => false
  end.

(** The product of the duration [d] and the multiplier [m] is computed
    without rounding: [d] converts to float64 as it is, [m] is dyadic, and
    the product has a significand of at most 53 bits. *)
Definition exactProduct (d : Z) (m : Q) : bool :=
  isPowerOfTwo (Qden m)
  && (Z.abs d <=? float64Exact)
  && (Z.abs (d * Qnum m) <=? float64Exact).

(** [time.Duration(float64(d) * m)].  The multiplier, a float64, is the
    rational it denotes.  Where the product is exact the conversion drops
    its fraction; elsewhere (rounding, or a product beyond 64 bits) the
    result is the oracle's. *)
Definition scaleDuration (w : Env) (d : Z) (m : Q) : Z :=
  if exactProduct d m
  then Z.quot (d * Qnum m) (Zpos (Qden m))
  else float64_inexact w d m.

(** Lines 81-84 and 101-104: grow the delay, then cap it. *)
Definition growDelay (c : Client) (w : Env) (retryDelay : Z) : Z :=
  let retryDelay := scaleDuration w retryDelay (retryMultiplier c) in
  if retryDelay >? maxRetryDelay c then maxRetryDelay c else retryDelay.

Definition failedAfter (c : Client) : string :=
  "failed after " ++ itoa (maxRetries c) ++ " attempts: ".

Definition statusError (url : string) (resp : Response) : error :=
  errors_New ("failed to get metadata from " ++ url ++ ", status code: "
              ++ itoa (StatusCode resp) ++ ", response: " ++ Body resp).

(** The loop [for attempt := 0; attempt < c.maxRetries; attempt++].  The
    recursion is on the number of iterations still allowed,
    [maxRetries - attempt]; when none is left the loop condition fails and
    the function reaches its last [return] (line 123). *)
Fixpoint retryLoop (c : Client) (w : Env) (url : string) (remaining : nat)
    (attempt retryDelay : Z) (lastErr : option error) {struct remaining}
    : Result * list Event :=
  match remaining with
  | O => (("", Some (fmt_Errorf (failedAfter c) lastErr)), [])
  | S remaining =>
    match ctx_Err w attempt with
    | Some e =>
        (("", Some (fmt_Errorf "context cancelled: " (Some (context_Err e)))), [])
    | None =>
      match NewRequestWithContext w url with
      | Some err =>
          (("", Some (fmt_Errorf "error creating request: " (Some err))), [])
      | None =>
        emit [EvDo url]
        match Do w attempt with
        | DoError err =>
            let lastErr := fmt_Errorf "error executing request: " (Some err) in
            if attempt <? maxRetries c - 1 then
              emit [EvInfo (LogRetryTransport (attempt + 1) retryDelay err);
                    EvSleep retryDelay]
                (retryLoop c w url remaining (attempt + 1)
                           (growDelay c w retryDelay) (Some lastErr))
            else
              (("", Some (fmt_Errorf (failedAfter c) (Some lastErr))), [])
        | DoResponse resp =>
            if negb (StatusCode resp =? StatusOK) then
              let lastErr := statusError url resp in
              if ((500 <=? StatusCode resp) && (StatusCode resp <? 600))
                 || (StatusCode resp =? StatusTooManyRequests) then
                if attempt <? maxRetries c - 1 then
                  emit [EvInfo (LogRetryStatus (attempt + 1) (StatusCode resp) retryDelay);
                        EvSleep retryDelay]
                    (retryLoop c w url remaining (attempt + 1)
                               (growDelay c w retryDelay) (Some lastErr))
                else
                  (("", Some (fmt_Errorf (failedAfter c) (Some lastErr))), [])
              else
                (("", Some (fmt_Errorf (failedAfter c) (Some lastErr))), [])
            else
              match ReadErr resp with
              | Some err =>
                  (("", Some (fmt_Errorf "error reading response body: " (Some err))), [])
              | None =>
                  emit (if attempt >? 0 then [EvInfo (LogSucceeded (attempt + 1))] else [])
                       ((Body resp, None), [])
              end
        end
      end
    end
  end.

Definition FetchMetadata (c : Client) (w : Env) (url : string) : Result * list Event :=
  retryLoop c w url (Z.to_nat (maxRetries c)) 0 (baseRetryDelay c) None.

(** Observations on a trace. *)
Definition isDo (ev : Event) : bool :=
  match ev with EvDo _ => true | _ => false end.

Definition attempts (tr : list Event) : Z :=
  Z.of_nat (length (filter (fun ev => isDo ev = true) tr)).

Fixpoint sleeps (tr : list Event) : list Z :=
  match tr with
  | [] => []
  | EvSleep d :: tr => d :: sleeps tr
  | _ :: tr => sleeps tr
  end.

(** The sleeps of [k] consecutive retries that start with the delay [d]. *)
Fixpoint backoffs (c : Client) (w : Env) (d : Z) (k : nat) : list Z :=
  match k with
  | O => []
  | S k => d :: backoffs c w (growDelay c w d) k
  end.

(** The delay before attempt [k] as the specification gives it:
    [min (baseDelay * multiplier^(k-1)) maxDelay], a rational. *)
Definition closedFormDelay (c : Client) (k : Z) : Q :=
  Qmin (Qmult (inject_Z (baseRetryDelay c)) (Qpower (retryMultiplier c) (k - 1)))
       (inject_Z (maxRetryDelay c)).

(** The statuses the loop retries on. *)
Definition retryableStatus (s : Z) : bool :=
  ((500 <=? s) && (s <? 600)) || (s =? StatusTooManyRequests).

(** Iteration [i] ends in [continue] when it is not the last one: the
    context is live and the call fails in transport or with a retryable
    status. *)
Definition iterationRetries (w : Env) (i : Z) : bool :=
  match ctx_Err w i with
  | Some _ => false
  | None =>
      match Do w i with
      | DoError _ => true
      | DoResponse resp =>
          negb (StatusCode resp =? StatusOK) && retryableStatus (StatusCode resp)
      end
  end.

(** ** Health statuses, checks and responses *)

Definition HealthStatus : Type := string.
Definition HealthStatusHealthy : HealthStatus := "healthy".
Definition HealthStatusDegraded : HealthStatus := "degraded".
Definition HealthStatusUnhealthy : HealthStatus := "unhealthy".

(** A [time.Time]: an instant (nanoseconds) and the location it is shown in.
    [time.Now()] is in the local zone; [UTC] moves it to UTC. *)
Inductive Location : Type := Local | UTCLoc.

Record Time : Type := { instant : Z; location : Location }.

Definition UTC (t : Time) : Time := {| instant := instant t; location := UTCLoc |}.

Module HealthCheck.
Record t : Type := {
  Status : HealthStatus;
  Message : string;
  Duration : string;
  LastChecked : Time
}.
End HealthCheck.

Module HealthResponse.
Record t : Type := {
  Status : HealthStatus;
  Timestamp : Time;
  Uptime : string;
  Version : string;
  Checks : gmap string HealthCheck.t
}.
End HealthResponse.

(** What a handler leaves in its [http.ResponseWriter]. *)
Record Written : Type := {
  Code : Z;
  ContentType : string;
  Payload : string
}.

Definition newline : string := String (ascii_of_nat 10) EmptyString.

(** [http.Error(w, msg, code)]. *)
Definition http_Error (msg : string) (code : Z) : Written :=
  {| Code := code;
     ContentType := "text/plain; charset=utf-8";
     Payload := msg ++ newline |}.

(** The three counters of [determineOverallHealth]. *)
Record Counts : Type := {
  healthyCount : Z;
  degradedCount : Z;
  unhealthyCount : Z
}.

(** The [switch check.Status] of the loop body: one counter moves when the
    status is one of the three constants, none otherwise. *)
Definition countCheck (n : Counts) (check : HealthCheck.t) : Counts :=
  if String.eqb (HealthCheck.Status check) HealthStatusHealthy then
    {| healthyCount := healthyCount n + 1;
       degradedCount := degradedCount n;
       unhealthyCount := unhealthyCount n |}
  else if String.eqb (HealthCheck.Status check) HealthStatusDegraded then
    {| healthyCount := healthyCount n;
       degradedCount := degradedCount n + 1;
       unhealthyCount := unhealthyCount n |}
  else if String.eqb (HealthCheck.Status check) HealthStatusUnhealthy then
    {| healthyCount := healthyCount n;
       degradedCount := degradedCount n;
       unhealthyCount := unhealthyCount n + 1 |}
  else n.

(** [for _, check := range checks] along one iteration order of the map. *)
Definition countChecks (order : list (string * HealthCheck.t)) : Counts :=
  fold_left (fun n entry => countCheck n (snd entry)) order
            {| healthyCount := 0; degradedCount := 0; unhealthyCount := 0 |}.

Definition overallOf (n : Counts) : HealthStatus :=
  if unhealthyCount n >? 0 then HealthStatusUnhealthy
  else if degradedCount n >? 0 then HealthStatusDegraded
  else HealthStatusHealthy.

(** [determineOverallHealth] when the runtime ranges over the map in the
    order [order]; Go leaves that order unspecified. *)
Definition determineOverallHealthIn (order : list (string * HealthCheck.t)) : HealthStatus :=
  overallOf (countChecks order).

Definition determineOverallHealth (checks : gmap string HealthCheck.t) : HealthStatus :=
  determineOverallHealthIn (map_to_list checks).

(** The surroundings of one health probe: the child context and the
    network during the fetch, the reading of [time.Since(checkStart)], the
    value of [checkCtx.Err()] after the fetch and the reading of
    [time.Now()] that dates the check. *)
Record ProbeEnv : Type := {
  probeFetch : Env;
  probeElapsed : Z;
  probeCtxErr : option ctxErr;
  probeNow : Time
}.

(** The surroundings of one health request. *)
Record HealthEnv : Type := {
  healthProbe : ProbeEnv;
  healthTimestamp : Time;
  healthUptime : Z;
  serverElapsed : Z;
  serverNow : Time;
  healthTook : Z
}.

Section Handlers.

(** [time.Duration.String], [json.Marshal] on a health response and
    [json.Encoder.Encode] on a one-entry [map[string]string] belong to the
    Go library. *)
Variable Duration_String : Z -> string.
Variable json_Marshal : HealthResponse.t -> string * option error.
Variable json_Encode : string -> string -> string * option error.

Definition checkMetadataService (c : Client) (p : ProbeEnv)
    : HealthCheck.t * list Event :=
  let fetched := FetchMetadata c (probeFetch p) ClusterNameURL in
  let duration := probeElapsed p in
  let check :=
    match snd (fst fetched) with
    | Some err =>
        if match probeCtxErr p with
           | Some e => ctxErr_eqb e DeadlineExceeded
           | None => false
           end
        then
          {| HealthCheck.Status := HealthStatusUnhealthy;
             HealthCheck.Message := "Metadata service timeout";
             HealthCheck.Duration := Duration_String duration;
             HealthCheck.LastChecked := UTC (probeNow p) |}
        else
          {| HealthCheck.Status := HealthStatusDegraded;
             HealthCheck.Message := "Metadata service error: " ++ Error err;
             HealthCheck.Duration := Duration_String duration;
             HealthCheck.LastChecked := UTC (probeNow p) |}
    | None =>
        if duration >? 1 * Second then
          {| HealthCheck.Status := HealthStatusDegraded;
             HealthCheck.Message := "Metadata service responding slowly";
             HealthCheck.Duration := Duration_String duration;
             HealthCheck.LastChecked := UTC (probeNow p) |}
        else
          {| HealthCheck.Status := HealthStatusHealthy;
             HealthCheck.Message := "Metadata service is responsive";
             HealthCheck.Duration := Duration_String duration;
             HealthCheck.LastChecked := UTC (probeNow p) |}
    end in
  (check, (EvWithTimeout (3 * Second) :: snd fetched)%list).

(** The checks and the overall status the enhanced handler assembles. *)
Definition assembleHealth (c : Client) (e : HealthEnv) : HealthResponse.t * list Event :=
  let probed := checkMetadataService c (healthProbe e) in
  let checks : gmap string HealthCheck.t := ∅ in
  let checks := <["metadata_service" := fst probed]> checks in
  let checks :=
    <["http_server" :=
        {| HealthCheck.Status := HealthStatusHealthy;
           HealthCheck.Message := "HTTP server is responding";
           HealthCheck.Duration := Duration_String (serverElapsed e);
           HealthCheck.LastChecked := UTC (serverNow e) |}]> checks in
  ({| HealthResponse.Status := determineOverallHealth checks;
      HealthResponse.Timestamp := UTC (healthTimestamp e);
      HealthResponse.Uptime := Duration_String (healthUptime e);
      HealthResponse.Version := "1.0.0";
      HealthResponse.Checks := checks |}, snd probed).

Definition EnhancedHealthCheckHandler (c : Client) (e : HealthEnv)
    : Written * list Event :=
  let assembled := assembleHealth c e in
  let health := fst assembled in
  match json_Marshal health with
  | (_, Some err) =>
      (http_Error "Failed to encode health response" StatusInternalServerError,
       (snd assembled ++
        [EvError (LogText ("Error encoding health response: " ++ Error err))])%list)
  | (jsonData, None) =>
      let code :=
        if String.eqb (HealthResponse.Status health) HealthStatusHealthy then StatusOK
        else if String.eqb (HealthResponse.Status health) HealthStatusDegraded then StatusOK
        else StatusServiceUnavailable in
      ({| Code := code; ContentType := "application/json"; Payload := jsonData |},
       (snd assembled ++
        [EvInfo (LogText ("Health check completed: " ++ HealthResponse.Status health
                          ++ " (took " ++ Duration_String (healthTook e) ++ ")"))])%list)
  end.

(** The [switch metadataType] that picks the upstream URL. *)
Definition metadataURL (metadataType : string) : option string :=
  if String.eqb metadataType "cluster-name" then Some ClusterNameURL
  else if String.eqb metadataType "cluster-location" then Some ClusterLocationURL
  else if String.eqb metadataType "instance-zone" then Some InstanceZoneURL
  else None.

Definition MetadataHandler (fetchMetadataFunc : string -> Result) (path : string)
    : Written * list Event :=
  emit [EvInfo (LogText ("Received request for " ++ path))]
  (let cleanPath := strings_TrimSuffix path "/" in
   let pathParts := strings_Split cleanPath "/"%char in
   if negb (length pathParts =? 4)%nat then
     (http_Error "Invalid request: expected /istio-test/metadata/{type}" StatusBadRequest,
      [EvError (LogText ("Invalid request: " ++ path))])
   else
     let metadataType := nth 3 pathParts "" in
     match metadataURL metadataType with
     | None =>
         (http_Error "Unknown metadata type" StatusBadRequest,
          [EvError (LogText ("Unknown metadata type: " ++ metadataType))])
     | Some url =>
         match fetchMetadataFunc url with
         | (_, Some err) =>
             (http_Error "Failed to fetch metadata" StatusBadGateway,
              [EvError (LogText ("Failed to fetch metadata: " ++ Error err))])
         | (metadata, None) =>
             let transformed : option string :=
               if String.eqb metadataType "instance-zone" then
                 let instanceZoneParts := strings_Split metadata "/"%char in
                 if (0 <? length instanceZoneParts)%nat
                 then Some (nth (length instanceZoneParts - 1) instanceZoneParts "")
                 else None
               else Some metadata in
             match transformed with
             | None =>
                 (http_Error "Unexpected format for instance-zone metadata"
                             StatusInternalServerError,
                  [EvError (LogText ("Unexpected format for instance-zone metadata: "
                                     ++ metadata))])
             | Some metadata =>
                 match json_Encode metadataType metadata with
                 | (_, Some _) =>
                     (http_Error "Failed to encode response" StatusInternalServerError, [])
                 | (buf, None) =>
                     ({| Code := StatusOK;
                         ContentType := "application/json";
                         Payload := buf |}, [])
                 end
             end
         end
     end).

End Handlers.

(** ** The aggregation in the words of the specification *)

(** Some check of the map carries the status [s]. *)
Definition anyWithStatus (s : HealthStatus) (checks : gmap string HealthCheck.t) : Prop :=
  exists name check, checks !! name = Some check /\ HealthCheck.Status check = s.

(** The number of entries that carry the status [s]. *)
Definition statusCount (s : HealthStatus) (order : list (string * HealthCheck.t)) : Z :=
  Z.of_nat (length (filter (fun entry => HealthCheck.Status (snd entry) = s) order)).

(** One of the three constants. *)
Definition knownStatus (s : HealthStatus) : Prop :=
  s = HealthStatusHealthy \/ s = HealthStatusDegraded \/ s = HealthStatusUnhealthy.

(** The total order [healthy < degraded < unhealthy] and its maximum. *)
Definition severity (s : HealthStatus) : Z :=
  if String.eqb s HealthStatusUnhealthy then 2
  else if String.eqb s HealthStatusDegraded then 1
  else 0.

Definition maxStatus (a b : HealthStatus) : HealthStatus :=
  if severity a <? severity b then b else a.

Definition maximumStatus (statuses : list HealthStatus) : HealthStatus :=
  foldr maxStatus HealthStatusHealthy statuses.

(** The specification's example [{a:healthy, b:degraded, c:unhealthy}]. *)
Definition bare (s : HealthStatus) : HealthCheck.t :=
  {| HealthCheck.Status := s;
     HealthCheck.Message := "";
     HealthCheck.Duration := "";
     HealthCheck.LastChecked := {| instant := 0; location := UTCLoc |} |}.

Definition mixedChecks : gmap string HealthCheck.t :=
  <["a" := bare HealthStatusHealthy]>
    (<["b" := bare HealthStatusDegraded]>
       (<["c" := bare HealthStatusUnhealthy]> ∅)).

Definition strangeChecks : gmap string HealthCheck.t :=
  <["a" := bare "unknown"]> (<["b" := bare "HEALTHY"]> ∅).

(** ** Segments of a path, in the words of the specification *)

(** [strings.Join(pieces, sep)] for a separator of one byte. *)
Fixpoint strings_Join (pieces : list string) (sep : ascii) : string :=
  match pieces with
  | [] => EmptyString
  | piece :: rest =>
      match rest with
      | [] => piece
      | _ :: _ => piece ++ String sep (strings_Join rest sep)
      end
  end.

(** The byte [ch] occurs in [s]. *)
Fixpoint hasByte (ch : ascii) (s : string) : bool :=
  match s with
  | EmptyString => false
  | String ch' rest => Ascii.eqb ch' ch || hasByte ch rest
  end.

(** The answer the handler gives for a type and a value, once fetched. *)
Definition metadataAnswer (json_Encode : string -> string -> string * option error)
    (metadataType value : string) : Written :=
  match json_Encode metadataType value with
  | (_, Some _) => http_Error "Failed to encode response" StatusInternalServerError
  | (buf, None) =>
      {| Code := StatusOK; ContentType := "application/json"; Payload := buf |}
  end.

(** ** Sample clients and surroundings *)

(** An upstream that refuses every connection. *)
Definition refusing : Env :=
  {| ctx_Err := fun _ => None;
     NewRequestWithContext := fun _ => None;
     Do := fun _ => DoError (errors_New "dial tcp: connection refused");
     float64_inexact := fun _ _ => 0 |}.

(** An upstream that answers every call with the same response. *)
Definition answering (status : Z) (body : string) : Env :=
  {| ctx_Err := fun _ => None;
     NewRequestWithContext := fun _ => None;
     Do := fun _ => DoResponse {| StatusCode := status; Body := body; ReadErr := None |};
     float64_inexact := fun _ _ => 0 |}.

(** A context that is done before the call. *)
Definition cancelled : Env :=
  {| ctx_Err := fun _ => Some Canceled;
     NewRequestWithContext := fun _ => None;
     Do := fun _ => DoError (errors_New "context canceled");
     float64_inexact := fun _ _ => 0 |}.

(** A client whose first delay is above its cap. *)
Definition eagerClient : Client :=
  NewClient (10 * Second) 2 (5 * Second) (2 * Second) (inject_Z 2).

(** A client with a fractional multiplier, 1.5, on a base of one nanosecond. *)
Definition fractionalClient : Client :=
  NewClient (10 * Second) 5 1 10 (Qmake 3 2).

(** A client that is allowed no attempt. *)
Definition idleClient : Client :=
  NewClient (10 * Second) 0 (100 * Millisecond) (2 * Second) (inject_Z 2).

(** A client with a negative multiplier. *)
Definition contraryClient : Client :=
  NewClient (10 * Second) 5 1 5 (inject_Z (-3)).

(** A context whose deadline has passed. *)
Definition expired : Env :=
  {| ctx_Err := fun _ => Some DeadlineExceeded;
     NewRequestWithContext := fun _ => None;
     Do := fun _ => DoError (errors_New "context deadline exceeded");
     float64_inexact := fun _ _ => 0 |}.

(** A probe that ran into the deadline of its context. *)
Definition timedOutProbe : ProbeEnv :=
  {| probeFetch := expired;
     probeElapsed := 3 * Second + 1;
     probeCtxErr := Some DeadlineExceeded;
     probeNow := {| instant := 1700000000 * Second; location := Local |} |}.

Definition timedOutHealth : HealthEnv :=
  {| healthProbe := timedOutProbe;
     healthTimestamp := {| instant := 1700000000 * Second; location := Local |};
     healthUptime := 60 * Second;
     serverElapsed := 3 * Second + 2;
     serverNow := {| instant := 1700000000 * Second; location := Local |};
     healthTook := 3 * Second + 3 |}.

(** [MockFetchMetadata] of the package's tests. *)
Definition mockFetchMetadata (url : string) : Result :=
  if String.eqb url ClusterNameURL then ("test-cluster-name", None)
  else if String.eqb url ClusterLocationURL then ("test-cluster-location", None)
  else if String.eqb url InstanceZoneURL
       then ("projects/1234567890/zones/us-central1-a", None)
       else ("", Some (errors_New ("unknown URL: " ++ url))).

(** The maps of [TestDetermineOverallHealth]. *)
Definition twoChecks (s1 s2 : HealthStatus) : gmap string HealthCheck.t :=
  <["service1" := bare s1]> (<["service2" := bare s2]> ∅).

Definition threeChecks (s1 s2 s3 : HealthStatus) : gmap string HealthCheck.t :=
  <["service1" := bare s1]> (<["service2" := bare s2]> (<["service3" := bare s3]> ∅)).

(** Stand-ins for the renderings of the Go library in the samples. *)
Definition showNanos (d : Z) : string := itoa d ++ "ns".

Definition showHealth (health : HealthResponse.t) : string * option error :=
  ("{status:" ++ HealthResponse.Status health ++ "}", None).

Definition showEntry (key value : string) : string * option error :=
  ("{" ++ key ++ ":" ++ value ++ "}" ++ newline, None).

(** ** Further definitions for the properties beyond the claims *)

(** The error an iteration leaves in [lastErr] when its call fails. *)
Definition failureOf (url : string) (r : DoResult) : error :=
  match r with
  | DoError err => wrapError "error executing request: " err
  | DoResponse resp => statusError url resp
  end.

(** The segments the metadata handler cuts a path into. *)
Definition pathParts (path : string) : list string :=
  strings_Split (strings_TrimSuffix path "/") "/".

(** A fetch that always fails, with a value beside the error. *)
Definition failingFetch (url : string) : Result :=
  ("partial", Some (errors_New ("dial tcp 169.254.169.254:80 for " ++ url))).

(** A fetch that knows the cluster name and nothing else. *)
Definition nameOnlyFetch (url : string) : Result :=
  if String.eqb url ClusterNameURL then ("test-cluster-name", None)
  else ("", Some (errors_New "not served")).

(** A URL no request can be built for. *)
Definition malformed : Env :=
  {| ctx_Err := fun _ => None;
     NewRequestWithContext := fun _ => Some (errors_New "missing protocol scheme");
     Do := fun _ => DoError (errors_New "unreachable");
     float64_inexact := fun _ _ => 0 |}.

(** An upstream that answers 200 and breaks off in the middle of the body. *)
Definition truncating : Env :=
  {| ctx_Err := fun _ => None;
     NewRequestWithContext := fun _ => None;
     Do := fun _ => DoResponse {| StatusCode := 200; Body := "test-clu";
                                  ReadErr := Some (errors_New "unexpected EOF") |};
     float64_inexact := fun _ _ => 0 |}.

(** ** The response writer of [net/http], as far as the handlers use it *)

(** [textproto.CanonicalMIMEHeaderKey]: a key made of token bytes gets an
    upper-case letter first and after every dash and lower-case letters
    elsewhere; any other key is left as it is. *)
Definition validHeaderFieldByte (ch : ascii) : bool :=
  let n := nat_of_ascii ch in
  ((48 <=? n) && (n <=? 57) || (65 <=? n) && (n <=? 90) || (97 <=? n) && (n <=? 122)
   || existsb (Nat.eqb n) [33; 35; 36; 37; 38; 39; 42; 43; 45; 46; 94; 95; 96; 124; 126])%nat.

Fixpoint allHeaderFieldBytes (s : string) : bool :=
  match s with
  | EmptyString => true
  | String ch rest => validHeaderFieldByte ch && allHeaderFieldBytes rest
  end.

Fixpoint canonicalFrom (upper : bool) (s : string) : string :=
  match s with
  | EmptyString => EmptyString
  | String ch rest =>
      let n := nat_of_ascii ch in
      let ch' :=
        if (upper && (97 <=? n) && (n <=? 122))%nat then ascii_of_nat (n - 32)
        else if (negb upper && (65 <=? n) && (n <=? 90))%nat then ascii_of_nat (n + 32)
        else ch in
      String ch' (canonicalFrom (Ascii.eqb ch' "-") rest)
  end.

Definition CanonicalMIMEHeaderKey (key : string) : string :=
  if allHeaderFieldBytes key then canonicalFrom true key else key.

(** An [http.ResponseWriter] of the server: the header map the handler
    works on, the status once it is written, the headers as they stood at
    that moment (the ones that are sent), the body written so far, and
    the error a write reports, if writes fail on this writer.  Every
    header here has one value, since the handlers only ever [Set]. *)
Record ResponseWriter : Type := {
  rwHeader : gmap string string;
  rwStatus : option Z;
  rwSent : gmap string string;
  rwBody : string;
  rwBroken : option error
}.

Definition NewRecorder (broken : option error) : ResponseWriter :=
  {| rwHeader := ∅; rwStatus := None; rwSent := ∅; rwBody := ""; rwBroken := broken |}.

(** [w.Header().Set(key, value)] and [w.Header().Del(key)]. *)
Definition Header_Set (key value : string) (w : ResponseWriter) : ResponseWriter :=
  {| rwHeader := <[CanonicalMIMEHeaderKey key := value]> (rwHeader w);
     rwStatus := rwStatus w; rwSent := rwSent w;
     rwBody := rwBody w; rwBroken := rwBroken w |}.

Definition Header_Del (key : string) (w : ResponseWriter) : ResponseWriter :=
  {| rwHeader := delete (CanonicalMIMEHeaderKey key) (rwHeader w);
     rwStatus := rwStatus w; rwSent := rwSent w;
     rwBody := rwBody w; rwBroken := rwBroken w |}.

Definition Header_Get (key : string) (h : gmap string string) : string :=
  default "" (h !! CanonicalMIMEHeaderKey key).

(** [w.WriteHeader(code)]: the first call fixes the status and the headers
    that are sent; a later call is superfluous and changes nothing. *)
Definition WriteHeader (code : Z) (w : ResponseWriter) : ResponseWriter :=
  match rwStatus w with
  | Some _ => w
  | None =>
      {| rwHeader := rwHeader w; rwStatus := Some code; rwSent := rwHeader w;
         rwBody := rwBody w; rwBroken := rwBroken w |}
  end.

(** [w.Write(data)]: writes the header with status 200 if none is written
    yet, then the data, unless writes fail on this writer. *)
Definition Write (data : string) (w : ResponseWriter) : ResponseWriter * option error :=
  let w := WriteHeader StatusOK w in
  match rwBroken w with
  | Some err => (w, Some err)
  | None =>
      ({| rwHeader := rwHeader w; rwStatus := rwStatus w; rwSent := rwSent w;
          rwBody := rwBody w ++ data; rwBroken := rwBroken w |}, None)
  end.

(** [http.Error(w, error, code)] on a writer. *)
Definition http_ErrorW (msg : string) (code : Z) (w : ResponseWriter) : ResponseWriter :=
  let w := Header_Del "Content-Length" w in
  let w := Header_Set "Content-Type" "text/plain; charset=utf-8" w in
  let w := Header_Set "X-Content-Type-Options" "nosniff" w in
  let w := WriteHeader code w in
  fst (Write (msg ++ newline) w).

(** The part of an [*http.Request] the middleware and the loggers read. *)
Record Request : Type := {
  Method : string;
  URL_Path : string;
  URL_RawQuery : string;
  RemoteAddr : string;
  Request_Header_Get : string -> string
}.

Definition HandlerFunc : Type := Request -> ResponseWriter -> ResponseWriter * list Event.

(** ** Package [security] *)

Record SecurityHeadersOptions : Type := {
  COEP : string;
  COOP : string;
  CORP : string;
  EnableStrictCSP : bool;
  CacheControl : string
}.

Definition StrictSecurityOptions : SecurityHeadersOptions :=
  {| COEP := "require-corp"; COOP := "same-origin"; CORP := "same-origin";
     EnableStrictCSP := true; CacheControl := "" |}.

Definition APISecurityOptions : SecurityHeadersOptions :=
  {| COEP := ""; COOP := "same-origin-allow-popups"; CORP := "cross-origin";
     EnableStrictCSP := false; CacheControl := "" |}.

Definition CustomSecurityOptions (coep coop corp : string) : SecurityHeadersOptions :=
  {| COEP := coep; COOP := coop; CORP := corp;
     EnableStrictCSP := false; CacheControl := "" |}.

Definition setSecurityHeadersWithOptions (w : ResponseWriter)
    (options : SecurityHeadersOptions) : ResponseWriter :=
  let w := Header_Set "X-Content-Type-Options" "nosniff" w in
  let w := Header_Set "X-Frame-Options" "DENY" w in
  let w := Header_Set "X-XSS-Protection" "1; mode=block" w in
  let w := Header_Set "Referrer-Policy" "strict-origin-when-cross-origin" w in
  let w := Header_Set "X-Permitted-Cross-Domain-Policies" "none" w in
  let w := Header_Set "Server" "istio-test" w in
  let w :=
    if EnableStrictCSP options
    then Header_Set "Content-Security-Policy" "default-src 'none'; frame-ancestors 'none'" w
    else Header_Set "Content-Security-Policy" "default-src 'self'; frame-ancestors 'none'" w in
  let w :=
    if negb (String.eqb (CacheControl options) "")
    then Header_Set "Cache-Control" (CacheControl options) w
    else Header_Set "Cache-Control" "no-cache, no-store, must-revalidate, private" w in
  let w := Header_Set "Pragma" "no-cache" w in
  let w := Header_Set "Expires" "0" w in
  let w :=
    if negb (String.eqb (COEP options) "")
    then Header_Set "Cross-Origin-Embedder-Policy" (COEP options) w else w in
  let w :=
    if negb (String.eqb (COOP options) "")
    then Header_Set "Cross-Origin-Opener-Policy" (COOP options) w else w in
  let w :=
    if negb (String.eqb (CORP options) "")
    then Header_Set "Cross-Origin-Resource-Policy" (CORP options) w else w in
  w.

Definition setSecurityHeaders (w : ResponseWriter) : ResponseWriter :=
  setSecurityHeadersWithOptions w StrictSecurityOptions.

(** [joinMethods]: the first method, then ", " and the next one, in turn. *)
Definition joinMethods (methods : list string) : string :=
  match methods with
  | [] => ""
  | first :: rest => fold_left (fun result method => result ++ ", " ++ method) rest first
  end.

(** The loop that looks for [r.Method] among the allowed methods. *)
Fixpoint methodAllowed (allowedMethods : list string) (method : string) : bool :=
  match allowedMethods with
  | [] => false
  | allowed :: rest => if String.eqb method allowed then true else methodAllowed rest method
  end.

Definition StatusMethodNotAllowed : Z := 405.
Definition StatusNotFound : Z := 404.

Definition MethodValidationMiddlewareFuncWithOptions (options : SecurityHeadersOptions)
    (allowedMethods : list string) (next : HandlerFunc) : HandlerFunc :=
  fun r w =>
    if negb (methodAllowed allowedMethods (Method r)) then
      let w := setSecurityHeadersWithOptions w options in
      let w := Header_Set "Allow" (joinMethods allowedMethods) w in
      (http_ErrorW "Method Not Allowed" StatusMethodNotAllowed w, [])
    else
      let w := setSecurityHeadersWithOptions w options in
      next r w.

Definition SecurityMiddlewareFuncWithOptions (next : HandlerFunc)
    (options : SecurityHeadersOptions) : HandlerFunc :=
  fun r w =>
    let w := setSecurityHeadersWithOptions w options in
    next r w.

Definition SecureHandlerWithOptions (allowedMethods : list string) (handler : HandlerFunc)
    (options : SecurityHeadersOptions) : HandlerFunc :=
  MethodValidationMiddlewareFuncWithOptions options allowedMethods
    (SecurityMiddlewareFuncWithOptions handler options).

Definition SecureHandler (allowedMethods : list string) (handler : HandlerFunc) : HandlerFunc :=
  SecureHandlerWithOptions allowedMethods handler StrictSecurityOptions.

(** ** The plain handlers of package [metadata], on a writer *)

Definition HealthCheckHandler : HandlerFunc :=
  fun r w =>
    let w := Header_Set "Content-Type" "text/plain; charset=utf-8" w in
    let w := WriteHeader StatusOK w in
    match Write "OK" w with
    | (w, Some err) =>
        (http_ErrorW "Failed to write response" StatusInternalServerError w,
         [EvError (LogText ("Error writing response: " ++ Error err))])
    | (w, None) => (w, [])
    end.

Definition NotFoundHandler : HandlerFunc :=
  fun r w => (http_ErrorW "Not Found" StatusNotFound w, []).

Definition SecureHealthCheckHandler : HandlerFunc :=
  SecureHandler ["GET"; "HEAD"] HealthCheckHandler.

Definition SecureHealthCheckHandlerWithOptions (options : SecurityHeadersOptions)
    : HandlerFunc :=
  SecureHandlerWithOptions ["GET"; "HEAD"] HealthCheckHandler options.

Definition SecureNotFoundHandler : HandlerFunc :=
  SecurityMiddlewareFuncWithOptions NotFoundHandler StrictSecurityOptions.

Definition SecureNotFoundHandlerWithOptions (options : SecurityHeadersOptions)
    : HandlerFunc :=
  SecurityMiddlewareFuncWithOptions NotFoundHandler options.

(** Sample requests. *)
Definition request (method path : string) : Request :=
  {| Method := method; URL_Path := path; URL_RawQuery := "";
     RemoteAddr := "10.0.0.7:51234"; Request_Header_Get := fun _ => "" |}.

(** The headers [setSecurityHeadersWithOptions] puts on an empty map. *)
Definition securityHeaderMap (options : SecurityHeadersOptions) : gmap string string :=
  rwHeader (setSecurityHeadersWithOptions (NewRecorder None) options).

(** The names, in canonical form, of the headers the middleware sets. *)
Definition securityHeaderNames : list string :=
  ["X-Content-Type-Options"; "X-Frame-Options"; "X-Xss-Protection"; "Referrer-Policy";
   "X-Permitted-Cross-Domain-Policies"; "Server"; "Content-Security-Policy";
   "Cache-Control"; "Pragma"; "Expires"; "Cross-Origin-Embedder-Policy";
   "Cross-Origin-Opener-Policy"; "Cross-Origin-Resource-Policy"].

(** An encoder that fails on every health response. *)
Definition failingMarshal (health : HealthResponse.t) : string * option error :=
  ("", Some (errors_New "json: unsupported value")).

(** A writer whose connection is gone, and one that holds a header. *)
Definition brokenPipe : error := errors_New "write: broken pipe".

Definition jsonWriter : ResponseWriter :=
  Header_Set "Content-Type" "application/json" (NewRecorder None).

(** A handler that answers 204 and logs its request's method. *)
Definition noContent : HandlerFunc :=
  fun r w => (WriteHeader 204 w, [EvInfo (LogText ("served " ++ Method r))]).

(** The headers of [w'] are those of [w] laid over [h]. *)
Definition overlays (h : gmap string string) (w' w : ResponseWriter) : Prop :=
  rwHeader w' = rwHeader w ∪ h.

(** ** Package [observability] *)

(** [responseWrapper]: the writer it wraps, the status code it last saw
    and the number of bytes written through it. *)
Record responseWrapper : Type := {
  wrapped : ResponseWriter;
  statusCode : Z;
  size : Z
}.

Definition newResponseWrapper (w : ResponseWriter) : responseWrapper :=
  {| wrapped := w; statusCode := StatusOK; size := 0 |}.

Definition responseWrapper_WriteHeader (code : Z) (rw : responseWrapper)
    : responseWrapper :=
  {| wrapped := WriteHeader code (wrapped rw); statusCode := code; size := size rw |}.

(** The count [w.Write(data)] returns beside its error: a write that
    fails writes nothing. *)
Definition writtenCount (data : string) (err : option error) : Z :=
  match err with
  | Some _ => 0
  | None => Z.of_nat (String.length data)
  end.

Definition responseWrapper_Write (data : string) (rw : responseWrapper)
    : responseWrapper * (Z * option error) :=
  let '(w, err) := Write data (wrapped rw) in
  let size' := writtenCount data err in
  ({| wrapped := w; statusCode := statusCode rw; size := size rw + size' |}, (size', err)).

(** What a handler can do to the writer it is given; [Header] is promoted
    from the wrapped writer, so [Set] and [Del] reach it directly. *)
Inductive WriterCall : Type :=
  | CallHeaderSet (key value : string)
  | CallHeaderDel (key : string)
  | CallWriteHeader (code : Z)
  | CallWrite (data : string).

Definition callWriter (w : ResponseWriter) (call : WriterCall) : ResponseWriter :=
  match call with
  | CallHeaderSet key value => Header_Set key value w
  | CallHeaderDel key => Header_Del key w
  | CallWriteHeader code => WriteHeader code w
  | CallWrite data => fst (Write data w)
  end.

Definition callWrapper (rw : responseWrapper) (call : WriterCall) : responseWrapper :=
  match call with
  | CallHeaderSet key value =>
      {| wrapped := Header_Set key value (wrapped rw);
         statusCode := statusCode rw; size := size rw |}
  | CallHeaderDel key =>
      {| wrapped := Header_Del key (wrapped rw);
         statusCode := statusCode rw; size := size rw |}
  | CallWriteHeader code => responseWrapper_WriteHeader code rw
  | CallWrite data => fst (responseWrapper_Write data rw)
  end.

(** The codes of the [WriteHeader] calls, and the codes that would fix the
    status of a fresh writer: a [Write] stands for 200 there. *)
Definition headerCodes (calls : list WriterCall) : list Z :=
  omap (fun call => match call with CallWriteHeader code => Some code | _ => None end)
       calls.

Definition statusCodes (calls : list WriterCall) : list Z :=
  omap (fun call =>
          match call with
          | CallWriteHeader code => Some code
          | CallWrite _ => Some StatusOK
          | _ => None
          end) calls.

(** The calls [HealthCheckHandler] makes when its write of [OK] fails. *)
Definition failedHealthCheckCalls : list WriterCall :=
  [CallHeaderSet "Content-Type" "text/plain; charset=utf-8";
   CallWriteHeader StatusOK; CallWrite "OK";
   CallHeaderDel "Content-Length";
   CallHeaderSet "Content-Type" "text/plain; charset=utf-8";
   CallHeaderSet "X-Content-Type-Options" "nosniff";
   CallWriteHeader StatusInternalServerError;
   CallWrite ("Failed to write response" ++ newline)].

Module observability.

Record Config : Type := { EnablePIIRedaction : bool }.

End observability.

Section Observability.

(** [strings.TrimSpace], [net.SplitHostPort], [url.ParseQuery] and
    [url.Values.Encode] belong to the Go library. *)
Variable strings_TrimSpace : string -> string.
Variable net_SplitHostPort : string -> (string * string) * option error.
Variable url_ParseQuery : string -> gmap string (list string) * option error.
Variable url_Values_Encode : gmap string (list string) -> string.

Definition getClientIP (r : Request) : string :=
  let xff := Request_Header_Get r "X-Forwarded-For" in
  if negb (String.eqb xff "") then
    let ips := strings_Split xff ","%char in
    strings_TrimSpace (nth 0 ips "")
  else
    let xri := Request_Header_Get r "X-Real-IP" in
    if negb (String.eqb xri "") then strings_TrimSpace xri
    else
      let ip := RemoteAddr r in
      match net_SplitHostPort ip with
      | ((host, _), None) => strings_TrimSpace host
      | (_, Some _) => strings_TrimSpace ip
      end.

(** The loop over the parsed query: the values of [page] and [limit] are
    kept, those of every other key are replaced; the keys stay. *)
Definition sanitizeParams (queryValues : gmap string (list string))
    : gmap string (list string) :=
  map_imap (fun key values =>
              Some (if String.eqb key "page" || String.eqb key "limit"
                    then values else ["<redacted>"])) queryValues.

Definition redactRequestFields (r : Request) (cfg : observability.Config)
    : string * string * string :=
  if negb (observability.EnablePIIRedaction cfg) then
    (URL_RawQuery r, getClientIP r, Request_Header_Get r "User-Agent")
  else
    let sanitizedQuery :=
      if negb (String.eqb (URL_RawQuery r) "") then
        match url_ParseQuery (URL_RawQuery r) with
        | (_, Some _) => "<invalid_query>"
        | (queryValues, None) => url_Values_Encode (sanitizeParams queryValues)
        end
      else "" in
    let clientIP := getClientIP r in
    let sanitizedIP :=
      if hasByte "." clientIP && negb (hasByte ":" clientIP) then
        let parts := strings_Split clientIP "."%char in
        if (length parts =? 4)%nat then nth 0 parts "" ++ ".0.0.0" else "redacted"
      else "redacted" in
    let userAgent := Request_Header_Get r "User-Agent" in
    let sanitizedUserAgent :=
      if (100 <? String.length userAgent)%nat then substring 0 100 userAgent
      else userAgent in
    let sanitizedUserAgent :=
      if String.eqb sanitizedUserAgent "" then "<redacted>" else sanitizedUserAgent in
    (sanitizedQuery, sanitizedIP, sanitizedUserAgent).

End Observability.

(** Stand-ins for the Go library in the samples: a split at the last
    colon, and a query that does not parse. *)
Definition splitAtLastColon (hostport : string) : (string * string) * option error :=
  let pieces := strings_Split hostport ":"%char in
  if (length pieces <? 2)%nat then (("", ""), Some (errors_New "missing port in address"))
  else ((strings_Join (removelast pieces) ":"%char, List.last pieces ""), None).

Definition unparsedQuery (query : string) : gmap string (list string) * option error :=
  (∅, Some (errors_New "invalid semicolon separator in query")).

Definition noEncoding (values : gmap string (list string)) : string := "".

(** A request that came through a proxy. *)
Definition proxied : Request :=
  {| Method := "GET"; URL_Path := "/istio-test/health"; URL_RawQuery := "token=s3cret";
     RemoteAddr := "10.0.0.7:51234";
     Request_Header_Get := fun key =>
       if String.eqb key "X-Forwarded-For" then "203.0.113.9, 10.0.0.1"
       else if String.eqb key "User-Agent" then "curl/8.5.0"
       else "" |}.

(** ** Package [config] *)

(** A [float64] as [strconv.ParseFloat] can return it. *)
Inductive float64 : Type :=
  | Finite (q : Q)
  | PosInf
  | NegInf
  | NaN.

(** [f > 0] on a [float64]. *)
Definition float64_positive (f : float64) : bool :=
  match f with
  | Finite q => negb (Qle_bool q 0)
  | PosInf => true
  | NegInf | NaN => false
  end.

Record ServerConfig : Type := {
  Port : string;
  ReadTimeout : Z;
  WriteTimeout : Z;
  IdleTimeout : Z
}.

Record MetadataConfig : Type := {
  HTTPTimeout : Z;
  MaxRetries : Z;
  BaseRetryDelay : Z;
  MaxRetryDelay : Z;
  RetryMultiplier : float64
}.

Record ObservabilityConfig : Type := {
  LogLevel : string;
  EnableProfiler : bool;
  EnableTracing : bool;
  EnablePIIRedaction : bool;
  ShutdownTimeout : Z
}.

Record SecurityConfig : Type := {
  DefaultCOEP : string;
  DefaultCOOP : string;
  DefaultCORP : string;
  APICOEP : string;
  APICOOP : string;
  APICORP : string
}.

Record Config : Type := {
  Server : ServerConfig;
  Metadata : MetadataConfig;
  Observability : ObservabilityConfig;
  Security : SecurityConfig
}.

(** [strings.Join(elems, sep)]. *)
Fixpoint strings_Join_by (elems : list string) (sep : string) : string :=
  match elems with
  | [] => ""
  | [elem] => elem
  | elem :: rest => elem ++ sep ++ strings_Join_by rest sep
  end.

(** The loop of [validatePolicy] that looks for the value among the
    allowed ones. *)
Fixpoint policyAllowed (value : string) (allowed : list string) : bool :=
  match allowed with
  | [] => false
  | a :: rest => if String.eqb value a then true else policyAllowed value rest
  end.

Definition validatePolicy (name value : string) (allowed : list string) : option error :=
  if policyAllowed value allowed then None
  else Some (errors_New ("invalid " ++ name ++ " value '" ++ value
                         ++ "', allowed values: " ++ strings_Join_by allowed ", ")).

Definition validCOEP : list string := [""; "require-corp"; "credentialless"].
Definition validCOOP : list string :=
  [""; "same-origin"; "same-origin-allow-popups"; "unsafe-none"].
Definition validCORP : list string := [""; "same-origin"; "same-site"; "cross-origin"].

Definition SecurityConfig_Validate (sc : SecurityConfig) : option error :=
  match validatePolicy "DefaultCOEP" (DefaultCOEP sc) validCOEP with
  | Some err => Some err
  | None =>
  match validatePolicy "DefaultCOOP" (DefaultCOOP sc) validCOOP with
  | Some err => Some err
  | None =>
  match validatePolicy "DefaultCORP" (DefaultCORP sc) validCORP with
  | Some err => Some err
  | None =>
  match validatePolicy "APICOEP" (APICOEP sc) validCOEP with
  | Some err => Some err
  | None =>
  match validatePolicy "APICOOP" (APICOOP sc) validCOOP with
  | Some err => Some err
  | None =>
  match validatePolicy "APICORP" (APICORP sc) validCORP with
  | Some err => Some err
  | None => None
  end end end end end end.

Definition Config_Validate (c : Config) : option error :=
  SecurityConfig_Validate (Security c).

(** The six policies of a security configuration in the order in which
    [Validate] examines them: the name, the value and the allowed values. *)
Definition policies (sc : SecurityConfig) : list (string * string * list string) :=
  [("DefaultCOEP", DefaultCOEP sc, validCOEP);
   ("DefaultCOOP", DefaultCOOP sc, validCOOP);
   ("DefaultCORP", DefaultCORP sc, validCORP);
   ("APICOEP", APICOEP sc, validCOEP);
   ("APICOOP", APICOOP sc, validCOOP);
   ("APICORP", APICORP sc, validCORP)].

Section Config.

(** The environment of the process, and the parsers of the Go library. *)
Variable os_Getenv : string -> string.
Variable time_ParseDuration : string -> Z * option error.
Variable strconv_Atoi : string -> Z * option error.
Variable strconv_ParseFloat : string -> float64 * option error.
Variable strconv_ParseBool : string -> bool * option error.

Definition getEnv (key defaultValue : string) : string :=
  let value := os_Getenv key in
  if negb (String.eqb value "") then value else defaultValue.

Definition getDuration (key : string) (defaultValue : Z) : Z :=
  let value := os_Getenv key in
  if negb (String.eqb value "") then
    match time_ParseDuration value with
    | (duration, None) => if duration >? 0 then duration else defaultValue
    | (_, Some _) => defaultValue
    end
  else defaultValue.

Definition getInt (key : string) (defaultValue : Z) : Z :=
  let value := os_Getenv key in
  if negb (String.eqb value "") then
    match strconv_Atoi value with
    | (intValue, None) => if intValue >=? 0 then intValue else defaultValue
    | (_, Some _) => defaultValue
    end
  else defaultValue.

Definition getFloat (key : string) (defaultValue : float64) : float64 :=
  let value := os_Getenv key in
  if negb (String.eqb value "") then
    match strconv_ParseFloat value with
    | (floatValue, None) =>
        if float64_positive floatValue then floatValue else defaultValue
    | (_, Some _) => defaultValue
    end
  else defaultValue.

Definition getBool (key : string) (defaultValue : bool) : bool :=
  let value := os_Getenv key in
  if negb (String.eqb value "") then
    match strconv_ParseBool value with
    | (boolValue, None) => boolValue
    | (_, Some _) => defaultValue
    end
  else defaultValue.

Definition Load : Config :=
  {| Server :=
       {| Port := getEnv "PORT" "8080";
          ReadTimeout := getDuration "SERVER_READ_TIMEOUT" (5 * Second);
          WriteTimeout := getDuration "SERVER_WRITE_TIMEOUT" (10 * Second);
          IdleTimeout := getDuration "SERVER_IDLE_TIMEOUT" (60 * Second) |};
     Metadata :=
       {| HTTPTimeout := getDuration "METADATA_HTTP_TIMEOUT" (10 * Second);
          MaxRetries := getInt "METADATA_MAX_RETRIES" 3;
          BaseRetryDelay := getDuration "METADATA_BASE_RETRY_DELAY" (100 * Millisecond);
          MaxRetryDelay := getDuration "METADATA_MAX_RETRY_DELAY" (2 * Second);
          RetryMultiplier := getFloat "METADATA_RETRY_MULTIPLIER" (Finite (inject_Z 2)) |};
     Observability :=
       {| LogLevel := getEnv "LOG_LEVEL" "info";
          EnableProfiler := getBool "ENABLE_PROFILER" true;
          EnableTracing := getBool "ENABLE_TRACING" true;
          EnablePIIRedaction := getBool "ENABLE_PII_REDACTION" false;
          ShutdownTimeout := getDuration "SHUTDOWN_TIMEOUT" (5 * Second) |};
     Security :=
       {| DefaultCOEP := getEnv "SECURITY_DEFAULT_COEP" "require-corp";
          DefaultCOOP := getEnv "SECURITY_DEFAULT_COOP" "same-origin";
          DefaultCORP := getEnv "SECURITY_DEFAULT_CORP" "same-origin";
          APICOEP := getEnv "SECURITY_API_COEP" "";
          APICOOP := getEnv "SECURITY_API_COOP" "same-origin-allow-popups";
          APICORP := getEnv "SECURITY_API_CORP" "cross-origin" |} |}.

End Config.

(** The two sets of options [main] builds from the configuration. *)
Definition apiSecurityOptions (conf : Config) : SecurityHeadersOptions :=
  CustomSecurityOptions (APICOEP (Security conf)) (APICOOP (Security conf))
                        (APICORP (Security conf)).

Definition defaultSecurityOptions (conf : Config) : SecurityHeadersOptions :=
  CustomSecurityOptions (DefaultCOEP (Security conf)) (DefaultCOOP (Security conf))
                        (DefaultCORP (Security conf)).

(** An environment that sets the retries to zero and one policy to a word
    outside its list, with parsers that know what these samples need. *)
Definition sampleEnv (key : string) : string :=
  if String.eqb key "METADATA_MAX_RETRIES" then "0"
  else if String.eqb key "SECURITY_API_COOP" then "anything"
  else "".

Definition noDuration (value : string) : Z * option error :=
  (0, Some (errors_New ("time: invalid duration " ++ value))).

Definition onlyZero (value : string) : Z * option error :=
  if String.eqb value "0" then (0, None)
  else (0, Some (errors_New ("strconv.Atoi: parsing " ++ value ++ ": invalid syntax"))).

Definition noFloat (value : string) : float64 * option error :=
  (Finite 0, Some (errors_New ("strconv.ParseFloat: parsing " ++ value ++ ": invalid syntax"))).

Definition noBool (value : string) : bool * option error :=
  (false, Some (errors_New ("strconv.ParseBool: parsing " ++ value ++ ": invalid syntax"))).

(** * Properties *)

(** ** Traces *)

Lemma attempts_app (tr1 tr2 : list Event) :
  attempts (tr1 ++ tr2) = attempts tr1 + attempts tr2.
Proof.
  unfold attempts. rewrite filter_app, length_app. lia.
Qed.

Lemma sleeps_app (tr1 tr2 : list Event) :
  sleeps (tr1 ++ tr2) = (sleeps tr1 ++ sleeps tr2)%list.
Proof.
  induction tr1 as [|ev tr1 IH]; [reflexivity|].
  destruct ev; simpl; rewrite IH; reflexivity.
Qed.

Lemma emit_emit {A : Type} (evs1 evs2 : list Event) (r : A * list Event) :
  emit evs1 (emit evs2 r) = emit (evs1 ++ evs2) r.
Proof. unfold emit. simpl. by rewrite app_assoc. Qed.

Lemma emit_nil {A : Type} (r : A * list Event) : emit [] r = r.
Proof. by destruct r. Qed.

(** ** The retry loop *)

Section RetryLoop.

Variables (c : Client) (w : Env) (url : string).
Hypothesis request_ok : NewRequestWithContext w url = None.

(** One iteration that retries: a network call, a log line, a sleep of
    the current delay, and the loop goes on with the grown delay. *)
Lemma retryLoop_step (remaining : nat) (attempt d : Z) (lastErr : option error) :
  iterationRetries w attempt = true ->
  attempt < maxRetries c - 1 ->
  exists entry lastErr',
    retryLoop c w url (S remaining) attempt d lastErr =
    emit [EvDo url; EvInfo entry; EvSleep d]
         (retryLoop c w url remaining (attempt + 1) (growDelay c w d) (Some lastErr')).
Proof.
  intros Hretry Hlt. unfold iterationRetries in Hretry. simpl.
  destruct (ctx_Err w attempt); [done|]. rewrite request_ok.
  assert ((attempt <? maxRetries c - 1) = true) as -> by lia.
  destruct (Do w attempt) as [err|resp].
  - eexists _, _. rewrite emit_emit. reflexivity.
  - apply andb_true_iff in Hretry as [-> Hst].
    unfold retryableStatus in Hst. rewrite Hst.
    eexists _, _. rewrite emit_emit. reflexivity.
Qed.

(** [k] retrying iterations in a row. *)
Lemma retryLoop_prefix (k : nat) :
  forall (remaining : nat) (attempt d : Z) (lastErr : option error),
    (forall i, attempt <= i < attempt + Z.of_nat k -> iterationRetries w i = true) ->
    attempt + Z.of_nat k < maxRetries c ->
    exists evs lastErr',
      retryLoop c w url (k + remaining) attempt d lastErr =
      emit evs (retryLoop c w url remaining (attempt + Z.of_nat k)
                          (Nat.iter k (growDelay c w) d) lastErr') /\
      attempts evs = Z.of_nat k /\
      sleeps evs = backoffs c w d k /\
      (k = O -> lastErr' = lastErr /\ evs = []).
Proof.
  induction k as [|k IH]; intros remaining attempt d lastErr Hretry Hlt.
  - exists [], lastErr. rewrite emit_nil, Z.add_0_r. done.
  - destruct (retryLoop_step (k + remaining) attempt d lastErr)
      as (entry & lastErr1 & Hstep); [apply Hretry; lia | lia |].
    destruct (IH remaining (attempt + 1) (growDelay c w d) (Some lastErr1))
      as (evs & lastErr' & Hrest & Hatt & Hsl & _);
      [intros i Hi; apply Hretry; lia | lia |].
    exists ([EvDo url; EvInfo entry; EvSleep d] ++ evs)%list, lastErr'.
    change (S k + remaining)%nat with (S (k + remaining)).
    rewrite Hstep, Hrest, emit_emit.
    replace (attempt + 1 + Z.of_nat k) with (attempt + Z.of_nat (S k)) by lia.
    rewrite Nat.iter_succ_r. split; [done|].
    rewrite attempts_app, sleeps_app, Hatt, Hsl. simpl.
    split; [|split; [done|discriminate]].
    unfold attempts. simpl. lia.
Qed.

(** The loop as [FetchMetadata] enters it, after [k] retrying iterations. *)
Lemma FetchMetadata_prefix (k : Z) :
  0 <= k < maxRetries c ->
  (forall i, 0 <= i < k -> iterationRetries w i = true) ->
  exists evs lastErr',
    FetchMetadata c w url =
    emit evs (retryLoop c w url (S (Z.to_nat (maxRetries c - 1 - k))) k
                        (Nat.iter (Z.to_nat k) (growDelay c w) (baseRetryDelay c))
                        lastErr') /\
    attempts evs = k /\
    sleeps evs = backoffs c w (baseRetryDelay c) (Z.to_nat k) /\
    (k = 0 -> lastErr' = None /\ evs = []).
Proof.
  intros Hk Hretry. unfold FetchMetadata.
  replace (Z.to_nat (maxRetries c))
    with (Z.to_nat k + S (Z.to_nat (maxRetries c - 1 - k)))%nat by lia.
  destruct (retryLoop_prefix (Z.to_nat k) (S (Z.to_nat (maxRetries c - 1 - k)))
              0 (baseRetryDelay c) None) as (evs & lastErr' & Heq & Hatt & Hsl & Hlast).
  - intros i Hi. apply Hretry. lia.
  - lia.
  - exists evs, lastErr'. rewrite Heq.
    replace (0 + Z.of_nat (Z.to_nat k)) with k by lia.
    split; [done|]. split; [lia|]. split; [done|].
    intros ->. by apply Hlast.
Qed.

End RetryLoop.

(** ** Backoff in closed form *)

Lemma growDelay_whole (c : Client) (w : Env) (m d : Z) :
  retryMultiplier c = inject_Z m ->
  Z.abs d <= float64Exact ->
  Z.abs (d * m) <= float64Exact ->
  growDelay c w d = Z.min (d * m) (maxRetryDelay c).
Proof.
  intros Hm Hd Hproduct. unfold growDelay, scaleDuration, exactProduct.
  rewrite Hm. cbn [inject_Z Qnum Qden isPowerOfTwo andb].
  assert ((Z.abs d <=? float64Exact) = true) as -> by lia.
  assert ((Z.abs (d * m) <=? float64Exact) = true) as -> by lia.
  cbn [andb]. rewrite Z.quot_1_r.
  destruct (Z.gtb_spec (d * m) (maxRetryDelay c)); lia.
Qed.

Lemma capped_step (b cap m j : Z) :
  b <= cap -> 0 <= m -> 0 <= j ->
  Z.min (Z.min (b * m ^ j) cap * m) cap = Z.min (b * m ^ (j + 1)) cap.
Proof.
  intros Hb Hm Hj. rewrite Z.pow_add_r, Z.pow_1_r by lia.
  destruct (decide (m = 0)) as [->|Hpos]; [by rewrite !Z.mul_0_r|].
  assert (0 < m ^ j) as Hpow by (apply Z.pow_pos_nonneg; lia).
  set (x := m ^ j) in *. clearbody x.
  destruct (Z.le_gt_cases (b * x) cap) as [Hle|Hgt].
  - rewrite (Z.min_l (b * x) cap) by lia. f_equal. lia.
  - rewrite (Z.min_r (b * x) cap) by lia.
    assert (0 < b) by nia.
    rewrite !Z.min_r; nia.
Qed.

Lemma backoffs_closed (c : Client) (w : Env) (m : Z) :
  retryMultiplier c = inject_Z m -> 0 <= m ->
  0 <= baseRetryDelay c <= maxRetryDelay c ->
  maxRetryDelay c <= float64Exact ->
  maxRetryDelay c * m <= float64Exact ->
  forall (k : nat) (j : Z), 1 <= j ->
    backoffs c w (Z.min (baseRetryDelay c * m ^ (j - 1)) (maxRetryDelay c)) k =
    (fun i => Z.min (baseRetryDelay c * m ^ (i - 1)) (maxRetryDelay c))
      <$> seqZ j (Z.of_nat k).
Proof.
  intros Hm Hge Hcap Hexact Hproduct.
  induction k as [|k IH]; intros j Hj; [reflexivity|].
  rewrite seqZ_cons by lia.
  replace (Z.pred (Z.of_nat (S k))) with (Z.of_nat k) by lia.
  rewrite fmap_cons. cbn [backoffs]. f_equal.
  assert (0 <= m ^ (j - 1)) by (apply Z.pow_nonneg; lia).
  assert (0 <= Z.min (baseRetryDelay c * m ^ (j - 1)) (maxRetryDelay c) <= maxRetryDelay c)
    as Hrange by nia.
  rewrite (growDelay_whole c w m) by (done || nia).
  rewrite capped_step by lia.
  replace (j - 1 + 1) with (Z.succ j - 1) by lia.
  rewrite <- IH by lia. reflexivity.
Qed.

(** For a whole-number multiplier the integer closed form is the
    specification's. *)
Lemma closedFormDelay_whole (c : Client) (m k : Z) :
  Qeq (retryMultiplier c) (inject_Z m) -> 1 <= k ->
  Qeq (inject_Z (Z.min (baseRetryDelay c * m ^ (k - 1)) (maxRetryDelay c)))
      (closedFormDelay c k).
Proof.
  intros Hm Hk. unfold closedFormDelay.
  rewrite Hm, <- Zpower_Qpower, <- inject_Z_mult by lia.
  destruct (Z.le_gt_cases (baseRetryDelay c * m ^ (k - 1)) (maxRetryDelay c)) as [Hle|Hgt].
  - rewrite Z.min_l by done. symmetry. apply Q.min_l. by rewrite <- Zle_Qle.
  - rewrite Z.min_r by lia. symmetry. apply Q.min_r. rewrite <- Zle_Qle. lia.
Qed.

(** ** Claims about [Client.FetchMetadata] *)

(** With every attempt failing in transport the loop makes [maxRetries]
    calls, sleeps the delays of [backoffs] between them and gives up with
    the error of the last call. *)
Lemma FetchMetadata_transport_failures (c : Client) (w : Env) (url : string) :
  1 <= maxRetries c ->
  NewRequestWithContext w url = None ->
  (forall i, 0 <= i < maxRetries c -> ctx_Err w i = None) ->
  (forall i, 0 <= i < maxRetries c -> exists e, Do w i = DoError e) ->
  attempts (snd (FetchMetadata c w url)) = maxRetries c /\
  (exists e, Do w (maxRetries c - 1) = DoError e /\
     fst (FetchMetadata c w url) =
     ("", Some (wrapError (failedAfter c) (wrapError "error executing request: " e)))) /\
  sleeps (snd (FetchMetadata c w url)) =
  backoffs c w (baseRetryDelay c) (Z.to_nat (maxRetries c - 1)).
Proof.
  intros Hn Hreq Hctx Hdo.
  destruct (FetchMetadata_prefix c w url Hreq (maxRetries c - 1))
    as (evs & lastErr' & -> & Hatt & Hsl & _); [lia | |].
  { intros i Hi. unfold iterationRetries. rewrite Hctx by lia.
    destruct (Hdo i) as [e ->]; [lia | done]. }
  replace (maxRetries c - 1 - (maxRetries c - 1)) with 0 by lia.
  destruct (Hdo (maxRetries c - 1)) as [e He]; [lia|].
  simpl. rewrite Hctx, Hreq, He, Z.ltb_irrefl by lia. simpl.
  rewrite attempts_app, sleeps_app, Hatt, Hsl, app_nil_r.
  repeat split; [unfold attempts; simpl; lia | by exists e].
Qed.

(** C1 (amended): take a client whose delays satisfy
    [0 <= baseRetryDelay <= maxRetryDelay] and whose multiplier is a whole
    number [m >= 0], with [maxRetryDelay] and [maxRetryDelay * m] at most
    [2^53] nanoseconds, so that every float64 product of the loop is exact.
    A fetch with [maxRetries = n >= 1] whose context stays live and whose
    every attempt fails in transport makes exactly [n] attempts, returns
    the terminal error that wraps the error of the last attempt, and
    sleeps [min (baseRetryDelay * m^(k-1)) maxRetryDelay] before attempt
    [k], for [k = 1 .. n-1]. *)
Theorem FetchMetadata_exponential_backoff
    (c : Client) (w : Env) (url : string) (m : Z) :
  1 <= maxRetries c ->
  retryMultiplier c = inject_Z m ->
  0 <= m ->
  0 <= baseRetryDelay c <= maxRetryDelay c ->
  maxRetryDelay c <= float64Exact ->
  maxRetryDelay c * m <= float64Exact ->
  NewRequestWithContext w url = None ->
  (forall i, 0 <= i < maxRetries c -> ctx_Err w i = None) ->
  (forall i, 0 <= i < maxRetries c -> exists e, Do w i = DoError e) ->
  attempts (snd (FetchMetadata c w url)) = maxRetries c /\
  (exists e, Do w (maxRetries c - 1) = DoError e /\
     fst (FetchMetadata c w url) =
     ("", Some (wrapError (failedAfter c) (wrapError "error executing request: " e)))) /\
  sleeps (snd (FetchMetadata c w url)) =
  (fun k => Z.min (baseRetryDelay c * m ^ (k - 1)) (maxRetryDelay c))
    <$> seqZ 1 (maxRetries c - 1) /\
  Forall2 (fun d k => Qeq (inject_Z d) (closedFormDelay c k))
          (sleeps (snd (FetchMetadata c w url))) (seqZ 1 (maxRetries c - 1)).
Proof.
  intros Hn Hm Hge Hcap Hexact Hproduct Hreq Hctx Hdo.
  destruct (FetchMetadata_transport_failures c w url Hn Hreq Hctx Hdo)
    as (Hatt & Hres & Hsl).
  assert (sleeps (snd (FetchMetadata c w url)) =
          (fun k => Z.min (baseRetryDelay c * m ^ (k - 1)) (maxRetryDelay c))
            <$> seqZ 1 (maxRetries c - 1)) as Hclosed.
  { rewrite Hsl.
    replace (maxRetries c - 1) with (Z.of_nat (Z.to_nat (maxRetries c - 1))) at 2 by lia.
    rewrite <- (backoffs_closed c w m) by (done || lia).
    f_equal. simpl. lia. }
  split; [done|]. split; [done|]. split; [done|].
  rewrite Hclosed. apply Forall2_fmap_l, Forall_Forall2_diag, Forall_forall.
  intros k Hk. apply elem_of_seqZ in Hk. simpl.
  apply closedFormDelay_whole; [by rewrite Hm | lia].
Qed.

Lemma FetchMetadata_exponential_backoff_default :
  attempts (snd (FetchMetadata defaultClient refusing ClusterNameURL)) =
  maxRetries defaultClient /\
  (exists e, Do refusing (maxRetries defaultClient - 1) = DoError e /\
     fst (FetchMetadata defaultClient refusing ClusterNameURL) =
     ("", Some (wrapError (failedAfter defaultClient)
                          (wrapError "error executing request: " e)))) /\
  sleeps (snd (FetchMetadata defaultClient refusing ClusterNameURL)) =
  (fun k => Z.min (baseRetryDelay defaultClient * 2 ^ (k - 1))
                  (maxRetryDelay defaultClient))
    <$> seqZ 1 (maxRetries defaultClient - 1) /\
  Forall2 (fun d k => Qeq (inject_Z d) (closedFormDelay defaultClient k))
          (sleeps (snd (FetchMetadata defaultClient refusing ClusterNameURL)))
          (seqZ 1 (maxRetries defaultClient - 1)).
Proof.
  apply (FetchMetadata_exponential_backoff defaultClient refusing ClusterNameURL 2).
  - simpl. lia.
  - reflexivity.
  - lia.
  - vm_compute. split; discriminate.
  - vm_compute. discriminate.
  - vm_compute. discriminate.
  - reflexivity.
  - intros i _. reflexivity.
  - intros i _. eexists. reflexivity.
Defined.

(** C1 as stated fails in three ways.  When the base delay is above the
    cap, the first retry sleeps the base delay as it is, since the cap is
    applied only after a multiplication: with base 5s, cap 2s and
    multiplier 2 the sleep before attempt 1 is 5s, where the closed form
    gives 2s.  And the product is cut to whole nanoseconds at every step:
    with base 1ns, cap 10ns and multiplier 1.5 every sleep is 1ns, where
    the closed form gives 1.5ns before attempt 2.  And a negative
    multiplier grows the capped delay, not the uncapped product: with base
    1ns, cap 5ns and multiplier -3 the sleep before attempt 4 is -15ns,
    where the closed form gives -27ns. *)
Lemma FetchMetadata_first_delay_above_cap :
  (1 <= maxRetries eagerClient /\
   (forall i, ctx_Err refusing i = None /\ exists e, Do refusing i = DoError e) /\
   sleeps (snd (FetchMetadata eagerClient refusing ClusterNameURL)) = [5 * Second] /\
   Qeq (closedFormDelay eagerClient 1) (inject_Z (2 * Second)) /\
   ~ Forall2 (fun d k => Qeq (inject_Z d) (closedFormDelay eagerClient k))
       (sleeps (snd (FetchMetadata eagerClient refusing ClusterNameURL)))
       (seqZ 1 (maxRetries eagerClient - 1))) /\
  (1 <= maxRetries fractionalClient /\
   baseRetryDelay fractionalClient <= maxRetryDelay fractionalClient /\
   sleeps (snd (FetchMetadata fractionalClient refusing ClusterNameURL)) = [1; 1; 1; 1] /\
   Qeq (closedFormDelay fractionalClient 2) (Qmake 3 2) /\
   ~ Forall2 (fun d k => Qeq (inject_Z d) (closedFormDelay fractionalClient k))
       (sleeps (snd (FetchMetadata fractionalClient refusing ClusterNameURL)))
       (seqZ 1 (maxRetries fractionalClient - 1))) /\
  (1 <= maxRetries contraryClient /\
   baseRetryDelay contraryClient <= maxRetryDelay contraryClient /\
   sleeps (snd (FetchMetadata contraryClient refusing ClusterNameURL)) = [1; -3; 5; -15] /\
   Qeq (closedFormDelay contraryClient 4) (inject_Z (-27)) /\
   ~ Forall2 (fun d k => Qeq (inject_Z d) (closedFormDelay contraryClient k))
       (sleeps (snd (FetchMetadata contraryClient refusing ClusterNameURL)))
       (seqZ 1 (maxRetries contraryClient - 1))).
Proof.
  split; [|split].
  - split; [simpl; lia|].
    split; [intros i; split; [reflexivity | eexists; reflexivity]|].
    split; [reflexivity|]. split; [reflexivity|].
    intros Hall. inversion Hall as [|d k ds ks Hfirst _]; subst.
    vm_compute in Hfirst. discriminate.
  - split; [simpl; lia|]. split; [simpl; lia|].
    split; [reflexivity|]. split; [reflexivity|].
    intros Hall.
    inversion Hall as [|d1 k1 ds1 ks1 _ Hrest]; subst.
    inversion Hrest as [|d2 k2 ds2 ks2 Hsecond _]; subst.
    vm_compute in Hsecond. discriminate.
  - split; [simpl; lia|]. split; [simpl; lia|].
    split; [reflexivity|]. split; [reflexivity|].
    intros Hall.
    inversion Hall as [|d1 k1 ds1 ks1 _ Hrest1]; subst.
    inversion Hrest1 as [|d2 k2 ds2 ks2 _ Hrest2]; subst.
    inversion Hrest2 as [|d3 k3 ds3 ks3 _ Hrest3]; subst.
    inversion Hrest3 as [|d4 k4 ds4 ks4 Hfourth _]; subst.
    vm_compute in Hfourth. discriminate.
Qed.

(** C2: when the context is live and the call of iteration [k] comes back
    with a status outside [200,300) that is neither in [500,600) nor 429,
    the fetch returns the terminal error wrapping that status at once: the
    trace holds the [k] calls of the earlier, retried iterations and this
    one, so a first attempt with such a status makes exactly 1 call.  A
    status outside [200,300) after which a further call is made is in
    [500,600) or is 429; and after a status in [500,600) or 429 the loop
    does sleep and go on, as long as an iteration is left. *)
Theorem FetchMetadata_terminal_status
    (c : Client) (w : Env) (url : string) (k : Z) (resp : Response) :
  0 <= k < maxRetries c ->
  NewRequestWithContext w url = None ->
  (forall i, 0 <= i < k -> iterationRetries w i = true) ->
  ctx_Err w k = None ->
  Do w k = DoResponse resp ->
  ~ (200 <= StatusCode resp < 300) ->
  (~ (500 <= StatusCode resp < 600) /\ StatusCode resp <> 429 ->
     fst (FetchMetadata c w url) =
       ("", Some (wrapError (failedAfter c) (statusError url resp))) /\
     attempts (snd (FetchMetadata c w url)) = k + 1 /\
     sleeps (snd (FetchMetadata c w url)) = backoffs c w (baseRetryDelay c) (Z.to_nat k) /\
     (k = 0 -> snd (FetchMetadata c w url) = [EvDo url])) /\
  (k + 1 < attempts (snd (FetchMetadata c w url)) ->
     500 <= StatusCode resp < 600 \/ StatusCode resp = 429) /\
  (500 <= StatusCode resp < 600 \/ StatusCode resp = 429 ->
   k < maxRetries c - 1 ->
     exists rest,
       sleeps (snd (FetchMetadata c w url)) =
       (backoffs c w (baseRetryDelay c) (Z.to_nat (k + 1)) ++ rest)%list).
Proof.
  intros Hk Hreq Hretry Hctx Hdo Hnot2xx.
  assert (~ (500 <= StatusCode resp < 600) /\ StatusCode resp <> 429 ->
     fst (FetchMetadata c w url) =
       ("", Some (wrapError (failedAfter c) (statusError url resp))) /\
     attempts (snd (FetchMetadata c w url)) = k + 1 /\
     sleeps (snd (FetchMetadata c w url)) = backoffs c w (baseRetryDelay c) (Z.to_nat k) /\
     (k = 0 -> snd (FetchMetadata c w url) = [EvDo url])) as Hterminal.
  { intros [H5xx H429].
    destruct (FetchMetadata_prefix c w url Hreq k Hk Hretry)
      as (evs & lastErr' & -> & Hatt & Hsl & Hfirst).
    simpl. rewrite Hctx, Hreq, Hdo.
    assert ((StatusCode resp =? StatusOK) = false) as -> by (unfold StatusOK; lia).
    assert (((500 <=? StatusCode resp) && (StatusCode resp <? 600)
             || (StatusCode resp =? StatusTooManyRequests)) = false) as ->
      by (unfold StatusTooManyRequests; lia).
    simpl. rewrite attempts_app, sleeps_app, Hatt, Hsl, app_nil_r.
    split; [done|]. split; [unfold attempts; simpl; lia|]. split; [done|].
    intros ->. by destruct Hfirst as [_ ->]. }
  split; [done|]. split.
  - intros Hmore.
    destruct (decide (500 <= StatusCode resp < 600)) as [|H5xx]; [by left|].
    destruct (decide (StatusCode resp = 429)) as [|H429]; [by right|].
    destruct Hterminal as (_ & Hatt & _); [done | lia].
  - intros Hretryable Hleft.
    destruct (FetchMetadata_prefix c w url Hreq (k + 1))
      as (evs & lastErr' & -> & _ & Hsl & _); [lia | |].
    + intros i Hi. destruct (decide (i = k)) as [->|]; [|apply Hretry; lia].
      unfold iterationRetries, retryableStatus, StatusOK, StatusTooManyRequests.
      rewrite Hctx, Hdo. lia.
    + eexists. unfold emit. cbn [snd]. by rewrite sleeps_app, Hsl.
Qed.

Lemma FetchMetadata_terminal_status_404 :
  fst (FetchMetadata defaultClient (answering 404 "not found") ClusterNameURL) =
    ("", Some (wrapError (failedAfter defaultClient)
                 (statusError ClusterNameURL
                    {| StatusCode := 404; Body := "not found"; ReadErr := None |}))) /\
  attempts (snd (FetchMetadata defaultClient (answering 404 "not found") ClusterNameURL))
    = 0 + 1 /\
  sleeps (snd (FetchMetadata defaultClient (answering 404 "not found") ClusterNameURL))
    = backoffs defaultClient (answering 404 "not found")
               (baseRetryDelay defaultClient) (Z.to_nat 0) /\
  (0 = 0 ->
   snd (FetchMetadata defaultClient (answering 404 "not found") ClusterNameURL)
     = [EvDo ClusterNameURL]).
Proof.
  apply (proj1 (FetchMetadata_terminal_status defaultClient (answering 404 "not found")
                  ClusterNameURL 0
                  {| StatusCode := 404; Body := "not found"; ReadErr := None |}
                  ltac:(simpl; lia) eq_refl ltac:(intros i Hi; lia) eq_refl eq_refl
                  ltac:(simpl; lia))).
  simpl. lia.
Defined.




(** C4: when the context is found done at the check that opens iteration
    [k] (the [k] earlier iterations having retried), the fetch returns the
    context error at once, and the trace holds the calls of those [k]
    iterations only: the check makes no call and uses up no attempt.  A
    context that is done when the fetch is invoked ([k = 0]) leaves an
    empty trace. *)
Theorem FetchMetadata_context_cancelled
    (c : Client) (w : Env) (url : string) (k : Z) (e : ctxErr) :
  0 <= k < maxRetries c ->
  (0 < k -> NewRequestWithContext w url = None) ->
  (forall i, 0 <= i < k -> iterationRetries w i = true) ->
  ctx_Err w k = Some e ->
  fst (FetchMetadata c w url) =
    ("", Some (wrapError "context cancelled: " (context_Err e))) /\
  attempts (snd (FetchMetadata c w url)) = k /\
  sleeps (snd (FetchMetadata c w url)) = backoffs c w (baseRetryDelay c) (Z.to_nat k) /\
  (k = 0 -> snd (FetchMetadata c w url) = []).
Proof.
  intros Hk Hreq Hretry Hctx.
  destruct (decide (k = 0)) as [->|Hpos].
  - unfold FetchMetadata.
    destruct (Z.to_nat (maxRetries c)) as [|remaining] eqn:Hn; [lia|].
    simpl. rewrite Hctx. done.
  - destruct (FetchMetadata_prefix c w url (Hreq ltac:(lia)) k Hk Hretry)
      as (evs & lastErr' & -> & Hatt & Hsl & _).
    simpl. rewrite Hctx. simpl. rewrite app_nil_r. done.
Qed.

Lemma FetchMetadata_context_cancelled_at_entry :
  fst (FetchMetadata defaultClient cancelled ClusterNameURL) =
    ("", Some (wrapError "context cancelled: " (context_Err Canceled))) /\
  attempts (snd (FetchMetadata defaultClient cancelled ClusterNameURL)) = 0 /\
  sleeps (snd (FetchMetadata defaultClient cancelled ClusterNameURL))
    = backoffs defaultClient cancelled (baseRetryDelay defaultClient) (Z.to_nat 0) /\
  (0 = 0 -> snd (FetchMetadata defaultClient cancelled ClusterNameURL) = []).
Proof.
  apply (FetchMetadata_context_cancelled defaultClient cancelled ClusterNameURL 0 Canceled).
  - simpl. lia.
  - intros _. reflexivity.
  - intros i Hi. lia.
  - reflexivity.
Defined.

(** C9: with [maxRetries <= 0] the loop body is never entered: the fetch
    makes no call, sleeps never and returns the "failed after N attempts"
    error built around a nil cause, which wraps nothing. *)
Theorem FetchMetadata_no_attempts (c : Client) (w : Env) (url : string) :
  maxRetries c <= 0 ->
  FetchMetadata c w url = (("", Some (fmt_Errorf (failedAfter c) None)), []) /\
  attempts (snd (FetchMetadata c w url)) = 0 /\
  sleeps (snd (FetchMetadata c w url)) = [] /\
  (forall err, snd (fst (FetchMetadata c w url)) = Some err ->
     Unwrap err = None /\ Error err = failedAfter c ++ "%!w(<nil>)").
Proof.
  intros Hn. unfold FetchMetadata.
  replace (Z.to_nat (maxRetries c)) with O by lia. simpl.
  split; [done|]. split; [done|]. split; [done|].
  intros err [= <-]. split; reflexivity.
Qed.

Lemma FetchMetadata_no_attempts_zero :
  FetchMetadata idleClient refusing ClusterNameURL
    = (("", Some (fmt_Errorf (failedAfter idleClient) None)), []) /\
  attempts (snd (FetchMetadata idleClient refusing ClusterNameURL)) = 0 /\
  sleeps (snd (FetchMetadata idleClient refusing ClusterNameURL)) = [] /\
  (forall err,
     snd (fst (FetchMetadata idleClient refusing ClusterNameURL)) = Some err ->
     Unwrap err = None /\
     Error err = failedAfter idleClient ++ "%!w(<nil>)").
Proof.
  apply (FetchMetadata_no_attempts idleClient refusing ClusterNameURL).
  simpl. lia.
Defined.

(** ** [determineOverallHealth] *)

Lemma countCheck_counts (n : Counts) (check : HealthCheck.t) :
  countCheck n check =
  {| healthyCount := healthyCount n +
       (if decide (HealthCheck.Status check = HealthStatusHealthy) then 1 else 0);
     degradedCount := degradedCount n +
       (if decide (HealthCheck.Status check = HealthStatusDegraded) then 1 else 0);
     unhealthyCount := unhealthyCount n +
       (if decide (HealthCheck.Status check = HealthStatusUnhealthy) then 1 else 0) |}.
Proof.
  unfold countCheck. destruct n as [h d u]. simpl.
  generalize (HealthCheck.Status check). intros st.
  unfold HealthStatusHealthy, HealthStatusDegraded, HealthStatusUnhealthy.
  destruct (String.eqb_spec st "healthy") as [->|Hh].
  { repeat case_decide; first [discriminate | congruence | f_equal; lia]. }
  destruct (String.eqb_spec st "degraded") as [->|Hd].
  { repeat case_decide; first [discriminate | congruence | f_equal; lia]. }
  destruct (String.eqb_spec st "unhealthy") as [->|Hu].
  { repeat case_decide; first [discriminate | congruence | f_equal; lia]. }
  repeat case_decide; first [congruence | f_equal; lia].
Qed.

Lemma statusCount_cons (s : HealthStatus) (entry : string * HealthCheck.t)
    (order : list (string * HealthCheck.t)) :
  statusCount s (entry :: order) =
  (if decide (HealthCheck.Status (snd entry) = s) then 1 else 0) + statusCount s order.
Proof.
  unfold statusCount. rewrite filter_cons.
  case_decide; simpl length; lia.
Qed.

Lemma fold_countCheck (order : list (string * HealthCheck.t)) :
  forall n : Counts,
    fold_left (fun n entry => countCheck n (snd entry)) order n =
    {| healthyCount := healthyCount n + statusCount HealthStatusHealthy order;
       degradedCount := degradedCount n + statusCount HealthStatusDegraded order;
       unhealthyCount := unhealthyCount n + statusCount HealthStatusUnhealthy order |}.
Proof.
  induction order as [|entry order IH]; intros n.
  - destruct n. unfold statusCount. simpl. f_equal; lia.
  - simpl fold_left. rewrite IH, countCheck_counts, !statusCount_cons.
    simpl. f_equal; lia.
Qed.

(** The counters hold, per constant, the number of checks with that status. *)
Lemma countChecks_counts (order : list (string * HealthCheck.t)) :
  countChecks order =
  {| healthyCount := statusCount HealthStatusHealthy order;
     degradedCount := statusCount HealthStatusDegraded order;
     unhealthyCount := statusCount HealthStatusUnhealthy order |}.
Proof. unfold countChecks. rewrite fold_countCheck. reflexivity. Qed.

Lemma statusCount_Permutation (s : HealthStatus) (l1 l2 : list (string * HealthCheck.t)) :
  l1 ≡ₚ l2 -> statusCount s l1 = statusCount s l2.
Proof. intros Hperm. unfold statusCount. by rewrite Hperm. Qed.

Lemma statusCount_values (s : HealthStatus) (order : list (string * HealthCheck.t)) :
  statusCount s order =
  Z.of_nat (length (filter (fun check => HealthCheck.Status check = s) (order.*2))).
Proof.
  induction order as [|entry order IH]; [reflexivity|].
  rewrite statusCount_cons, IH, fmap_cons, filter_cons.
  case_decide; simpl length; lia.
Qed.

Lemma statusCount_pos (s : HealthStatus) (order : list (string * HealthCheck.t)) :
  0 < statusCount s order <->
  exists entry, entry ∈ order /\ HealthCheck.Status (snd entry) = s.
Proof.
  induction order as [|entry order IH].
  - split; [unfold statusCount; simpl; lia|]. intros (e & He & _). by apply elem_of_nil in He.
  - rewrite statusCount_cons. split.
    + intros Hpos. case_decide as Hs.
      * exists entry. split; [left|done].
      * destruct IH as [IH _]. destruct IH as (e & He & Hes); [lia|].
        exists e. split; [by right|done].
    + intros (e & He & Hes). apply elem_of_cons in He as [->|He].
      * rewrite decide_True by done. unfold statusCount. lia.
      * assert (0 < statusCount s order) by (apply IH; eauto).
        case_decide; lia.
Qed.

Lemma statusCount_map (s : HealthStatus) (checks : gmap string HealthCheck.t) :
  0 < statusCount s (map_to_list checks) <-> anyWithStatus s checks.
Proof.
  rewrite statusCount_pos. unfold anyWithStatus. split.
  - intros ([name check] & Hin & Hs). apply elem_of_map_to_list in Hin. eauto.
  - intros (name & check & Hin & Hs). exists (name, check).
    split; [by apply elem_of_map_to_list|done].
Qed.

Lemma statusCount_nonneg (s : HealthStatus) (order : list (string * HealthCheck.t)) :
  0 <= statusCount s order.
Proof. unfold statusCount. lia. Qed.

Lemma determineOverallHealthIn_counts (order : list (string * HealthCheck.t)) :
  determineOverallHealthIn order =
  if decide (0 < statusCount HealthStatusUnhealthy order) then HealthStatusUnhealthy
  else if decide (0 < statusCount HealthStatusDegraded order) then HealthStatusDegraded
  else HealthStatusHealthy.
Proof.
  unfold determineOverallHealthIn, overallOf. rewrite countChecks_counts. simpl.
  repeat case_decide;
    repeat match goal with |- context [?a >? ?b] => destruct (Z.gtb_spec a b) end;
    done || lia.
Qed.

Lemma determineOverallHealthIn_Permutation (l1 l2 : list (string * HealthCheck.t)) :
  l1 ≡ₚ l2 -> determineOverallHealthIn l1 = determineOverallHealthIn l2.
Proof.
  intros Hperm. rewrite !determineOverallHealthIn_counts.
  by rewrite !(statusCount_Permutation _ l1 l2 Hperm).
Qed.

Lemma determineOverallHealthIn_values (l1 l2 : list (string * HealthCheck.t)) :
  l1.*2 ≡ₚ l2.*2 -> determineOverallHealthIn l1 = determineOverallHealthIn l2.
Proof.
  intros Hperm.
  assert (forall s, statusCount s l1 = statusCount s l2) as Hcount.
  { intros s. rewrite !statusCount_values. by rewrite Hperm. }
  by rewrite !determineOverallHealthIn_counts, !Hcount.
Qed.

Lemma determineOverallHealthIn_cons (entry : string * HealthCheck.t)
    (order : list (string * HealthCheck.t)) :
  knownStatus (HealthCheck.Status (snd entry)) ->
  determineOverallHealthIn (entry :: order) =
  maxStatus (HealthCheck.Status (snd entry)) (determineOverallHealthIn order).
Proof.
  intros Hknown. rewrite !determineOverallHealthIn_counts, !statusCount_cons.
  pose proof (statusCount_nonneg HealthStatusUnhealthy order).
  pose proof (statusCount_nonneg HealthStatusDegraded order).
  destruct Hknown as [-> | [-> | ->]];
    repeat case_decide; first [discriminate | congruence | reflexivity | lia].
Qed.

Lemma determineOverallHealthIn_maximum (order : list (string * HealthCheck.t)) :
  Forall (fun entry => knownStatus (HealthCheck.Status (snd entry))) order ->
  determineOverallHealthIn order =
  maximumStatus ((fun entry => HealthCheck.Status (snd entry)) <$> order).
Proof.
  induction 1 as [|entry order Hknown _ IH]; [reflexivity|].
  rewrite determineOverallHealthIn_cons by done. rewrite IH. reflexivity.
Qed.

(** C5: [determineOverallHealth] is a function of the statuses in the map
    alone.  If some check is unhealthy the result is unhealthy; otherwise,
    if some check is degraded it is degraded; otherwise it is healthy.
    Whatever order the runtime ranges over the map in, the result is the
    same, and two maps that hold the same checks under other keys give
    the same result.  When every status is one of the three constants the
    result is the maximum of the statuses for
    [healthy < degraded < unhealthy]. *)
Theorem determineOverallHealth_reduction (checks : gmap string HealthCheck.t) :
  (anyWithStatus HealthStatusUnhealthy checks ->
     determineOverallHealth checks = HealthStatusUnhealthy) /\
  (~ anyWithStatus HealthStatusUnhealthy checks ->
   anyWithStatus HealthStatusDegraded checks ->
     determineOverallHealth checks = HealthStatusDegraded) /\
  (~ anyWithStatus HealthStatusUnhealthy checks ->
   ~ anyWithStatus HealthStatusDegraded checks ->
     determineOverallHealth checks = HealthStatusHealthy) /\
  (forall order : list (string * HealthCheck.t),
     order ≡ₚ map_to_list checks ->
     determineOverallHealthIn order = determineOverallHealth checks) /\
  (forall checks' : gmap string HealthCheck.t,
     (map_to_list checks').*2 ≡ₚ (map_to_list checks).*2 ->
     determineOverallHealth checks' = determineOverallHealth checks) /\
  ((forall name check, checks !! name = Some check ->
      knownStatus (HealthCheck.Status check)) ->
   forall order : list (string * HealthCheck.t),
     order ≡ₚ map_to_list checks ->
     determineOverallHealth checks =
     maximumStatus ((fun entry => HealthCheck.Status (snd entry)) <$> order)).
Proof.
  unfold determineOverallHealth.
  rewrite determineOverallHealthIn_counts.
  pose proof (statusCount_map HealthStatusUnhealthy checks) as Hu.
  pose proof (statusCount_map HealthStatusDegraded checks) as Hd.
  split; [|split; [|split; [|split; [|split]]]].
  - intros Hany. rewrite decide_True; [done | by apply Hu].
  - intros Hnone Hany. rewrite decide_False by (by rewrite Hu).
    rewrite decide_True; [done | by apply Hd].
  - intros Hnone Hnone'. rewrite decide_False by (by rewrite Hu).
    by rewrite decide_False by (by rewrite Hd).
  - intros order Hperm. rewrite <- determineOverallHealthIn_counts.
    by apply determineOverallHealthIn_Permutation.
  - intros checks' Hperm. rewrite <- determineOverallHealthIn_counts.
    by apply determineOverallHealthIn_values.
  - intros Hknown order Hperm. rewrite <- determineOverallHealthIn_counts.
    rewrite <- (determineOverallHealthIn_Permutation order _ Hperm).
    apply determineOverallHealthIn_maximum.
    apply Forall_forall. intros [name check] Hin.
    rewrite Hperm in Hin. apply elem_of_map_to_list in Hin.
    by apply (Hknown name).
Qed.

Lemma determineOverallHealth_mixed :
  determineOverallHealth mixedChecks = HealthStatusUnhealthy.
Proof.
  apply (proj1 (determineOverallHealth_reduction mixedChecks)).
  exists "c", (bare HealthStatusUnhealthy). split; reflexivity.
Defined.

(** C10: only the three constants move a counter.  The counters hold the
    numbers of checks that are exactly healthy, degraded and unhealthy; a
    check with any other status leaves all three as they are; so a map
    with no check of a known status, the empty map among them, is healthy
    overall. *)
Theorem determineOverallHealth_unknown_status (checks : gmap string HealthCheck.t) :
  (forall order : list (string * HealthCheck.t),
     countChecks order =
     {| healthyCount := statusCount HealthStatusHealthy order;
        degradedCount := statusCount HealthStatusDegraded order;
        unhealthyCount := statusCount HealthStatusUnhealthy order |}) /\
  (forall (n : Counts) (check : HealthCheck.t),
     ~ knownStatus (HealthCheck.Status check) -> countCheck n check = n) /\
  ((forall name check, checks !! name = Some check ->
      ~ knownStatus (HealthCheck.Status check)) ->
   determineOverallHealth checks = HealthStatusHealthy /\
   countChecks (map_to_list checks) =
     {| healthyCount := 0; degradedCount := 0; unhealthyCount := 0 |}) /\
  determineOverallHealth (∅ : gmap string HealthCheck.t) = HealthStatusHealthy.
Proof.
  split; [apply countChecks_counts|]. split; [|split].
  - intros n check Hunknown. rewrite countCheck_counts. unfold knownStatus in Hunknown.
    destruct n. simpl. repeat case_decide; first [tauto | f_equal; lia].
  - intros Hunknown.
    assert (forall s, knownStatus s -> statusCount s (map_to_list checks) = 0) as Hzero.
    { intros s Hs. pose proof (statusCount_nonneg s (map_to_list checks)).
      destruct (decide (0 < statusCount s (map_to_list checks))) as [Hpos|]; [|lia].
      apply statusCount_map in Hpos as (name & check & Hin & <-).
      by destruct (Hunknown name check Hin). }
    unfold determineOverallHealth.
    rewrite determineOverallHealthIn_counts, countChecks_counts.
    rewrite !Hzero by (unfold knownStatus; tauto). done.
  - unfold determineOverallHealth. by rewrite map_to_list_empty.
Qed.

Lemma determineOverallHealth_strange :
  determineOverallHealth strangeChecks = HealthStatusHealthy.
Proof.
  apply (proj1 (proj2 (proj2 (determineOverallHealth_unknown_status strangeChecks)))).
  intros name check Hin. unfold strangeChecks in Hin.
  apply lookup_insert_Some in Hin as [[_ <-]|[_ Hin]];
    [intros [H|[H|H]]; discriminate H|].
  apply lookup_insert_Some in Hin as [[_ <-]|[_ Hin]];
    [intros [H|[H|H]]; discriminate H|].
  by rewrite lookup_empty in Hin.
Defined.

(** A healthy check next to a check of a known status: the other check
    decides. *)
Lemma determineOverallHealth_beside_healthy
    (name name' : string) (check healthy : HealthCheck.t) :
  name <> name' ->
  HealthCheck.Status healthy = HealthStatusHealthy ->
  knownStatus (HealthCheck.Status check) ->
  determineOverallHealth (<[name' := healthy]> (<[name := check]> ∅)) =
  HealthCheck.Status check.
Proof.
  intros Hne Hhealthy Hknown. unfold determineOverallHealth.
  rewrite (determineOverallHealthIn_Permutation _ [(name', healthy); (name, check)]).
  - rewrite !determineOverallHealthIn_cons by (simpl; unfold knownStatus; tauto).
    simpl. rewrite Hhealthy.
    by destruct Hknown as [-> | [-> | ->]].
  - rewrite map_to_list_insert by (by rewrite lookup_insert_ne).
    by rewrite map_to_list_insert, map_to_list_empty.
Qed.

(** ** The health probe and the enhanced health handler *)

Section HandlerProperties.

Variable Duration_String : Z -> string.
Variable json_Marshal : HealthResponse.t -> string * option error.

Lemma checkMetadataService_known (c : Client) (p : ProbeEnv) :
  knownStatus (HealthCheck.Status (fst (checkMetadataService Duration_String c p))).
Proof.
  unfold checkMetadataService, knownStatus. simpl.
  destruct (snd (fst (FetchMetadata c (probeFetch p) ClusterNameURL))).
  - destruct (match probeCtxErr p with Some e => _ | None => _ end); simpl; tauto.
  - destruct (probeElapsed p >? 1 * Second); simpl; tauto.
Qed.

(** C6: the probe derives a child context with a 3-second timeout, runs
    the fetch of the cluster name under it and ends in exactly one of
    the three statuses.  A failed fetch with the child context past its
    deadline is unhealthy, "Metadata service timeout"; a failed fetch
    otherwise is degraded, with the text of the error in the message; a
    fetch that succeeds in more than one second is degraded, "Metadata
    service responding slowly"; any other is healthy.  Every case
    records the elapsed duration and the time of the check in UTC. *)
Theorem checkMetadataService_classification (c : Client) (p : ProbeEnv) :
  let fetched := FetchMetadata c (probeFetch p) ClusterNameURL in
  let check := fst (checkMetadataService Duration_String c p) in
  (forall err, snd (fst fetched) = Some err ->
     probeCtxErr p = Some DeadlineExceeded ->
     HealthCheck.Status check = HealthStatusUnhealthy /\
     HealthCheck.Message check = "Metadata service timeout") /\
  (forall err, snd (fst fetched) = Some err ->
     probeCtxErr p <> Some DeadlineExceeded ->
     HealthCheck.Status check = HealthStatusDegraded /\
     HealthCheck.Message check = "Metadata service error: " ++ Error err) /\
  (snd (fst fetched) = None -> 1 * Second < probeElapsed p ->
     HealthCheck.Status check = HealthStatusDegraded /\
     HealthCheck.Message check = "Metadata service responding slowly") /\
  (snd (fst fetched) = None -> probeElapsed p <= 1 * Second ->
     HealthCheck.Status check = HealthStatusHealthy /\
     HealthCheck.Message check = "Metadata service is responsive") /\
  knownStatus (HealthCheck.Status check) /\
  HealthCheck.Duration check = Duration_String (probeElapsed p) /\
  HealthCheck.LastChecked check = UTC (probeNow p) /\
  location (HealthCheck.LastChecked check) = UTCLoc /\
  snd (checkMetadataService Duration_String c p) =
    EvWithTimeout (3 * Second) :: snd fetched.
Proof.
  intros fetched check.
  split; [|split; [|split; [|split; [|split; [|split; [|split; [|split]]]]]]].
  - intros err Herr Hctx. subst check. unfold checkMetadataService.
    fold fetched. rewrite Herr, Hctx. done.
  - intros err Herr Hctx. subst check. unfold checkMetadataService.
    fold fetched. rewrite Herr.
    destruct (probeCtxErr p) as [[]|]; done.
  - intros Hok Hslow. subst check. unfold checkMetadataService.
    fold fetched. rewrite Hok.
    assert ((probeElapsed p >? 1 * Second) = true) as -> by lia. done.
  - intros Hok Hfast. subst check. unfold checkMetadataService.
    fold fetched. rewrite Hok.
    assert ((probeElapsed p >? 1 * Second) = false) as -> by lia. done.
  - apply checkMetadataService_known.
  - subst check. unfold checkMetadataService. fold fetched.
    destruct (snd (fst fetched));
      [destruct (match probeCtxErr p with Some e => _ | None => _ end)
      | destruct (probeElapsed p >? 1 * Second)]; done.
  - subst check. unfold checkMetadataService. fold fetched.
    destruct (snd (fst fetched));
      [destruct (match probeCtxErr p with Some e => _ | None => _ end)
      | destruct (probeElapsed p >? 1 * Second)]; done.
  - subst check. unfold checkMetadataService. fold fetched.
    destruct (snd (fst fetched));
      [destruct (match probeCtxErr p with Some e => _ | None => _ end)
      | destruct (probeElapsed p >? 1 * Second)]; done.
  - done.
Qed.

Lemma assembleHealth_status (c : Client) (e : HealthEnv) :
  HealthResponse.Status (fst (assembleHealth Duration_String c e)) =
  HealthCheck.Status (fst (checkMetadataService Duration_String c (healthProbe e))).
Proof.
  unfold assembleHealth.
  cbn [fst HealthResponse.Status].
  apply determineOverallHealth_beside_healthy;
    [done | done | apply checkMetadataService_known].
Qed.

(** C7: the enhanced handler always files two checks, [metadata_service]
    with the outcome of the probe and [http_server], which is healthy by
    construction, so the overall status is the status of the probe.  Once
    the response is encoded the handler writes 200 for healthy, 200 for
    degraded and 503 for unhealthy. *)
Theorem EnhancedHealthCheckHandler_status_code (c : Client) (e : HealthEnv) :
  let health := fst (assembleHealth Duration_String c e) in
  let probed := fst (checkMetadataService Duration_String c (healthProbe e)) in
  let written := fst (EnhancedHealthCheckHandler Duration_String json_Marshal c e) in
  snd (json_Marshal health) = None ->
  (HealthResponse.Status health = HealthStatusHealthy -> Code written = 200) /\
  (HealthResponse.Status health = HealthStatusDegraded -> Code written = 200) /\
  (HealthResponse.Status health = HealthStatusUnhealthy -> Code written = 503) /\
  HealthResponse.Checks health !! "http_server" =
    Some {| HealthCheck.Status := HealthStatusHealthy;
            HealthCheck.Message := "HTTP server is responding";
            HealthCheck.Duration := Duration_String (serverElapsed e);
            HealthCheck.LastChecked := UTC (serverNow e) |} /\
  HealthResponse.Checks health !! "metadata_service" = Some probed /\
  (forall name, is_Some (HealthResponse.Checks health !! name) ->
     name = "http_server" \/ name = "metadata_service") /\
  HealthResponse.Status health = HealthCheck.Status probed /\
  Payload written = fst (json_Marshal health) /\
  ContentType written = "application/json".
Proof.
  intros health probed written Hencoded.
  assert (written =
          {| Code := if String.eqb (HealthResponse.Status health) HealthStatusHealthy
                     then StatusOK
                     else if String.eqb (HealthResponse.Status health) HealthStatusDegraded
                          then StatusOK else StatusServiceUnavailable;
             ContentType := "application/json";
             Payload := fst (json_Marshal health) |}) as Hwritten.
  { subst written. unfold EnhancedHealthCheckHandler. fold health.
    destruct (json_Marshal health) as [jsonData [err|]]; [discriminate|done]. }
  rewrite Hwritten. cbn [Code Payload ContentType].
  split; [by intros ->|]. split; [by intros ->|]. split; [by intros ->|].
  split; [subst health; unfold assembleHealth; cbn [fst HealthResponse.Checks];
          by rewrite lookup_insert_eq|].
  split; [subst health; unfold assembleHealth; cbn [fst HealthResponse.Checks];
          by rewrite lookup_insert_ne, lookup_insert_eq|].
  split.
  - intros name. subst health. unfold assembleHealth. cbn [fst HealthResponse.Checks].
    destruct (decide (name = "http_server")) as [|Hne]; [by left|].
    destruct (decide (name = "metadata_service")) as [|Hne']; [by right|].
    rewrite !lookup_insert_ne, lookup_empty by done. by intros [? ?].
  - split; [apply assembleHealth_status | done].
Qed.

End HandlerProperties.

Lemma checkMetadataService_timeout :
  HealthCheck.Status (fst (checkMetadataService showNanos defaultClient timedOutProbe))
    = HealthStatusUnhealthy /\
  HealthCheck.Message (fst (checkMetadataService showNanos defaultClient timedOutProbe))
    = "Metadata service timeout".
Proof.
  apply (proj1 (checkMetadataService_classification showNanos defaultClient timedOutProbe)
           (wrapError "context cancelled: " (context_Err DeadlineExceeded)));
    reflexivity.
Defined.

Lemma EnhancedHealthCheckHandler_timeout :
  Code (fst (EnhancedHealthCheckHandler showNanos showHealth defaultClient timedOutHealth))
    = 503.
Proof.
  destruct (EnhancedHealthCheckHandler_status_code showNanos showHealth defaultClient
              timedOutHealth eq_refl) as (_ & _ & Hunhealthy & _).
  apply Hunhealthy. reflexivity.
Defined.

(** ** [strings.Split] and the metadata handler *)

Lemma strings_Split_nonempty (s : string) (sep : ascii) :
  strings_Split s sep <> [].
Proof.
  destruct s as [|ch rest]; simpl; [done|].
  destruct (Ascii.eqb ch sep); [done|].
  destruct (strings_Split rest sep); done.
Qed.

Lemma strings_Split_length (s : string) (sep : ascii) :
  (0 < length (strings_Split s sep))%nat.
Proof.
  pose proof (strings_Split_nonempty s sep).
  destruct (strings_Split s sep); [done | simpl; lia].
Qed.

(** Joining the pieces with the separator gives the string back. *)
Lemma strings_Join_Split (s : string) (sep : ascii) :
  strings_Join (strings_Split s sep) sep = s.
Proof.
  induction s as [|ch rest IH]; [reflexivity|].
  pose proof (strings_Split_nonempty rest sep) as Hne.
  cbn [strings_Split].
  destruct (Ascii.eqb_spec ch sep) as [->|Hch];
    destruct (strings_Split rest sep) as [|piece pieces]; try done.
  - cbn [strings_Join] in *. by rewrite IH.
  - cbn [strings_Join] in *. destruct pieces; simpl; by rewrite <- IH.
Qed.

(** No piece holds the separator. *)
Lemma strings_Split_pieces (s : string) (sep : ascii) :
  Forall (fun piece => hasByte sep piece = false) (strings_Split s sep).
Proof.
  induction s as [|ch rest IH]; [by repeat constructor|].
  pose proof (strings_Split_nonempty rest sep) as Hne.
  cbn [strings_Split].
  destruct (Ascii.eqb_spec ch sep) as [->|Hch].
  - by constructor.
  - destruct (strings_Split rest sep) as [|piece pieces]; [done|].
    inversion IH as [|? ? Hpiece Hpieces]; subst.
    constructor; [|done]. simpl. rewrite Hpiece.
    by destruct (Ascii.eqb_spec ch sep).
Qed.

Lemma append_assoc (s1 s2 s3 : string) : (s1 ++ s2) ++ s3 = s1 ++ (s2 ++ s3).
Proof.
  induction s1 as [|ch s1 IH]; [reflexivity|].
  change (String ch ((s1 ++ s2) ++ s3) = String ch (s1 ++ (s2 ++ s3))).
  by rewrite IH.
Qed.

Lemma strings_Join_last (pieces : list string) (sep : ascii) :
  pieces <> [] ->
  strings_Join pieces sep = List.last pieces "" \/
  exists before, strings_Join pieces sep = before ++ String sep (List.last pieces "").
Proof.
  induction pieces as [|piece pieces IH]; [done|]. intros _.
  destruct pieces as [|piece' pieces]; [by left|]. right.
  assert (strings_Join (piece :: piece' :: pieces) sep =
          piece ++ String sep (strings_Join (piece' :: pieces) sep)) as -> by reflexivity.
  assert (List.last (piece :: piece' :: pieces) "" =
          List.last (piece' :: pieces) "") as -> by reflexivity.
  destruct IH as [-> | [before ->]]; [done | by exists piece |].
  exists (piece ++ String sep before). by rewrite append_assoc.
Qed.

(** The last piece is the final segment: it holds no separator, and the
    string is that piece alone or ends in a separator followed by it. *)
Lemma strings_Split_final_segment (s : string) (sep : ascii) :
  hasByte sep (List.last (strings_Split s sep) "") = false /\
  (s = List.last (strings_Split s sep) "" \/
   exists before, s = before ++ String sep (List.last (strings_Split s sep) "")).
Proof.
  split.
  - pose proof (strings_Split_pieces s sep) as Hpieces.
    pose proof (strings_Split_nonempty s sep) as Hne.
    induction Hpieces as [|piece pieces Hpiece _ IH]; [done|].
    destruct pieces; [done|]. by apply IH.
  - destruct (strings_Join_last (strings_Split s sep) sep (strings_Split_nonempty s sep))
      as [Hlast | [before Hlast]];
      rewrite strings_Join_Split in Hlast; [by left | right; by exists before].
Qed.

Lemma nth_length_pred_last (pieces : list string) (d : string) :
  nth (length pieces - 1) pieces d = List.last pieces d.
Proof.
  induction pieces as [|piece pieces IH]; [reflexivity|].
  destruct pieces as [|piece' pieces]; [reflexivity|].
  cbn [length List.last] in *.
  replace (S (S (length pieces)) - 1)%nat with (S (S (length pieces) - 1)) by lia.
  exact IH.
Qed.

Section MetadataHandlerProperties.

Variable json_Encode : string -> string -> string * option error.

(** A request for [instance-zone] whose fetch succeeds is answered with
    the last piece of the upstream value, whatever that value is. *)
Lemma MetadataHandler_instance_zone
    (fetchMetadataFunc : string -> Result) (path raw service prefix root : string) :
  strings_Split (strings_TrimSuffix path "/") "/" = [root; service; prefix; "instance-zone"] ->
  fetchMetadataFunc InstanceZoneURL = (raw, None) ->
  fst (MetadataHandler json_Encode fetchMetadataFunc path) =
  metadataAnswer json_Encode "instance-zone" (List.last (strings_Split raw "/") "").
Proof.
  intros Hpath Hfetch. unfold MetadataHandler, metadataAnswer.
  cbn [emit fst]. rewrite Hpath.
  change (negb (length [root; service; prefix; "instance-zone"] =? 4)%nat) with false.
  change (nth 3 [root; service; prefix; "instance-zone"] "") with "instance-zone".
  change (metadataURL "instance-zone") with (Some InstanceZoneURL).
  cbv beta iota zeta. rewrite Hfetch.
  change ("instance-zone" =? "instance-zone")%string with true.
  cbv beta iota.
  pose proof (strings_Split_length raw "/") as Hlen.
  apply Nat.ltb_lt in Hlen. rewrite Hlen, nth_length_pred_last.
  by destruct (json_Encode _ _) as [buf [err|]].
Qed.

(** C8, at the empty upstream value: [strings.Split] gives one empty
    piece for the empty string, the test [len(instanceZoneParts) > 0]
    holds, and the handler answers with the empty value where the claim
    has a 500 "Unexpected format for instance-zone metadata". *)
Theorem MetadataHandler_empty_instance_zone :
  strings_Split "" "/" = [""] /\
  fst (MetadataHandler json_Encode (fun _ => ("", None))
                       "/istio-test/metadata/instance-zone") =
  metadataAnswer json_Encode "instance-zone" "" /\
  (snd (json_Encode "instance-zone" "") = None ->
   Code (fst (MetadataHandler json_Encode (fun _ => ("", None))
                              "/istio-test/metadata/instance-zone")) = 200).
Proof.
  split; [reflexivity|].
  assert (fst (MetadataHandler json_Encode (fun _ => ("", None))
                 "/istio-test/metadata/instance-zone") =
          metadataAnswer json_Encode "instance-zone" "") as Heq.
  { by rewrite (MetadataHandler_instance_zone (fun _ => ("", None))
                  "/istio-test/metadata/instance-zone" "" "istio-test" "metadata" ""). }
  split; [done|]. rewrite Heq. unfold metadataAnswer.
  by destruct (json_Encode _ _) as [buf [err|]].
Qed.

End MetadataHandlerProperties.

Lemma MetadataHandler_empty_instance_zone_sample :
  Code (fst (MetadataHandler showEntry (fun _ => ("", None))
                             "/istio-test/metadata/instance-zone")) = 200.
Proof.
  apply (proj2 (proj2 (MetadataHandler_empty_instance_zone showEntry))).
  reflexivity.
Defined.

(** The example of the specification: the zone is the last piece. *)
Example MetadataHandler_zone_example :
  fst (MetadataHandler showEntry
         (fun _ => ("projects/123/zones/us-central1-a", None))
         "/x/metadata/instance-zone") =
  {| Code := 200;
     ContentType := "application/json";
     Payload := "{instance-zone:us-central1-a}" ++ newline |}.
Proof. reflexivity. Qed.

(** ** The package's own tests *)

Example TestDetermineOverallHealth :
  determineOverallHealth (twoChecks HealthStatusHealthy HealthStatusHealthy)
    = HealthStatusHealthy /\
  determineOverallHealth (twoChecks HealthStatusHealthy HealthStatusDegraded)
    = HealthStatusDegraded /\
  determineOverallHealth (twoChecks HealthStatusHealthy HealthStatusUnhealthy)
    = HealthStatusUnhealthy /\
  determineOverallHealth
    (threeChecks HealthStatusHealthy HealthStatusDegraded HealthStatusUnhealthy)
    = HealthStatusUnhealthy.
Proof. repeat split; reflexivity. Qed.

Example TestMain :
  fst (MetadataHandler showEntry mockFetchMetadata "/istio-test/metadata/cluster-name") =
    {| Code := 200; ContentType := "application/json";
       Payload := "{cluster-name:test-cluster-name}" ++ newline |} /\
  fst (MetadataHandler showEntry mockFetchMetadata "/istio-test/metadata/cluster-location") =
    {| Code := 200; ContentType := "application/json";
       Payload := "{cluster-location:test-cluster-location}" ++ newline |} /\
  fst (MetadataHandler showEntry mockFetchMetadata "/istio-test/metadata/instance-zone") =
    {| Code := 200; ContentType := "application/json";
       Payload := "{instance-zone:us-central1-a}" ++ newline |} /\
  fst (MetadataHandler showEntry mockFetchMetadata "/istio-test/metadata/unknown") =
    {| Code := 400; ContentType := "text/plain; charset=utf-8";
       Payload := "Unknown metadata type" ++ newline |}.
Proof. repeat split; reflexivity. Qed.

(** * Properties beyond the claims *)

(** ** The retry loop, whatever the surroundings *)

Lemma attempts_cons_Do (url : string) (tr : list Event) :
  attempts (EvDo url :: tr) = 1 + attempts tr.
Proof. unfold attempts. simpl. lia. Qed.

Lemma snd_emit {A : Type} (evs : list Event) (r : A * list Event) :
  snd (emit evs r) = (evs ++ snd r)%list.
Proof. reflexivity. Qed.

Lemma fst_emit {A : Type} (evs : list Event) (r : A * list Event) :
  fst (emit evs r) = fst r.
Proof. reflexivity. Qed.

Section RetryLoopAlways.

Variables (c : Client) (w : Env) (url : string).

(** The sleeps of any run are an initial stretch of the backoff sequence,
    there is at most one call per iteration and at most one sleep per
    call, and the last iteration never sleeps. *)
Lemma retryLoop_shape (remaining : nat) :
  forall (attempt d : Z) (lastErr : option error),
    attempt + Z.of_nat remaining = maxRetries c ->
    exists j : nat,
      sleeps (snd (retryLoop c w url remaining attempt d lastErr)) = backoffs c w d j /\
      Z.of_nat j <= attempts (snd (retryLoop c w url remaining attempt d lastErr)) /\
      attempts (snd (retryLoop c w url remaining attempt d lastErr)) <= Z.of_nat remaining /\
      (j <= remaining - 1)%nat.
Proof.
  induction remaining as [|remaining IH]; intros attempt d lastErr Hinv.
  { exists O. simpl. unfold attempts. simpl. repeat split; (reflexivity || lia). }
  assert (forall r : Result, exists j : nat,
            sleeps (snd (emit [EvDo url] (r, []))) = backoffs c w d j /\
            Z.of_nat j <= attempts (snd (emit [EvDo url] (r, []))) /\
            attempts (snd (emit [EvDo url] (r, []))) <= Z.of_nat (S remaining) /\
            (j <= S remaining - 1)%nat) as Hstop.
  { intros r. exists O. unfold attempts. simpl. repeat split; (reflexivity || lia). }
  assert (forall (entry : LogEntry) (lastErr' : option error),
            attempt < maxRetries c - 1 ->
            exists j : nat,
              sleeps (snd (emit [EvDo url]
                             (emit [EvInfo entry; EvSleep d]
                                (retryLoop c w url remaining (attempt + 1)
                                           (growDelay c w d) lastErr')))) =
                backoffs c w d j /\
              Z.of_nat j <= attempts (snd (emit [EvDo url]
                             (emit [EvInfo entry; EvSleep d]
                                (retryLoop c w url remaining (attempt + 1)
                                           (growDelay c w d) lastErr')))) /\
              attempts (snd (emit [EvDo url]
                             (emit [EvInfo entry; EvSleep d]
                                (retryLoop c w url remaining (attempt + 1)
                                           (growDelay c w d) lastErr'))))
                <= Z.of_nat (S remaining) /\
              (j <= S remaining - 1)%nat) as Hgo.
  { intros entry lastErr' Hlt.
    destruct (IH (attempt + 1) (growDelay c w d) lastErr') as (j & Hsl & Hlo & Hhi & Hj);
      [lia|].
    exists (S j). rewrite !snd_emit. cbn [app]. rewrite attempts_cons_Do.
    cbn [sleeps backoffs]. rewrite Hsl.
    change (attempts (EvInfo entry :: EvSleep d :: ?tr)) with (attempts tr).
    split; [done|]. lia. }
  cbn [retryLoop].
  destruct (ctx_Err w attempt); [exists O; unfold attempts; simpl; repeat split; (reflexivity || lia)|].
  destruct (NewRequestWithContext w url); [exists O; unfold attempts; simpl; repeat split; (reflexivity || lia)|].
  destruct (Do w attempt) as [err|resp].
  - destruct (Z.ltb_spec attempt (maxRetries c - 1)); [by apply Hgo | apply Hstop].
  - destruct (negb (StatusCode resp =? StatusOK)).
    + destruct ((500 <=? StatusCode resp) && (StatusCode resp <? 600)
                || (StatusCode resp =? StatusTooManyRequests)); [|apply Hstop].
      destruct (Z.ltb_spec attempt (maxRetries c - 1)); [by apply Hgo | apply Hstop].
    + destruct (ReadErr resp); [apply Hstop|].
      exists O. rewrite !snd_emit, app_nil_r.
      destruct (attempt >? 0); unfold attempts; simpl; repeat split; (reflexivity || lia).
Qed.

End RetryLoopAlways.

Lemma growDelay_capped (c : Client) (w : Env) (d : Z) :
  growDelay c w d <= maxRetryDelay c.
Proof.
  unfold growDelay.
  destruct (Z.gtb_spec (scaleDuration w d (retryMultiplier c)) (maxRetryDelay c)); lia.
Qed.

Lemma backoffs_capped (c : Client) (w : Env) (k : nat) :
  forall d, d <= maxRetryDelay c ->
    Forall (fun delay => delay <= maxRetryDelay c) (backoffs c w d k).
Proof.
  induction k as [|k IH]; intros d Hd; [constructor|].
  cbn [backoffs]. constructor; [done|]. apply IH, growDelay_capped.
Qed.

(** X1: whatever the context, the network and the configuration do, a
    fetch makes no more calls than [maxRetries] (none when [maxRetries] is
    not positive), sleeps at most once per call and never after the last
    allowed attempt, and its sleeps are an initial stretch of the backoff
    sequence that starts at [baseRetryDelay]. *)
Theorem FetchMetadata_bounded (c : Client) (w : Env) (url : string) :
  exists j : nat,
    sleeps (snd (FetchMetadata c w url)) = backoffs c w (baseRetryDelay c) j /\
    Z.of_nat j <= attempts (snd (FetchMetadata c w url)) /\
    0 <= attempts (snd (FetchMetadata c w url)) <= Z.max 0 (maxRetries c) /\
    Z.of_nat j <= Z.max 0 (maxRetries c - 1).
Proof.
  unfold FetchMetadata.
  destruct (Z.le_gt_cases (maxRetries c) 0) as [Hle|Hgt].
  - replace (Z.to_nat (maxRetries c)) with O by lia.
    exists O. unfold attempts. simpl. repeat split; (reflexivity || lia).
  - destruct (retryLoop_shape c w url (Z.to_nat (maxRetries c)) 0 (baseRetryDelay c) None)
      as (j & Hsl & Hlo & Hhi & Hj); [lia|].
    exists j. split; [done|]. unfold attempts in *. lia.
Qed.

(** X2: the cap holds for every multiplier and every outcome of the
    float64 product: the first sleep is [baseRetryDelay] as configured,
    and every later sleep is at most [maxRetryDelay]. *)
Theorem FetchMetadata_sleeps_capped (c : Client) (w : Env) (url : string) :
  head (sleeps (snd (FetchMetadata c w url))) = None \/
  head (sleeps (snd (FetchMetadata c w url))) = Some (baseRetryDelay c) /\
  Forall (fun delay => delay <= maxRetryDelay c)
         (tail (sleeps (snd (FetchMetadata c w url)))).
Proof.
  destruct (retryLoop_shape c w url (Z.to_nat (maxRetries c))
              (maxRetries c - Z.of_nat (Z.to_nat (maxRetries c)))
              (baseRetryDelay c) None) as (j & Hsl & _); [lia|].
  destruct (Z.le_gt_cases (maxRetries c) 0) as [Hle|Hgt].
  - left. unfold FetchMetadata. by replace (Z.to_nat (maxRetries c)) with O by lia.
  - replace (maxRetries c - Z.of_nat (Z.to_nat (maxRetries c))) with 0 in Hsl by lia.
    fold (FetchMetadata c w url) in Hsl. rewrite Hsl.
    destruct j as [|j]; [by left|]. right. cbn [backoffs head tail].
    split; [done|]. apply backoffs_capped, growDelay_capped.
Qed.

Section RetryLoopResult.

Variables (c : Client) (w : Env) (url : string).

(** The result of the loop is an error beside the empty string, or the
    body of a 200 response read in full at some iteration [k], all
    iterations before [k] having retried and [k] being the last call. *)
Lemma retryLoop_result (remaining : nat) :
  forall (attempt d : Z) (lastErr : option error),
    attempt + Z.of_nat remaining = maxRetries c ->
    (exists e, fst (retryLoop c w url remaining attempt d lastErr) = ("", Some e)) \/
    (exists k resp,
       attempt <= k < maxRetries c /\
       (forall i, attempt <= i < k -> iterationRetries w i = true) /\
       ctx_Err w k = None /\
       NewRequestWithContext w url = None /\
       Do w k = DoResponse resp /\
       StatusCode resp = 200 /\
       ReadErr resp = None /\
       fst (retryLoop c w url remaining attempt d lastErr) = (Body resp, None) /\
       attempts (snd (retryLoop c w url remaining attempt d lastErr)) = k - attempt + 1).
Proof.
  induction remaining as [|remaining IH]; intros attempt d lastErr Hinv.
  { left. by eexists. }
  assert (forall (entry : LogEntry) (lastErr' : option error),
            iterationRetries w attempt = true ->
            (exists e, fst (emit [EvDo url]
                              (emit [EvInfo entry; EvSleep d]
                                 (retryLoop c w url remaining (attempt + 1)
                                            (growDelay c w d) lastErr'))) = ("", Some e)) \/
            (exists k resp,
               attempt <= k < maxRetries c /\
               (forall i, attempt <= i < k -> iterationRetries w i = true) /\
               ctx_Err w k = None /\
               NewRequestWithContext w url = None /\
               Do w k = DoResponse resp /\
               StatusCode resp = 200 /\
               ReadErr resp = None /\
               fst (emit [EvDo url]
                      (emit [EvInfo entry; EvSleep d]
                         (retryLoop c w url remaining (attempt + 1)
                                    (growDelay c w d) lastErr'))) = (Body resp, None) /\
               attempts (snd (emit [EvDo url]
                      (emit [EvInfo entry; EvSleep d]
                         (retryLoop c w url remaining (attempt + 1)
                                    (growDelay c w d) lastErr')))) = k - attempt + 1)) as Hgo.
  { intros entry lastErr' Hretry.
    destruct (IH (attempt + 1) (growDelay c w d) lastErr')
      as [[e He] | (k & resp & Hk & Hbefore & Hctx & Hreq & Hdo & Hok & Hread & Hres & Hatt)];
      [lia | left; by exists e |].
    right. exists k, resp. rewrite !fst_emit, !snd_emit. cbn [app].
    rewrite attempts_cons_Do.
    change (attempts (EvInfo entry :: EvSleep d :: ?tr)) with (attempts tr).
    repeat (split; [done || lia|]). split.
    - intros i Hi. destruct (decide (i = attempt)) as [->|]; [done|]. apply Hbefore. lia.
    - repeat (split; [done|]). lia. }
  clear IH. cbn [retryLoop].
  destruct (ctx_Err w attempt) eqn:Hctx; [left; by eexists|].
  destruct (NewRequestWithContext w url) eqn:Hreq; [left; by eexists|].
  destruct (Do w attempt) as [err|resp] eqn:Hdo.
  - destruct (Z.ltb_spec attempt (maxRetries c - 1)); [|left; by eexists].
    apply Hgo. unfold iterationRetries. by rewrite Hctx, Hdo.
  - destruct (StatusCode resp =? StatusOK) eqn:Hok; cbn [negb].
    + destruct (ReadErr resp) eqn:Hread; [left; by eexists|].
      right. exists attempt, resp. rewrite fst_emit, !snd_emit, app_nil_r.
      apply Z.eqb_eq in Hok.
      repeat (split; [first [done | lia | exact Hok]|]).
      destruct (attempt >? 0); unfold attempts; simpl; lia.
    + destruct ((500 <=? StatusCode resp) && (StatusCode resp <? 600)
                || (StatusCode resp =? StatusTooManyRequests)) eqn:Hst;
        [|left; by eexists].
      destruct (Z.ltb_spec attempt (maxRetries c - 1)); [|left; by eexists].
      apply Hgo. unfold iterationRetries, retryableStatus.
      by rewrite Hctx, Hdo, Hok, Hst.
Qed.

End RetryLoopResult.

(** X3: a fetch never makes a value up.  Its result is an error beside
    the empty string, or, with no error, the body of a response with
    status 200 that was read in full: the response of the last call made,
    every iteration before it having ended in a retry. *)
Theorem FetchMetadata_result_sound (c : Client) (w : Env) (url : string) :
  (exists e, fst (FetchMetadata c w url) = ("", Some e)) \/
  (exists k resp,
     0 <= k < maxRetries c /\
     (forall i, 0 <= i < k -> iterationRetries w i = true) /\
     ctx_Err w k = None /\
     NewRequestWithContext w url = None /\
     Do w k = DoResponse resp /\
     StatusCode resp = 200 /\
     ReadErr resp = None /\
     fst (FetchMetadata c w url) = (Body resp, None) /\
     attempts (snd (FetchMetadata c w url)) = k + 1).
Proof.
  unfold FetchMetadata.
  destruct (Z.le_gt_cases (maxRetries c) 0) as [Hle|Hgt].
  - replace (Z.to_nat (maxRetries c)) with O by lia. left. by eexists.
  - destruct (retryLoop_result c w url (Z.to_nat (maxRetries c)) 0 (baseRetryDelay c) None)
      as [He | (k & resp & Hk & Hbefore & Hctx & Hreq & Hdo & Hok & Hread & Hres & Hatt)];
      [lia | by left |].
    right. exists k, resp. repeat (split; [done|]). lia.
Qed.

(** X4: a URL no request can be built for ends the fetch at once: with
    an attempt allowed and the context live, the fetch returns the error
    of the construction under "error creating request", makes no call and
    does not retry, whatever is left of the budget. *)
Theorem FetchMetadata_request_construction
    (c : Client) (w : Env) (url : string) (err : error) :
  1 <= maxRetries c ->
  ctx_Err w 0 = None ->
  NewRequestWithContext w url = Some err ->
  FetchMetadata c w url = (("", Some (wrapError "error creating request: " err)), []).
Proof.
  intros Hn Hctx Hreq. unfold FetchMetadata.
  destruct (Z.to_nat (maxRetries c)) as [|remaining] eqn:Hrem; [lia|].
  cbn [retryLoop]. by rewrite Hctx, Hreq.
Qed.

Lemma FetchMetadata_request_construction_sample :
  FetchMetadata defaultClient malformed "::" =
  (("", Some (wrapError "error creating request: "
                        (errors_New "missing protocol scheme"))), []).
Proof.
  apply (FetchMetadata_request_construction defaultClient malformed "::").
  - simpl. lia.
  - reflexivity.
  - reflexivity.
Defined.

(** X5: a response with status 200 whose body cannot be read in full is
    not retried: the fetch returns the read error under "error reading
    response body" right after that call, without the "failed after"
    wrapping and whatever is left of the budget. *)
Theorem FetchMetadata_body_read_error
    (c : Client) (w : Env) (url : string) (k : Z) (resp : Response) (err : error) :
  0 <= k < maxRetries c ->
  NewRequestWithContext w url = None ->
  (forall i, 0 <= i < k -> iterationRetries w i = true) ->
  ctx_Err w k = None ->
  Do w k = DoResponse resp ->
  StatusCode resp = 200 ->
  ReadErr resp = Some err ->
  fst (FetchMetadata c w url) =
    ("", Some (wrapError "error reading response body: " err)) /\
  attempts (snd (FetchMetadata c w url)) = k + 1 /\
  sleeps (snd (FetchMetadata c w url)) = backoffs c w (baseRetryDelay c) (Z.to_nat k).
Proof.
  intros Hk Hreq Hretry Hctx Hdo Hok Hread.
  destruct (FetchMetadata_prefix c w url Hreq k Hk Hretry)
    as (evs & lastErr' & -> & Hatt & Hsl & _).
  cbn [retryLoop]. rewrite Hctx, Hreq, Hdo, Hok, Hread. cbn [Z.eqb negb Pos.eqb StatusOK].
  rewrite !fst_emit, !snd_emit, attempts_app, sleeps_app, Hatt, Hsl.
  split; [reflexivity|]. split; [unfold attempts; simpl; lia | by rewrite app_nil_r].
Qed.

Lemma FetchMetadata_body_read_error_sample :
  fst (FetchMetadata defaultClient truncating ClusterNameURL) =
    ("", Some (wrapError "error reading response body: " (errors_New "unexpected EOF"))) /\
  attempts (snd (FetchMetadata defaultClient truncating ClusterNameURL)) = 0 + 1 /\
  sleeps (snd (FetchMetadata defaultClient truncating ClusterNameURL)) =
    backoffs defaultClient truncating (baseRetryDelay defaultClient) (Z.to_nat 0).
Proof.
  apply (FetchMetadata_body_read_error defaultClient truncating ClusterNameURL 0
           {| StatusCode := 200; Body := "test-clu";
              ReadErr := Some (errors_New "unexpected EOF") |}).
  - simpl. lia.
  - reflexivity.
  - intros i Hi. lia.
  - reflexivity.
  - reflexivity.
  - reflexivity.
  - reflexivity.
Defined.

(** X6: when every allowed iteration fails in a way the loop retries on
    (a transport error, a status in [500,600) or 429, in any mix), the
    fetch makes exactly [maxRetries] calls, sleeps the [maxRetries - 1]
    delays of the backoff sequence between them and returns "failed after
    N attempts" around the failure of the last call. *)
Theorem FetchMetadata_exhausted (c : Client) (w : Env) (url : string) :
  1 <= maxRetries c ->
  NewRequestWithContext w url = None ->
  (forall i, 0 <= i < maxRetries c -> iterationRetries w i = true) ->
  fst (FetchMetadata c w url) =
    ("", Some (wrapError (failedAfter c) (failureOf url (Do w (maxRetries c - 1))))) /\
  attempts (snd (FetchMetadata c w url)) = maxRetries c /\
  sleeps (snd (FetchMetadata c w url)) =
    backoffs c w (baseRetryDelay c) (Z.to_nat (maxRetries c - 1)).
Proof.
  intros Hn Hreq Hretry.
  destruct (FetchMetadata_prefix c w url Hreq (maxRetries c - 1))
    as (evs & lastErr' & -> & Hatt & Hsl & _); [lia | intros i Hi; apply Hretry; lia |].
  replace (maxRetries c - 1 - (maxRetries c - 1)) with 0 by lia.
  specialize (Hretry (maxRetries c - 1) ltac:(lia)). unfold iterationRetries in Hretry.
  cbn [retryLoop Z.to_nat]. rewrite Hreq, Z.ltb_irrefl.
  destruct (ctx_Err w (maxRetries c - 1)); [done|].
  destruct (Do w (maxRetries c - 1)) as [err|resp].
  - rewrite !fst_emit, !snd_emit, attempts_app, sleeps_app, Hatt, Hsl.
    split; [reflexivity|]. split; [unfold attempts; simpl; lia | by rewrite app_nil_r].
  - apply andb_true_iff in Hretry as [-> Hst]. unfold retryableStatus in Hst.
    rewrite Hst.
    rewrite !fst_emit, !snd_emit, attempts_app, sleeps_app, Hatt, Hsl.
    split; [reflexivity|]. split; [unfold attempts; simpl; lia | by rewrite app_nil_r].
Qed.

Lemma FetchMetadata_exhausted_503 :
  fst (FetchMetadata defaultClient (answering 503 "busy") ClusterNameURL) =
    ("", Some (wrapError (failedAfter defaultClient)
                 (failureOf ClusterNameURL
                    (Do (answering 503 "busy") (maxRetries defaultClient - 1))))) /\
  attempts (snd (FetchMetadata defaultClient (answering 503 "busy") ClusterNameURL)) =
    maxRetries defaultClient /\
  sleeps (snd (FetchMetadata defaultClient (answering 503 "busy") ClusterNameURL)) =
    backoffs defaultClient (answering 503 "busy") (baseRetryDelay defaultClient)
             (Z.to_nat (maxRetries defaultClient - 1)).
Proof.
  apply (FetchMetadata_exhausted defaultClient (answering 503 "busy") ClusterNameURL).
  - simpl. lia.
  - reflexivity.
  - intros i Hi. reflexivity.
Defined.

(** ** The metadata handler, path by path *)

Lemma length_append (s1 s2 : string) :
  String.length (s1 ++ s2) = (String.length s1 + String.length s2)%nat.
Proof.
  induction s1 as [|ch s1 IH]; [reflexivity|].
  change (S (String.length (s1 ++ s2)) = S (String.length s1 + String.length s2)).
  by rewrite IH.
Qed.

Lemma substring_append_l (s1 s2 : string) :
  substring 0 (String.length s1) (s1 ++ s2) = s1.
Proof.
  induction s1 as [|ch s1 IH]; [by destruct s2|].
  change (String ch (substring 0 (String.length s1) (s1 ++ s2)) = String ch s1).
  by rewrite IH.
Qed.

Lemma substring_append_r (s1 s2 : string) :
  substring (String.length s1) (String.length s2) (s1 ++ s2) = s2.
Proof.
  induction s1 as [|ch s1 IH]; [|exact IH].
  change (substring 0 (String.length s2) s2 = s2).
  clear. induction s2 as [|ch s2 IH]; [reflexivity|].
  change (String ch (substring 0 (String.length s2) s2) = String ch s2). by rewrite IH.
Qed.

(** [strings.TrimSuffix] takes off a suffix that was put on. *)
Lemma strings_TrimSuffix_append (s suffix : string) :
  strings_TrimSuffix (s ++ suffix) suffix = s.
Proof.
  unfold strings_TrimSuffix, strings_HasSuffix. rewrite length_append.
  replace (String.length s + String.length suffix - String.length suffix)%nat
    with (String.length s) by lia.
  rewrite substring_append_r, substring_append_l, String.eqb_refl.
  by destruct (Nat.leb_spec (String.length suffix)
                 (String.length s + String.length suffix)); [|lia].
Qed.

Section MetadataHandlerPaths.

Variable json_Encode : string -> string -> string * option error.

(** The answer of the handler, branch by branch. *)
Lemma MetadataHandler_answer (fetchMetadataFunc : string -> Result) (path : string) :
  fst (MetadataHandler json_Encode fetchMetadataFunc path) =
  if negb (length (pathParts path) =? 4)%nat then
    http_Error "Invalid request: expected /istio-test/metadata/{type}" StatusBadRequest
  else
    match metadataURL (nth 3 (pathParts path) "") with
    | None => http_Error "Unknown metadata type" StatusBadRequest
    | Some url =>
        match fetchMetadataFunc url with
        | (_, Some _) => http_Error "Failed to fetch metadata" StatusBadGateway
        | (raw, None) =>
            metadataAnswer json_Encode (nth 3 (pathParts path) "")
              (if String.eqb (nth 3 (pathParts path) "") "instance-zone"
               then List.last (strings_Split raw "/") ""
               else raw)
        end
    end.
Proof.
  unfold MetadataHandler, metadataAnswer, pathParts. rewrite fst_emit.
  destruct (negb (length _ =? 4)%nat); [reflexivity|].
  destruct (metadataURL _) as [url|]; [|reflexivity].
  destruct (fetchMetadataFunc url) as [raw [err|]]; [reflexivity|].
  destruct (String.eqb _ "instance-zone").
  - pose proof (strings_Split_length raw "/") as Hlen. apply Nat.ltb_lt in Hlen.
    rewrite Hlen, nth_length_pred_last.
    by destruct (json_Encode _ _) as [buf [err|]].
  - by destruct (json_Encode _ _) as [buf [err|]].
Qed.

(** X7: the handler answers 400 exactly when the path, one trailing slash
    taken off, does not split into four segments or its fourth segment is
    none of the three metadata types; and then the fetch function has no
    part in the answer or in the log. *)
Theorem MetadataHandler_bad_request (fetchMetadataFunc : string -> Result) (path : string) :
  (Code (fst (MetadataHandler json_Encode fetchMetadataFunc path)) = 400 <->
   length (pathParts path) <> 4%nat \/ metadataURL (nth 3 (pathParts path) "") = None) /\
  (length (pathParts path) <> 4%nat \/ metadataURL (nth 3 (pathParts path) "") = None ->
   forall other : string -> Result,
     MetadataHandler json_Encode other path =
     MetadataHandler json_Encode fetchMetadataFunc path).
Proof.
  split.
  - rewrite MetadataHandler_answer.
    destruct (Nat.eqb_spec (length (pathParts path)) 4) as [Hlen|Hlen]; cbn [negb];
      [|split; [by left | reflexivity]].
    destruct (metadataURL _) as [url|]; [|split; [by right | reflexivity]].
    split; [|intros [?|?]; done].
    destruct (fetchMetadataFunc url) as [raw [err|]]; [discriminate|].
    unfold metadataAnswer. destruct (json_Encode _ _) as [buf [err|]]; discriminate.
  - intros Hbad other. unfold MetadataHandler. fold (pathParts path).
    destruct (Nat.eqb_spec (length (pathParts path)) 4) as [Hlen|Hlen]; cbn [negb];
      [|reflexivity].
    destruct Hbad as [Hbad|Hbad]; [done | by rewrite Hbad].
Qed.

(** X8: when the fetch fails the handler answers 502 with the fixed body
    "Failed to fetch metadata", whatever the error and whatever value came
    beside it; the text of the error goes to the log alone. *)
Theorem MetadataHandler_fetch_failure
    (fetchMetadataFunc : string -> Result) (path url value : string) (err : error) :
  length (pathParts path) = 4%nat ->
  metadataURL (nth 3 (pathParts path) "") = Some url ->
  fetchMetadataFunc url = (value, Some err) ->
  MetadataHandler json_Encode fetchMetadataFunc path =
  (http_Error "Failed to fetch metadata" StatusBadGateway,
   [EvInfo (LogText ("Received request for " ++ path));
    EvError (LogText ("Failed to fetch metadata: " ++ Error err))]).
Proof.
  intros Hlen Hurl Hfetch. unfold MetadataHandler. fold (pathParts path).
  rewrite Hlen, Hurl, Hfetch. reflexivity.
Qed.

(** X9: the answers of the handler are these and no others: one of the
    three fixed errors (400 for a bad path, 400 for an unknown type, 502
    for a failed fetch) or the encoding of a known type with its value.
    The 500 "Unexpected format for instance-zone metadata" is never among
    them. *)
Theorem MetadataHandler_answers (fetchMetadataFunc : string -> Result) (path : string) :
  fst (MetadataHandler json_Encode fetchMetadataFunc path) =
    http_Error "Invalid request: expected /istio-test/metadata/{type}" 400 \/
  fst (MetadataHandler json_Encode fetchMetadataFunc path) =
    http_Error "Unknown metadata type" 400 \/
  fst (MetadataHandler json_Encode fetchMetadataFunc path) =
    http_Error "Failed to fetch metadata" 502 \/
  exists metadataType value,
    (metadataType = "cluster-name" \/ metadataType = "cluster-location" \/
     metadataType = "instance-zone") /\
    fst (MetadataHandler json_Encode fetchMetadataFunc path) =
    metadataAnswer json_Encode metadataType value.
Proof.
  rewrite MetadataHandler_answer.
  destruct (negb _); [by left|].
  destruct (metadataURL (nth 3 (pathParts path) "")) as [url|] eqn:Hurl; [|by right; left].
  destruct (fetchMetadataFunc url) as [raw [err|]]; [by right; right; left|].
  right. right. right. eexists _, _. split; [|reflexivity].
  unfold metadataURL in Hurl.
  destruct (String.eqb_spec (nth 3 (pathParts path) "") "cluster-name"); [by left|].
  destruct (String.eqb_spec (nth 3 (pathParts path) "") "cluster-location");
    [by right; left|].
  destruct (String.eqb_spec (nth 3 (pathParts path) "") "instance-zone");
    [by right; right | discriminate].
Qed.

(** X10: of the four segments only the last is examined: two paths with
    the same fourth segment get the same answer, whatever their first
    three segments are. *)
Theorem MetadataHandler_prefix_ignored
    (fetchMetadataFunc : string -> Result) (path path' : string)
    (s1 s2 s3 s1' s2' s3' metadataType : string) :
  pathParts path = [s1; s2; s3; metadataType] ->
  pathParts path' = [s1'; s2'; s3'; metadataType] ->
  fst (MetadataHandler json_Encode fetchMetadataFunc path) =
  fst (MetadataHandler json_Encode fetchMetadataFunc path').
Proof.
  intros Hpath Hpath'. by rewrite !MetadataHandler_answer, Hpath, Hpath'.
Qed.

(** X11: one trailing slash is not part of the path: a path that does not
    end in a slash gets the same answer with a slash put after it. *)
Theorem MetadataHandler_trailing_slash
    (fetchMetadataFunc : string -> Result) (path : string) :
  strings_HasSuffix path "/" = false ->
  fst (MetadataHandler json_Encode fetchMetadataFunc (path ++ "/")) =
  fst (MetadataHandler json_Encode fetchMetadataFunc path).
Proof.
  intros Hplain. rewrite !MetadataHandler_answer.
  assert (pathParts (path ++ "/") = pathParts path) as ->; [|reflexivity].
  unfold pathParts. rewrite strings_TrimSuffix_append.
  unfold strings_TrimSuffix. by rewrite Hplain.
Qed.

(** X12: the handler consults the fetch function at one URL only, the
    one of the type the path names: two fetch functions that agree there
    give the same answer and the same log. *)
Theorem MetadataHandler_fetches_own_url
    (fetchMetadataFunc other : string -> Result) (path : string) :
  (forall url,
     length (pathParts path) = 4%nat ->
     metadataURL (nth 3 (pathParts path) "") = Some url ->
     other url = fetchMetadataFunc url) ->
  MetadataHandler json_Encode other path =
  MetadataHandler json_Encode fetchMetadataFunc path.
Proof.
  intros Hagree. unfold MetadataHandler. fold (pathParts path).
  destruct (Nat.eqb_spec (length (pathParts path)) 4) as [Hlen|Hlen]; cbn [negb];
    [|reflexivity].
  destruct (metadataURL _) as [url|]; [|reflexivity].
  by rewrite (Hagree url).
Qed.

(** X13: a value that was fetched is answered under its type.  For
    [instance-zone] the value answered is the final segment of the
    fetched one: it holds no slash, and the fetched value is that segment
    alone or ends in a slash followed by it.  For the other two types the
    fetched value is answered as it is, slashes included. *)
Theorem MetadataHandler_value
    (fetchMetadataFunc : string -> Result) (path url raw : string) :
  length (pathParts path) = 4%nat ->
  metadataURL (nth 3 (pathParts path) "") = Some url ->
  fetchMetadataFunc url = (raw, None) ->
  exists value,
    fst (MetadataHandler json_Encode fetchMetadataFunc path) =
      metadataAnswer json_Encode (nth 3 (pathParts path) "") value /\
    (nth 3 (pathParts path) "" = "instance-zone" ->
       hasByte "/" value = false /\
       (raw = value \/ exists before, raw = before ++ String "/" value)) /\
    (nth 3 (pathParts path) "" <> "instance-zone" -> value = raw).
Proof.
  intros Hlen Hurl Hfetch. rewrite MetadataHandler_answer, Hlen, Hurl, Hfetch.
  cbn [Nat.eqb negb].
  destruct (String.eqb_spec (nth 3 (pathParts path) "") "instance-zone") as [Hzone|Hother].
  - exists (List.last (strings_Split raw "/") ""). split; [reflexivity|].
    split; [|done]. intros _. apply strings_Split_final_segment.
  - exists raw. split; [reflexivity|]. split; done.
Qed.

End MetadataHandlerPaths.

Lemma MetadataHandler_bad_request_sample :
  MetadataHandler showEntry failingFetch "/x/y" =
  MetadataHandler showEntry mockFetchMetadata "/x/y".
Proof.
  apply (proj2 (MetadataHandler_bad_request showEntry mockFetchMetadata "/x/y")).
  left. vm_compute. lia.
Defined.

Lemma MetadataHandler_fetch_failure_sample :
  MetadataHandler showEntry failingFetch "/istio-test/metadata/cluster-name" =
  (http_Error "Failed to fetch metadata" StatusBadGateway,
   [EvInfo (LogText ("Received request for " ++ "/istio-test/metadata/cluster-name"));
    EvError (LogText ("Failed to fetch metadata: "
                      ++ Error (errors_New ("dial tcp 169.254.169.254:80 for "
                                            ++ ClusterNameURL))))]).
Proof.
  apply (MetadataHandler_fetch_failure showEntry failingFetch
           "/istio-test/metadata/cluster-name" ClusterNameURL "partial");
    reflexivity.
Defined.

Lemma MetadataHandler_prefix_ignored_sample :
  fst (MetadataHandler showEntry mockFetchMetadata "/istio-test/metadata/cluster-name") =
  fst (MetadataHandler showEntry mockFetchMetadata "a/b/c/cluster-name").
Proof.
  apply (MetadataHandler_prefix_ignored showEntry mockFetchMetadata
           "/istio-test/metadata/cluster-name" "a/b/c/cluster-name"
           "" "istio-test" "metadata" "a" "b" "c" "cluster-name");
    reflexivity.
Defined.

Lemma MetadataHandler_trailing_slash_sample :
  fst (MetadataHandler showEntry mockFetchMetadata
         ("/istio-test/metadata/instance-zone" ++ "/")) =
  fst (MetadataHandler showEntry mockFetchMetadata "/istio-test/metadata/instance-zone").
Proof.
  apply (MetadataHandler_trailing_slash showEntry mockFetchMetadata
           "/istio-test/metadata/instance-zone").
  reflexivity.
Defined.

Lemma MetadataHandler_fetches_own_url_sample :
  MetadataHandler showEntry nameOnlyFetch "/istio-test/metadata/cluster-name" =
  MetadataHandler showEntry mockFetchMetadata "/istio-test/metadata/cluster-name".
Proof.
  apply (MetadataHandler_fetches_own_url showEntry mockFetchMetadata nameOnlyFetch
           "/istio-test/metadata/cluster-name").
  intros url _ Hurl. vm_compute in Hurl. injection Hurl as <-. reflexivity.
Defined.

Lemma MetadataHandler_value_sample :
  exists value,
    fst (MetadataHandler showEntry mockFetchMetadata "/istio-test/metadata/instance-zone") =
      metadataAnswer showEntry
        (nth 3 (pathParts "/istio-test/metadata/instance-zone") "") value /\
    (nth 3 (pathParts "/istio-test/metadata/instance-zone") "" = "instance-zone" ->
       hasByte "/" value = false /\
       ("projects/1234567890/zones/us-central1-a" = value \/
        exists before,
          "projects/1234567890/zones/us-central1-a" = before ++ String "/" value)) /\
    (nth 3 (pathParts "/istio-test/metadata/instance-zone") "" <> "instance-zone" ->
       value = "projects/1234567890/zones/us-central1-a").
Proof.
  apply (MetadataHandler_value showEntry mockFetchMetadata
           "/istio-test/metadata/instance-zone" InstanceZoneURL
           "projects/1234567890/zones/us-central1-a");
    reflexivity.
Defined.

(** ** The security middleware *)

Lemma Header_Set_overlays (h : gmap string string) (key value : string)
    (w' w : ResponseWriter) :
  overlays h w' w -> overlays h (Header_Set key value w') (Header_Set key value w).
Proof.
  unfold overlays. intros Hw. cbn [Header_Set rwHeader].
  by rewrite Hw, insert_union_l.
Qed.

Lemma setSecurityHeadersWithOptions_overlays (h : gmap string string)
    (w' w : ResponseWriter) (options : SecurityHeadersOptions) :
  overlays h w' w ->
  overlays h (setSecurityHeadersWithOptions w' options)
             (setSecurityHeadersWithOptions w options).
Proof.
  intros Hw. unfold setSecurityHeadersWithOptions. cbv zeta.
  repeat match goal with
  | |- overlays _ (Header_Set _ _ _) _ => apply Header_Set_overlays
  | |- overlays _ (if ?b then Header_Set ?k ?v ?w1' else ?w1')
                  (if ?b then Header_Set ?k ?v ?w1 else ?w1) =>
      cut (overlays h w1' w1);
      [intros Hin; destruct b; [by apply Header_Set_overlays | exact Hin]|]
  | |- overlays _ (if ?b then Header_Set ?k ?v ?w1' else Header_Set ?k ?v' ?w1')
                  (if ?b then Header_Set ?k ?v ?w1 else Header_Set ?k ?v' ?w1) =>
      cut (overlays h w1' w1);
      [intros Hin; destruct b; by apply Header_Set_overlays|]
  end.
  exact Hw.
Qed.

(** What [Header.Set] leaves alone, the call leaves alone. *)
Lemma setSecurityHeadersWithOptions_preserves {A : Type} (f : ResponseWriter -> A) :
  (forall key value w, f (Header_Set key value w) = f w) ->
  forall w options, f (setSecurityHeadersWithOptions w options) = f w.
Proof.
  intros Hf w options. unfold setSecurityHeadersWithOptions. cbv zeta.
  repeat match goal with
  | |- f (if ?b then Header_Set ?k ?v ?w1 else ?w1) = _ =>
      transitivity (f w1); [by destruct b; rewrite ?Hf|]
  | |- f (if ?b then Header_Set ?k ?v ?w1 else Header_Set ?k ?v' ?w1) = _ =>
      transitivity (f w1); [by destruct b; rewrite Hf|]
  | |- f (Header_Set ?k ?v ?w1) = _ => rewrite (Hf k v w1)
  end.
  reflexivity.
Qed.

Lemma setSecurityHeadersWithOptions_rest (w : ResponseWriter)
    (options : SecurityHeadersOptions) :
  rwStatus (setSecurityHeadersWithOptions w options) = rwStatus w /\
  rwSent (setSecurityHeadersWithOptions w options) = rwSent w /\
  rwBody (setSecurityHeadersWithOptions w options) = rwBody w /\
  rwBroken (setSecurityHeadersWithOptions w options) = rwBroken w.
Proof. repeat split; by apply setSecurityHeadersWithOptions_preserves. Qed.

(** The call lays its headers over the ones that are there, and touches
    nothing else of the writer. *)
Lemma setSecurityHeadersWithOptions_union (w : ResponseWriter)
    (options : SecurityHeadersOptions) :
  setSecurityHeadersWithOptions w options =
  {| rwHeader := securityHeaderMap options ∪ rwHeader w;
     rwStatus := rwStatus w; rwSent := rwSent w;
     rwBody := rwBody w; rwBroken := rwBroken w |}.
Proof.
  assert (overlays (rwHeader w) w (NewRecorder None)) as Hw.
  { unfold overlays. cbn. by rewrite (left_id_L ∅ (∪)). }
  apply (setSecurityHeadersWithOptions_overlays _ _ _ options) in Hw.
  unfold overlays in Hw. fold (securityHeaderMap options) in Hw.
  destruct (setSecurityHeadersWithOptions_rest w options) as (Hst & Hsent & Hbody & Hbr).
  destruct (setSecurityHeadersWithOptions w options). cbn in *. by subst.
Qed.

Lemma joinMethods_fold (rest : list string) :
  forall first : string,
    fold_left (fun result method => result ++ ", " ++ method) rest first =
    first ++ foldr (fun method tail => ", " ++ method ++ tail) "" rest.
Proof.
  induction rest as [|method rest IH]; intros first; cbn [fold_left foldr].
  - clear. induction first as [|ch first IH]; [reflexivity|].
    change (String ch first = String ch (first ++ "")). by rewrite <- IH.
  - rewrite IH. by rewrite !append_assoc.
Qed.

(** X14: [joinMethods] puts ", " between the methods and nothing around
    them: the join of two lists that are not empty is the join of the
    first, ", ", and the join of the second. *)
Theorem joinMethods_app (methods methods' : list string) :
  methods <> [] -> methods' <> [] ->
  joinMethods (methods ++ methods') =
  joinMethods methods ++ ", " ++ joinMethods methods'.
Proof.
  intros Hne Hne'.
  destruct methods as [|first rest]; [done|].
  destruct methods' as [|first' rest']; [done|].
  cbn [joinMethods app]. rewrite !joinMethods_fold, foldr_app. cbn [foldr].
  rewrite !append_assoc. f_equal.
  generalize (foldr (fun method tail => ", " ++ method ++ tail) "" rest') as tail'.
  intros tail'. clear. induction rest as [|method rest IH]; cbn [foldr].
  - reflexivity.
  - rewrite IH. by rewrite !append_assoc.
Qed.

Lemma joinMethods_app_sample :
  joinMethods (["GET"; "HEAD"] ++ ["POST"]) =
  joinMethods ["GET"; "HEAD"] ++ ", " ++ joinMethods ["POST"].
Proof. apply (joinMethods_app ["GET"; "HEAD"] ["POST"]); discriminate. Defined.

(** A header of the security map is the header of the result. *)
Lemma setSecurityHeadersWithOptions_set (w : ResponseWriter)
    (options : SecurityHeadersOptions) (key value : string) :
  securityHeaderMap options !! CanonicalMIMEHeaderKey key = Some value ->
  Header_Get key (rwHeader (setSecurityHeadersWithOptions w options)) = value.
Proof.
  intros Hset. rewrite setSecurityHeadersWithOptions_union. cbn [rwHeader].
  unfold Header_Get. by rewrite (lookup_union_Some_l _ _ _ _ Hset).
Qed.

(** A header the security map lacks is kept as it was. *)
Lemma setSecurityHeadersWithOptions_kept (w : ResponseWriter)
    (options : SecurityHeadersOptions) (key : string) :
  securityHeaderMap options !! CanonicalMIMEHeaderKey key = None ->
  Header_Get key (rwHeader (setSecurityHeadersWithOptions w options)) =
  Header_Get key (rwHeader w).
Proof.
  intros Hunset. rewrite setSecurityHeadersWithOptions_union. cbn [rwHeader].
  unfold Header_Get. by rewrite lookup_union_r.
Qed.

Lemma lookup_Header_Set (key value : string) (w : ResponseWriter) (k : string) :
  rwHeader (Header_Set key value w) !! k =
  if String.eqb k (CanonicalMIMEHeaderKey key) then Some value else rwHeader w !! k.
Proof.
  cbn [Header_Set rwHeader].
  destruct (String.eqb_spec k (CanonicalMIMEHeaderKey key)) as [->|Hne].
  - by rewrite lookup_insert_eq.
  - by rewrite lookup_insert_ne.
Qed.

Lemma lookup_Header_Set_when (b : bool) (key value : string) (w : ResponseWriter)
    (k : string) :
  rwHeader (if b then Header_Set key value w else w) !! k =
  if String.eqb k (CanonicalMIMEHeaderKey key) && b then Some value else rwHeader w !! k.
Proof.
  destruct b; rewrite ?lookup_Header_Set;
    by destruct (String.eqb k (CanonicalMIMEHeaderKey key)).
Qed.

Lemma lookup_Header_Set_either (b : bool) (key value value' : string)
    (w : ResponseWriter) (k : string) :
  rwHeader (if b then Header_Set key value w else Header_Set key value' w) !! k =
  if String.eqb k (CanonicalMIMEHeaderKey key)
  then Some (if b then value else value') else rwHeader w !! k.
Proof. by destruct b; rewrite lookup_Header_Set. Qed.

(** The security map, entry by entry: the last [Set] of a name decides. *)
Lemma securityHeaderMap_lookup (options : SecurityHeadersOptions) (k : string) :
  securityHeaderMap options !! k =
  if String.eqb k "Cross-Origin-Resource-Policy" && negb (String.eqb (CORP options) "")
  then Some (CORP options)
  else if String.eqb k "Cross-Origin-Opener-Policy" && negb (String.eqb (COOP options) "")
  then Some (COOP options)
  else if String.eqb k "Cross-Origin-Embedder-Policy" && negb (String.eqb (COEP options) "")
  then Some (COEP options)
  else if String.eqb k "Expires" then Some "0"
  else if String.eqb k "Pragma" then Some "no-cache"
  else if String.eqb k "Cache-Control"
  then Some (if negb (String.eqb (CacheControl options) "") then CacheControl options
             else "no-cache, no-store, must-revalidate, private")
  else if String.eqb k "Content-Security-Policy"
  then Some (if EnableStrictCSP options
             then "default-src 'none'; frame-ancestors 'none'"
             else "default-src 'self'; frame-ancestors 'none'")
  else if String.eqb k "Server" then Some "istio-test"
  else if String.eqb k "X-Permitted-Cross-Domain-Policies" then Some "none"
  else if String.eqb k "Referrer-Policy" then Some "strict-origin-when-cross-origin"
  else if String.eqb k "X-Xss-Protection" then Some "1; mode=block"
  else if String.eqb k "X-Frame-Options" then Some "DENY"
  else if String.eqb k "X-Content-Type-Options" then Some "nosniff"
  else None.
Proof.
  unfold securityHeaderMap, setSecurityHeadersWithOptions. cbv zeta.
  repeat match goal with
  | |- context [rwHeader (if ?b then Header_Set ?key ?v ?w else ?w) !! ?k] =>
      rewrite (lookup_Header_Set_when b key v w k)
  | |- context [rwHeader (if ?b then Header_Set ?key ?v ?w else Header_Set ?key ?v' ?w) !! ?k] =>
      rewrite (lookup_Header_Set_either b key v v' w k)
  | |- context [rwHeader (Header_Set ?key ?v ?w) !! ?k] =>
      rewrite (lookup_Header_Set key v w k)
  end.
  reflexivity.
Qed.

(** A name outside [securityHeaderNames] is not in the security map. *)
Lemma securityHeaderMap_lookup_other (options : SecurityHeadersOptions) (k : string) :
  k ∉ securityHeaderNames -> securityHeaderMap options !! k = None.
Proof.
  unfold securityHeaderNames. rewrite !not_elem_of_cons.
  intros (H1 & H2 & H3 & H4 & H5 & H6 & H7 & H8 & H9 & H10 & H11 & H12 & H13 & _).
  rewrite securityHeaderMap_lookup.
  repeat match goal with
  | Hne : k <> ?name |- _ =>
      rewrite (proj2 (String.eqb_neq k name) Hne); clear Hne
  end.
  reflexivity.
Qed.

(** X15: whatever the writer holds and whatever the options are, after
    [setSecurityHeadersWithOptions] the eight fixed headers have their
    fixed values, the content security policy is the strict or the lax
    one as the options say, Cache-Control is the option's value or the
    no-cache default when the option is empty, and each of the three
    cross-origin headers has the option's value when that is not empty
    and is otherwise left as it was, neither set nor removed.  The
    status, the headers already sent and the body are not touched. *)
Theorem setSecurityHeadersWithOptions_headers (w : ResponseWriter)
    (options : SecurityHeadersOptions) :
  Header_Get "X-Content-Type-Options" (rwHeader (setSecurityHeadersWithOptions w options))
    = "nosniff" /\
  Header_Get "X-Frame-Options" (rwHeader (setSecurityHeadersWithOptions w options))
    = "DENY" /\
  Header_Get "X-XSS-Protection" (rwHeader (setSecurityHeadersWithOptions w options))
    = "1; mode=block" /\
  Header_Get "Referrer-Policy" (rwHeader (setSecurityHeadersWithOptions w options))
    = "strict-origin-when-cross-origin" /\
  Header_Get "X-Permitted-Cross-Domain-Policies"
             (rwHeader (setSecurityHeadersWithOptions w options)) = "none" /\
  Header_Get "Server" (rwHeader (setSecurityHeadersWithOptions w options))
    = "istio-test" /\
  Header_Get "Pragma" (rwHeader (setSecurityHeadersWithOptions w options)) = "no-cache" /\
  Header_Get "Expires" (rwHeader (setSecurityHeadersWithOptions w options)) = "0" /\
  Header_Get "Content-Security-Policy" (rwHeader (setSecurityHeadersWithOptions w options))
    = (if EnableStrictCSP options
       then "default-src 'none'; frame-ancestors 'none'"
       else "default-src 'self'; frame-ancestors 'none'") /\
  Header_Get "Cache-Control" (rwHeader (setSecurityHeadersWithOptions w options))
    = (if String.eqb (CacheControl options) ""
       then "no-cache, no-store, must-revalidate, private"
       else CacheControl options) /\
  Header_Get "Cross-Origin-Embedder-Policy"
             (rwHeader (setSecurityHeadersWithOptions w options))
    = (if String.eqb (COEP options) ""
       then Header_Get "Cross-Origin-Embedder-Policy" (rwHeader w)
       else COEP options) /\
  Header_Get "Cross-Origin-Opener-Policy"
             (rwHeader (setSecurityHeadersWithOptions w options))
    = (if String.eqb (COOP options) ""
       then Header_Get "Cross-Origin-Opener-Policy" (rwHeader w)
       else COOP options) /\
  Header_Get "Cross-Origin-Resource-Policy"
             (rwHeader (setSecurityHeadersWithOptions w options))
    = (if String.eqb (CORP options) ""
       then Header_Get "Cross-Origin-Resource-Policy" (rwHeader w)
       else CORP options) /\
  rwStatus (setSecurityHeadersWithOptions w options) = rwStatus w /\
  rwSent (setSecurityHeadersWithOptions w options) = rwSent w /\
  rwBody (setSecurityHeadersWithOptions w options) = rwBody w.
Proof.
  destruct (setSecurityHeadersWithOptions_rest w options) as (Hst & Hsent & Hbody & _).
  repeat (split;
    [apply setSecurityHeadersWithOptions_set; rewrite securityHeaderMap_lookup;
     reflexivity|]).
  split.
  - apply setSecurityHeadersWithOptions_set. rewrite securityHeaderMap_lookup.
    by destruct (CacheControl options =? "")%string.
  - split; [|split; [|split; [|done]]].
    + destruct (COEP options =? "")%string eqn:Hopt;
        [apply setSecurityHeadersWithOptions_kept | apply setSecurityHeadersWithOptions_set];
        rewrite securityHeaderMap_lookup, Hopt; reflexivity.
    + destruct (COOP options =? "")%string eqn:Hopt;
        [apply setSecurityHeadersWithOptions_kept | apply setSecurityHeadersWithOptions_set];
        rewrite securityHeaderMap_lookup, Hopt; reflexivity.
    + destruct (CORP options =? "")%string eqn:Hopt;
        [apply setSecurityHeadersWithOptions_kept | apply setSecurityHeadersWithOptions_set];
        rewrite securityHeaderMap_lookup, Hopt; reflexivity.
Qed.

(** X16: [setSecurityHeadersWithOptions] leaves every header alone whose
    canonical name is none of its thirteen: a Content-Type, an Allow or a
    Content-Length that is there stays as it is. *)
Theorem setSecurityHeadersWithOptions_other_headers (w : ResponseWriter)
    (options : SecurityHeadersOptions) (key : string) :
  CanonicalMIMEHeaderKey key ∉ securityHeaderNames ->
  Header_Get key (rwHeader (setSecurityHeadersWithOptions w options)) =
  Header_Get key (rwHeader w).
Proof.
  intros Hother. apply setSecurityHeadersWithOptions_kept.
  by apply securityHeaderMap_lookup_other.
Qed.

Lemma setSecurityHeadersWithOptions_other_headers_sample :
  Header_Get "content-type"
    (rwHeader (setSecurityHeadersWithOptions jsonWriter StrictSecurityOptions)) =
  Header_Get "content-type" (rwHeader jsonWriter).
Proof.
  apply (setSecurityHeadersWithOptions_other_headers jsonWriter StrictSecurityOptions
           "content-type").
  apply (bool_decide_unpack _). vm_compute. exact I.
Defined.

Lemma setSecurityHeadersWithOptions_again (w : ResponseWriter)
    (options : SecurityHeadersOptions) :
  setSecurityHeadersWithOptions (setSecurityHeadersWithOptions w options) options =
  setSecurityHeadersWithOptions w options.
Proof.
  rewrite !setSecurityHeadersWithOptions_union.
  cbn [rwHeader rwStatus rwSent rwBody rwBroken].
  f_equal. by rewrite (assoc_L (∪)), (idemp_L (∪)).
Qed.

(** X17: setting the security headers twice with the same options is
    setting them once, and of two calls with different options the later
    one decides every header both set: the headers are the later map laid
    over the earlier one laid over what was there. *)
Theorem setSecurityHeadersWithOptions_idempotent (w : ResponseWriter)
    (options options' : SecurityHeadersOptions) :
  setSecurityHeadersWithOptions (setSecurityHeadersWithOptions w options) options =
  setSecurityHeadersWithOptions w options /\
  rwHeader (setSecurityHeadersWithOptions (setSecurityHeadersWithOptions w options) options')
  = securityHeaderMap options' ∪ (securityHeaderMap options ∪ rwHeader w).
Proof.
  split; [apply setSecurityHeadersWithOptions_again|].
  by rewrite !setSecurityHeadersWithOptions_union.
Qed.

Lemma methodAllowed_elem_of (allowedMethods : list string) (method : string) :
  methodAllowed allowedMethods method = true <-> method ∈ allowedMethods.
Proof.
  induction allowedMethods as [|allowed rest IH]; cbn [methodAllowed].
  - split; [discriminate | by intros ?%elem_of_nil].
  - rewrite elem_of_cons.
    destruct (String.eqb_spec method allowed) as [->|Hne]; [by split; [left|]|].
    rewrite IH. split; [by right | by intros [?|?]].
Qed.

(** [http.Error] on a writer whose header is not written yet. *)
Lemma http_ErrorW_fresh (msg : string) (code : Z) (w : ResponseWriter) :
  rwStatus w = None ->
  rwStatus (http_ErrorW msg code w) = Some code /\
  rwSent (http_ErrorW msg code w) =
    <[CanonicalMIMEHeaderKey "X-Content-Type-Options" := "nosniff"]>
      (<[CanonicalMIMEHeaderKey "Content-Type" := "text/plain; charset=utf-8"]>
         (delete (CanonicalMIMEHeaderKey "Content-Length") (rwHeader w))) /\
  rwBody (http_ErrorW msg code w) =
    match rwBroken w with
    | Some _ => rwBody w
    | None => rwBody w ++ msg ++ newline
    end.
Proof.
  intros Hfresh. unfold http_ErrorW, Write, WriteHeader.
  cbn [Header_Set Header_Del rwStatus rwHeader rwSent rwBody rwBroken].
  rewrite Hfresh. cbn [rwStatus rwHeader rwSent rwBody rwBroken].
  by destruct (rwBroken w).
Qed.

(** [http.Error] on a writer whose header is written: the status and the
    headers that were sent stay. *)
Lemma http_ErrorW_late (msg : string) (code code' : Z) (w : ResponseWriter) :
  rwStatus w = Some code' ->
  rwStatus (http_ErrorW msg code w) = Some code' /\
  rwSent (http_ErrorW msg code w) = rwSent w /\
  rwBody (http_ErrorW msg code w) =
    match rwBroken w with
    | Some _ => rwBody w
    | None => rwBody w ++ msg ++ newline
    end.
Proof.
  intros Hsent. destruct w as [h st sent body br]. cbn in Hsent. subst st.
  unfold http_ErrorW, Write, WriteHeader, Header_Set, Header_Del.
  cbn [rwStatus rwHeader rwSent rwBody rwBroken].
  by destruct br.
Qed.

(** The headers [http.Error] sends keep every entry of the security map. *)
Lemma http_ErrorW_keeps_security (options : SecurityHeadersOptions)
    (h : gmap string string) (k v : string) :
  securityHeaderMap options !! k = Some v -> h !! k = Some v ->
  (<[CanonicalMIMEHeaderKey "X-Content-Type-Options" := "nosniff"]>
     (<[CanonicalMIMEHeaderKey "Content-Type" := "text/plain; charset=utf-8"]>
        (delete (CanonicalMIMEHeaderKey "Content-Length") h))) !! k = Some v.
Proof.
  intros Hk Hh. rewrite securityHeaderMap_lookup in Hk.
  change (CanonicalMIMEHeaderKey "X-Content-Type-Options") with "X-Content-Type-Options".
  change (CanonicalMIMEHeaderKey "Content-Type") with "Content-Type".
  change (CanonicalMIMEHeaderKey "Content-Length") with "Content-Length".
  destruct (decide (k = "X-Content-Type-Options")) as [->|Hne1].
  { rewrite lookup_insert_eq. exact Hk. }
  destruct (decide (k = "Content-Type")) as [->|Hne2]; [discriminate Hk|].
  destruct (decide (k = "Content-Length")) as [->|Hne3]; [discriminate Hk|].
  by rewrite !lookup_insert_ne, lookup_delete_ne.
Qed.

(** The answer to a method that is not allowed, on a writer whose header
    is not written yet. *)
Lemma methodNotAllowed_answer (options : SecurityHeadersOptions)
    (allowedMethods : list string) (w : ResponseWriter) :
  rwStatus w = None ->
  rwStatus (http_ErrorW "Method Not Allowed" StatusMethodNotAllowed
              (Header_Set "Allow" (joinMethods allowedMethods)
                 (setSecurityHeadersWithOptions w options)))
    = Some StatusMethodNotAllowed /\
  rwBody (http_ErrorW "Method Not Allowed" StatusMethodNotAllowed
            (Header_Set "Allow" (joinMethods allowedMethods)
               (setSecurityHeadersWithOptions w options)))
    = match rwBroken w with
      | Some _ => rwBody w
      | None => rwBody w ++ "Method Not Allowed" ++ newline
      end /\
  Header_Get "Allow"
    (rwSent (http_ErrorW "Method Not Allowed" StatusMethodNotAllowed
               (Header_Set "Allow" (joinMethods allowedMethods)
                  (setSecurityHeadersWithOptions w options))))
    = joinMethods allowedMethods /\
  Header_Get "Content-Type"
    (rwSent (http_ErrorW "Method Not Allowed" StatusMethodNotAllowed
               (Header_Set "Allow" (joinMethods allowedMethods)
                  (setSecurityHeadersWithOptions w options))))
    = "text/plain; charset=utf-8" /\
  (forall k v, securityHeaderMap options !! k = Some v ->
     rwSent (http_ErrorW "Method Not Allowed" StatusMethodNotAllowed
               (Header_Set "Allow" (joinMethods allowedMethods)
                  (setSecurityHeadersWithOptions w options))) !! k = Some v).
Proof.
  intros Hfresh.
  set (w1 := Header_Set "Allow" (joinMethods allowedMethods)
               (setSecurityHeadersWithOptions w options)).
  assert (rwStatus w1 = None) as Hfresh1.
  { unfold w1. cbn [Header_Set rwStatus].
    by rewrite (proj1 (setSecurityHeadersWithOptions_rest w options)). }
  assert (rwBody w1 = rwBody w /\ rwBroken w1 = rwBroken w) as [Hbody1 Hbroken1].
  { unfold w1. cbn [Header_Set rwBody rwBroken].
    by destruct (setSecurityHeadersWithOptions_rest w options) as (_ & _ & -> & ->). }
  assert (rwHeader w1 = <[CanonicalMIMEHeaderKey "Allow" := joinMethods allowedMethods]>
                          (securityHeaderMap options ∪ rwHeader w)) as Hheader1.
  { unfold w1. cbn [Header_Set rwHeader].
    by rewrite setSecurityHeadersWithOptions_union. }
  destruct (http_ErrorW_fresh "Method Not Allowed" StatusMethodNotAllowed w1 Hfresh1)
    as (Hstatus & Hsent & Hbody).
  rewrite Hstatus, Hsent, Hbody, Hbody1, Hbroken1, Hheader1.
  split; [done|]. split; [done|]. split; [|split].
  - unfold Header_Get.
    change (CanonicalMIMEHeaderKey "X-Content-Type-Options") with "X-Content-Type-Options".
    change (CanonicalMIMEHeaderKey "Content-Type") with "Content-Type".
    change (CanonicalMIMEHeaderKey "Content-Length") with "Content-Length".
    change (CanonicalMIMEHeaderKey "Allow") with "Allow".
    by rewrite !lookup_insert_ne, lookup_delete_ne, lookup_insert_eq.
  - unfold Header_Get.
    change (CanonicalMIMEHeaderKey "X-Content-Type-Options") with "X-Content-Type-Options".
    change (CanonicalMIMEHeaderKey "Content-Type") with "Content-Type".
    by rewrite lookup_insert_ne, lookup_insert_eq.
  - intros k v Hk. apply (http_ErrorW_keeps_security options); [done|].
    change (CanonicalMIMEHeaderKey "Allow") with "Allow".
    destruct (decide (k = "Allow")) as [->|Hne].
    + rewrite securityHeaderMap_lookup in Hk. discriminate Hk.
    + rewrite lookup_insert_ne by done. by apply lookup_union_Some_l.
Qed.

Lemma methodAllowed_not_elem_of (allowedMethods : list string) (method : string) :
  method ∉ allowedMethods -> methodAllowed allowedMethods method = false.
Proof.
  intros Hmethod. destruct (methodAllowed allowedMethods method) eqn:Hyes; [|done].
  by apply methodAllowed_elem_of in Hyes.
Qed.

(** X18: a request whose method is not, byte for byte, one of the allowed
    ones is answered by [MethodValidationMiddlewareFuncWithOptions]
    itself: status 405, the body [Method Not Allowed] and a newline, an
    Allow header that joins the allowed methods, the text content type,
    and every header of the security map.  The wrapped handler plays no
    part and nothing is logged. *)
Theorem MethodValidationMiddlewareFuncWithOptions_rejects
    (options : SecurityHeadersOptions) (allowedMethods : list string)
    (next : HandlerFunc) (r : Request) (w : ResponseWriter) :
  Method r ∉ allowedMethods ->
  rwStatus w = None ->
  rwStatus (fst (MethodValidationMiddlewareFuncWithOptions options allowedMethods next r w))
    = Some StatusMethodNotAllowed /\
  rwBody (fst (MethodValidationMiddlewareFuncWithOptions options allowedMethods next r w))
    = match rwBroken w with
      | Some _ => rwBody w
      | None => rwBody w ++ "Method Not Allowed" ++ newline
      end /\
  Header_Get "Allow"
    (rwSent (fst (MethodValidationMiddlewareFuncWithOptions options allowedMethods next r w)))
    = joinMethods allowedMethods /\
  Header_Get "Content-Type"
    (rwSent (fst (MethodValidationMiddlewareFuncWithOptions options allowedMethods next r w)))
    = "text/plain; charset=utf-8" /\
  (forall k v, securityHeaderMap options !! k = Some v ->
     rwSent (fst (MethodValidationMiddlewareFuncWithOptions options allowedMethods next r w))
       !! k = Some v) /\
  snd (MethodValidationMiddlewareFuncWithOptions options allowedMethods next r w) = [] /\
  forall next' : HandlerFunc,
    MethodValidationMiddlewareFuncWithOptions options allowedMethods next' r w =
    MethodValidationMiddlewareFuncWithOptions options allowedMethods next r w.
Proof.
  intros Hmethod%methodAllowed_not_elem_of Hfresh.
  unfold MethodValidationMiddlewareFuncWithOptions. rewrite Hmethod. cbn [negb fst snd].
  destruct (methodNotAllowed_answer options allowedMethods w Hfresh)
    as (Hstatus & Hbody & Hallow & Htype & Hsecurity).
  repeat (split; [assumption|]). split; done.
Qed.

Lemma MethodValidationMiddlewareFuncWithOptions_rejects_sample :
  rwStatus (fst (MethodValidationMiddlewareFuncWithOptions APISecurityOptions
                   ["GET"; "HEAD"] noContent (request "get" "/health") (NewRecorder None)))
    = Some StatusMethodNotAllowed /\
  Header_Get "Allow"
    (rwSent (fst (MethodValidationMiddlewareFuncWithOptions APISecurityOptions
                    ["GET"; "HEAD"] noContent (request "get" "/health") (NewRecorder None))))
    = "GET, HEAD".
Proof.
  assert (Method (request "get" "/health") ∉ ["GET"; "HEAD"]) as Hmethod.
  { cbn. rewrite !not_elem_of_cons. repeat split; try discriminate. apply not_elem_of_nil. }
  destruct (MethodValidationMiddlewareFuncWithOptions_rejects APISecurityOptions
              ["GET"; "HEAD"] noContent (request "get" "/health") (NewRecorder None)
              Hmethod eq_refl) as (Hstatus & _ & Hallow & _).
  split; [exact Hstatus | exact Hallow].
Defined.

(** X19: for a request whose method is allowed, [SecureHandlerWithOptions]
    is the handler run on the writer with the security headers set: the
    two layers, which each set the headers, act as one. *)
Theorem SecureHandlerWithOptions_allowed (allowedMethods : list string)
    (handler : HandlerFunc) (options : SecurityHeadersOptions)
    (r : Request) (w : ResponseWriter) :
  Method r ∈ allowedMethods ->
  SecureHandlerWithOptions allowedMethods handler options r w =
  handler r (setSecurityHeadersWithOptions w options).
Proof.
  intros Hmethod%methodAllowed_elem_of.
  unfold SecureHandlerWithOptions, MethodValidationMiddlewareFuncWithOptions,
    SecurityMiddlewareFuncWithOptions.
  rewrite Hmethod. cbn [negb].
  by rewrite setSecurityHeadersWithOptions_again.
Qed.

Lemma SecureHandlerWithOptions_allowed_sample :
  SecureHandlerWithOptions ["GET"; "HEAD"] noContent APISecurityOptions
    (request "HEAD" "/health") jsonWriter =
  noContent (request "HEAD" "/health")
    (setSecurityHeadersWithOptions jsonWriter APISecurityOptions).
Proof.
  apply (SecureHandlerWithOptions_allowed ["GET"; "HEAD"] noContent APISecurityOptions
           (request "HEAD" "/health") jsonWriter).
  cbn. rewrite !elem_of_cons. right. left. reflexivity.
Defined.

(** The header [HealthCheckHandler] writes on a writer whose header is not
    written yet. *)
Lemma HealthCheckHandler_fresh (r : Request) (w : ResponseWriter) :
  rwStatus w = None ->
  rwStatus (fst (HealthCheckHandler r w)) = Some StatusOK /\
  rwSent (fst (HealthCheckHandler r w)) =
    <[CanonicalMIMEHeaderKey "Content-Type" := "text/plain; charset=utf-8"]> (rwHeader w).
Proof.
  intros Hfresh. destruct w as [h st sent body br]. cbn in Hfresh. subst st.
  unfold HealthCheckHandler, Write, WriteHeader, Header_Set.
  cbn [rwStatus rwHeader rwSent rwBody rwBroken].
  destruct br as [err|]; cbn [fst snd rwStatus rwHeader rwSent rwBody rwBroken]; [|done].
  set (w1 := {| rwHeader := _; rwStatus := Some StatusOK |}).
  by destruct (http_ErrorW_late "Failed to write response" StatusInternalServerError
                 StatusOK w1 eq_refl) as (-> & -> & _).
Qed.

(** X20: [HealthCheckHandler] answers 200 with the text content type
    whether or not its write succeeds.  When the write of [OK] fails, the
    failure is logged and the 500 the handler then asks for never becomes
    the status: the header is written already, and the headers sent are
    the ones that were there with the content type set, without those
    [http.Error] adds. *)
Theorem HealthCheckHandler_always_ok (r : Request) (w : ResponseWriter) :
  rwStatus w = None ->
  rwStatus (fst (HealthCheckHandler r w)) = Some StatusOK /\
  rwSent (fst (HealthCheckHandler r w)) =
    <[CanonicalMIMEHeaderKey "Content-Type" := "text/plain; charset=utf-8"]> (rwHeader w) /\
  match rwBroken w with
  | None =>
      rwBody (fst (HealthCheckHandler r w)) = rwBody w ++ "OK" /\
      snd (HealthCheckHandler r w) = []
  | Some err =>
      rwBody (fst (HealthCheckHandler r w)) = rwBody w /\
      snd (HealthCheckHandler r w) =
        [EvError (LogText ("Error writing response: " ++ Error err))]
  end.
Proof.
  intros Hfresh.
  destruct (HealthCheckHandler_fresh r w Hfresh) as (Hstatus & Hsent).
  split; [exact Hstatus|]. split; [exact Hsent|]. clear Hstatus Hsent.
  destruct w as [h st sent body br]. cbn in Hfresh. subst st.
  unfold HealthCheckHandler, Write, WriteHeader, Header_Set.
  cbn [rwStatus rwHeader rwSent rwBody rwBroken].
  destruct br as [err|]; cbn [fst snd rwStatus rwHeader rwSent rwBody rwBroken]; [|done].
  split; [|done].
  set (w1 := {| rwHeader := _; rwStatus := Some StatusOK |}).
  by destruct (http_ErrorW_late "Failed to write response" StatusInternalServerError
                 StatusOK w1 eq_refl) as (_ & _ & ->).
Qed.

Lemma HealthCheckHandler_always_ok_broken :
  rwStatus (fst (HealthCheckHandler (request "GET" "/health")
                   (NewRecorder (Some brokenPipe)))) = Some StatusOK.
Proof.
  exact (proj1 (HealthCheckHandler_always_ok (request "GET" "/health")
                  (NewRecorder (Some brokenPipe)) eq_refl)).
Defined.

(** X21: [SecureNotFoundHandlerWithOptions] answers every request, of
    whatever method, with status 404, the body [Not Found] and a newline,
    the text content type and every header of the security map; it logs
    nothing.  There is no method validation on this handler. *)
Theorem SecureNotFoundHandlerWithOptions_answer (options : SecurityHeadersOptions)
    (r : Request) (w : ResponseWriter) :
  rwStatus w = None ->
  rwStatus (fst (SecureNotFoundHandlerWithOptions options r w)) = Some StatusNotFound /\
  rwBody (fst (SecureNotFoundHandlerWithOptions options r w))
    = match rwBroken w with
      | Some _ => rwBody w
      | None => rwBody w ++ "Not Found" ++ newline
      end /\
  Header_Get "Content-Type" (rwSent (fst (SecureNotFoundHandlerWithOptions options r w)))
    = "text/plain; charset=utf-8" /\
  (forall k v, securityHeaderMap options !! k = Some v ->
     rwSent (fst (SecureNotFoundHandlerWithOptions options r w)) !! k = Some v) /\
  snd (SecureNotFoundHandlerWithOptions options r w) = [].
Proof.
  intros Hfresh.
  unfold SecureNotFoundHandlerWithOptions, SecurityMiddlewareFuncWithOptions,
    NotFoundHandler. cbn [fst snd].
  destruct (setSecurityHeadersWithOptions_rest w options) as (Hst & _ & Hbody & Hbroken).
  rewrite <- Hst in Hfresh.
  destruct (http_ErrorW_fresh "Not Found" StatusNotFound
              (setSecurityHeadersWithOptions w options) Hfresh)
    as (Hstatus & Hsent & Hwritten).
  rewrite Hstatus, Hsent, Hwritten, Hbody, Hbroken.
  split; [done|]. split; [done|]. split; [|split; [|done]].
  - unfold Header_Get.
    change (CanonicalMIMEHeaderKey "X-Content-Type-Options") with "X-Content-Type-Options".
    change (CanonicalMIMEHeaderKey "Content-Type") with "Content-Type".
    by rewrite lookup_insert_ne, lookup_insert_eq.
  - intros k v Hk. apply (http_ErrorW_keeps_security options); [done|].
    rewrite setSecurityHeadersWithOptions_union. cbn [rwHeader].
    by apply lookup_union_Some_l.
Qed.

Lemma SecureNotFoundHandlerWithOptions_answer_post :
  rwStatus (fst (SecureNotFoundHandlerWithOptions APISecurityOptions
                   (request "POST" "/nowhere") (NewRecorder None))) = Some StatusNotFound.
Proof.
  exact (proj1 (SecureNotFoundHandlerWithOptions_answer APISecurityOptions
                  (request "POST" "/nowhere") (NewRecorder None) eq_refl)).
Defined.

(** X22: [SecureHealthCheckHandlerWithOptions] answers 200 to the methods
    GET and HEAD, spelled so, and 405 with [Allow: GET, HEAD] to every
    other one; either answer has the text content type and every header of
    the security map. *)
Theorem SecureHealthCheckHandlerWithOptions_answer (options : SecurityHeadersOptions)
    (r : Request) (w : ResponseWriter) :
  rwStatus w = None ->
  rwStatus (fst (SecureHealthCheckHandlerWithOptions options r w))
    = Some (if String.eqb (Method r) "GET" || String.eqb (Method r) "HEAD"
            then StatusOK else StatusMethodNotAllowed) /\
  Header_Get "Allow" (rwSent (fst (SecureHealthCheckHandlerWithOptions options r w)))
    = (if String.eqb (Method r) "GET" || String.eqb (Method r) "HEAD"
       then Header_Get "Allow" (rwHeader w) else "GET, HEAD") /\
  Header_Get "Content-Type" (rwSent (fst (SecureHealthCheckHandlerWithOptions options r w)))
    = "text/plain; charset=utf-8" /\
  (forall k v, securityHeaderMap options !! k = Some v ->
     rwSent (fst (SecureHealthCheckHandlerWithOptions options r w)) !! k = Some v).
Proof.
  intros Hfresh.
  unfold SecureHealthCheckHandlerWithOptions, SecureHandlerWithOptions,
    MethodValidationMiddlewareFuncWithOptions, SecurityMiddlewareFuncWithOptions.
  assert (methodAllowed ["GET"; "HEAD"] (Method r) =
          String.eqb (Method r) "GET" || String.eqb (Method r) "HEAD") as ->.
  { cbn [methodAllowed].
    by destruct (String.eqb (Method r) "GET"), (String.eqb (Method r) "HEAD"). }
  destruct (String.eqb (Method r) "GET" || String.eqb (Method r) "HEAD");
    cbn [negb fst snd].
  - rewrite setSecurityHeadersWithOptions_again.
    destruct (setSecurityHeadersWithOptions_rest w options) as (Hst & _).
    rewrite <- Hst in Hfresh.
    destruct (HealthCheckHandler_fresh r (setSecurityHeadersWithOptions w options) Hfresh)
      as (Hstatus & Hsent).
    rewrite Hstatus, Hsent, setSecurityHeadersWithOptions_union. cbn [rwHeader].
    change (CanonicalMIMEHeaderKey "Content-Type") with "Content-Type".
    split; [done|]. split; [|split].
    + unfold Header_Get. change (CanonicalMIMEHeaderKey "Allow") with "Allow".
      rewrite lookup_insert_ne by done.
      rewrite lookup_union_r; [done|]. by rewrite securityHeaderMap_lookup.
    + unfold Header_Get. change (CanonicalMIMEHeaderKey "Content-Type") with "Content-Type".
      by rewrite lookup_insert_eq.
    + intros k v Hk. destruct (decide (k = "Content-Type")) as [->|Hne].
      * rewrite securityHeaderMap_lookup in Hk. discriminate Hk.
      * rewrite lookup_insert_ne by done. by apply lookup_union_Some_l.
  - destruct (methodNotAllowed_answer options ["GET"; "HEAD"] w Hfresh)
      as (Hstatus & _ & Hallow & Htype & Hsecurity).
    split; [exact Hstatus|]. split; [exact Hallow|]. split; [exact Htype|exact Hsecurity].
Qed.

Lemma SecureHealthCheckHandlerWithOptions_answer_lower_case :
  rwStatus (fst (SecureHealthCheckHandlerWithOptions StrictSecurityOptions
                   (request "get" "/health") (NewRecorder None)))
    = Some StatusMethodNotAllowed.
Proof.
  exact (proj1 (SecureHealthCheckHandlerWithOptions_answer StrictSecurityOptions
                  (request "get" "/health") (NewRecorder None) eq_refl)).
Defined.

(** ** The enhanced health handler, from the probe to the status code *)

Section EnhancedHealthCode.

Variable Duration_String : Z -> string.
Variable json_Marshal : HealthResponse.t -> string * option error.

(** X23: the status code of [EnhancedHealthCheckHandler] is decided by
    three things only.  It is 500, with the fixed text as the body, when
    the response cannot be encoded, whatever the health is; otherwise it
    is 503 exactly when the fetch of the probe failed and the probe's
    context is past its deadline; in every other case, a metadata service
    that fails fast or answers slowly included, it is 200. *)
Theorem EnhancedHealthCheckHandler_code (c : Client) (e : HealthEnv) :
  Code (fst (EnhancedHealthCheckHandler Duration_String json_Marshal c e)) =
    match snd (json_Marshal (fst (assembleHealth Duration_String c e))) with
    | Some _ => StatusInternalServerError
    | None =>
        match snd (fst (FetchMetadata c (probeFetch (healthProbe e)) ClusterNameURL)),
              probeCtxErr (healthProbe e) with
        | Some _, Some DeadlineExceeded => StatusServiceUnavailable
        | _, _ => StatusOK
        end
    end /\
  (is_Some (snd (json_Marshal (fst (assembleHealth Duration_String c e)))) ->
   fst (EnhancedHealthCheckHandler Duration_String json_Marshal c e) =
   http_Error "Failed to encode health response" StatusInternalServerError).
Proof.
  unfold EnhancedHealthCheckHandler. cbv zeta.
  pose proof (assembleHealth_status Duration_String c e) as Hstatus.
  set (health := fst (assembleHealth Duration_String c e)) in *.
  set (events := snd (assembleHealth Duration_String c e)) in *.
  destruct (json_Marshal health) as [jsonData [err|]]; cbn [fst snd Code].
  - split; [reflexivity|]. intros _. reflexivity.
  - split; [|intros [? Hno]; discriminate Hno].
    rewrite Hstatus. clearbody health events. unfold checkMetadataService. cbn [fst].
    generalize (FetchMetadata c (probeFetch (healthProbe e)) ClusterNameURL).
    intros [[value [err|]] trace]; cbn [fst snd].
    + destruct (probeCtxErr (healthProbe e)) as [[]|]; reflexivity.
    + destruct (probeElapsed (healthProbe e) >? 1 * Second),
        (probeCtxErr (healthProbe e)) as [[]|]; reflexivity.
Qed.

End EnhancedHealthCode.

Lemma EnhancedHealthCheckHandler_code_unencodable :
  fst (EnhancedHealthCheckHandler showNanos failingMarshal defaultClient timedOutHealth) =
  http_Error "Failed to encode health response" StatusInternalServerError.
Proof.
  apply (proj2 (EnhancedHealthCheckHandler_code showNanos failingMarshal defaultClient
                  timedOutHealth)).
  eexists. reflexivity.
Defined.

(** ** The response wrapper of the request log *)

Lemma Write_body (data : string) (w : ResponseWriter) :
  Z.of_nat (String.length (rwBody (fst (Write data w)))) =
  Z.of_nat (String.length (rwBody w)) + writtenCount data (snd (Write data w)).
Proof.
  unfold Write, WriteHeader.
  destruct (rwStatus w), (rwBroken w) eqn:Hbroken;
    cbn [rwBroken rwBody fst snd writtenCount]; rewrite ?Hbroken;
    cbn [rwBroken rwBody fst snd writtenCount]; rewrite ?length_append; lia.
Qed.

Lemma last_cons_default {A : Type} (l : list A) :
  forall a d : A, List.last (a :: l) d = List.last l a.
Proof.
  induction l as [|b l IH]; intros a d; [reflexivity|].
  change (List.last (a :: b :: l) d) with (List.last (b :: l) d).
  rewrite (IH b d), (IH b a). reflexivity.
Qed.

Lemma headerCodes_cons (call : WriterCall) (calls : list WriterCall) :
  headerCodes (call :: calls) =
  match call with
  | CallWriteHeader code => code :: headerCodes calls
  | _ => headerCodes calls
  end.
Proof. by destruct call. Qed.

Lemma statusCodes_cons (call : WriterCall) (calls : list WriterCall) :
  statusCodes (call :: calls) =
  match call with
  | CallWriteHeader code => code :: statusCodes calls
  | CallWrite _ => StatusOK :: statusCodes calls
  | _ => statusCodes calls
  end.
Proof. by destruct call. Qed.

Lemma callWrapper_fold (calls : list WriterCall) :
  forall rw : responseWrapper,
    wrapped (fold_left callWrapper calls rw) = fold_left callWriter calls (wrapped rw) /\
    size (fold_left callWrapper calls rw) =
      size rw + Z.of_nat (String.length (rwBody (fold_left callWriter calls (wrapped rw))))
              - Z.of_nat (String.length (rwBody (wrapped rw))) /\
    statusCode (fold_left callWrapper calls rw) =
      List.last (headerCodes calls) (statusCode rw).
Proof.
  induction calls as [|call calls IH]; intros rw; cbn [fold_left].
  - cbn. split; [done|]. split; [lia|done].
  - destruct (IH (callWrapper rw call)) as (Hwrapped & Hsize & Hcode).
    assert (wrapped (callWrapper rw call) = callWriter (wrapped rw) call) as Hstep.
    { destruct call; cbn [callWrapper callWriter wrapped responseWrapper_WriteHeader];
        try done.
      unfold responseWrapper_Write. by destruct (Write data (wrapped rw)). }
    rewrite Hwrapped, Hsize, Hcode, Hstep. split; [done|]. split.
    + destruct call;
        cbn [callWrapper callWriter wrapped size responseWrapper_WriteHeader
             Header_Set Header_Del rwBody]; try lia.
      * unfold WriteHeader. destruct (rwStatus (wrapped rw)); cbn [rwBody]; lia.
      * pose proof (Write_body data (wrapped rw)) as Hbody.
        unfold responseWrapper_Write.
        destruct (Write data (wrapped rw)) as [w' err].
        cbn [fst snd size] in *. lia.
    + rewrite headerCodes_cons.
      destruct call; cbn [callWrapper statusCode responseWrapper_WriteHeader]; try done.
      * by rewrite last_cons_default.
      * unfold responseWrapper_Write. by destruct (Write data (wrapped rw)).
Qed.

Lemma callWriter_status (calls : list WriterCall) :
  forall w : ResponseWriter,
    rwStatus (fold_left callWriter calls w) =
    match rwStatus w with
    | Some code => Some code
    | None => head (statusCodes calls)
    end.
Proof.
  induction calls as [|call calls IH]; intros w; cbn [fold_left].
  - cbn. by destruct (rwStatus w).
  - rewrite IH, statusCodes_cons.
    destruct call; cbn [callWriter Header_Set Header_Del rwStatus head]; try done.
    + unfold WriteHeader. destruct (rwStatus w) eqn:Hst; [by rewrite Hst|done].
    + unfold Write, WriteHeader.
      destruct (rwStatus w) eqn:Hst, (rwBroken w) eqn:Hbroken;
        cbn [rwBroken rwStatus fst]; rewrite ?Hbroken; cbn [rwBroken rwStatus fst];
        by rewrite ?Hst.
Qed.

(** X24: the response wrapper is transparent: whatever calls a handler
    makes on it, the wrapped writer ends as it would have ended had the
    calls been made on it directly, and [size] is the number of bytes the
    calls added to the body. *)
Theorem responseWrapper_transparent (calls : list WriterCall) (w : ResponseWriter) :
  wrapped (fold_left callWrapper calls (newResponseWrapper w)) =
    fold_left callWriter calls w /\
  size (fold_left callWrapper calls (newResponseWrapper w)) =
    Z.of_nat (String.length (rwBody (fold_left callWriter calls w)))
    - Z.of_nat (String.length (rwBody w)).
Proof.
  destruct (callWrapper_fold calls (newResponseWrapper w)) as (Hwrapped & Hsize & _).
  split; [exact Hwrapped|]. rewrite Hsize. cbn [newResponseWrapper wrapped size]. lia.
Qed.

(** X25: the status code the wrapper holds for the log is the code of the
    last [WriteHeader] call, 200 if there was none, while the status the
    wrapped writer sends is that of the first [WriteHeader] or [Write].
    The two differ as soon as a handler calls [WriteHeader] again with
    another code. *)
Theorem responseWrapper_statusCode (calls : list WriterCall) (w : ResponseWriter) :
  rwStatus w = None ->
  statusCode (fold_left callWrapper calls (newResponseWrapper w)) =
    List.last (headerCodes calls) StatusOK /\
  rwStatus (wrapped (fold_left callWrapper calls (newResponseWrapper w))) =
    head (statusCodes calls).
Proof.
  intros Hfresh.
  destruct (callWrapper_fold calls (newResponseWrapper w)) as (Hwrapped & _ & Hcode).
  split; [exact Hcode|].
  rewrite Hwrapped. cbn [newResponseWrapper wrapped].
  by rewrite callWriter_status, Hfresh.
Qed.

Lemma responseWrapper_statusCode_failed_health_check :
  statusCode (fold_left callWrapper failedHealthCheckCalls
                (newResponseWrapper (NewRecorder (Some brokenPipe))))
    = StatusInternalServerError /\
  rwStatus (wrapped (fold_left callWrapper failedHealthCheckCalls
                       (newResponseWrapper (NewRecorder (Some brokenPipe)))))
    = Some StatusOK.
Proof.
  exact (responseWrapper_statusCode failedHealthCheckCalls
           (NewRecorder (Some brokenPipe)) eq_refl).
Defined.

(** ** What the request log keeps of a request *)

Lemma substring_prefix (n : nat) :
  forall s : string,
    (n <= String.length s)%nat ->
    String.length (substring 0 n s) = n /\
    exists rest, s = substring 0 n s ++ rest.
Proof.
  induction n as [|n IH]; intros s Hlen.
  - destruct s; (split; [reflexivity|]); eexists; reflexivity.
  - destruct s as [|ch s]; [cbn in Hlen; lia|].
    destruct (IH s) as (Hn & rest & Hrest); [cbn in Hlen; lia|].
    cbn [substring String.length]. split; [by rewrite Hn|].
    exists rest. change (String ch s = String ch (substring 0 n s ++ rest)).
    by rewrite <- Hrest.
Qed.

Lemma strings_Split_first (s : string) (sep : ascii) :
  (1 < length (strings_Split s sep))%nat ->
  hasByte sep (nth 0 (strings_Split s sep) "") = false /\
  exists rest, s = nth 0 (strings_Split s sep) "" ++ String sep rest.
Proof.
  intros Hlen. pose proof (strings_Split_pieces s sep) as Hpieces.
  pose proof (strings_Join_Split s sep) as Hjoin.
  destruct (strings_Split s sep) as [|first [|second more]];
    [cbn in Hlen; lia | cbn in Hlen; lia |].
  split; [by apply Forall_cons in Hpieces as [? _]|].
  exists (strings_Join (second :: more) sep). by rewrite <- Hjoin.
Qed.

Section Redaction.

Variable strings_TrimSpace : string -> string.
Variable net_SplitHostPort : string -> (string * string) * option error.
Variable url_ParseQuery : string -> gmap string (list string) * option error.
Variable url_Values_Encode : gmap string (list string) -> string.

(** X26: with redaction on, [redactRequestFields] gives the log at most
    this.  Of the client address, the bytes before its first dot followed
    by [.0.0.0], or the word [redacted].  Of the user agent, its first 100
    bytes, and never the empty string.  Of the query, nothing when it is
    empty, [<invalid_query>] when it does not parse, and otherwise the
    encoding of the parsed parameters with every name kept, the values of
    [page] and [limit] kept, and every other value replaced. *)
Theorem redactRequestFields_redacted (r : Request) (cfg : observability.Config) :
  observability.EnablePIIRedaction cfg = true ->
  (snd (fst (redactRequestFields strings_TrimSpace net_SplitHostPort url_ParseQuery
               url_Values_Encode r cfg)) = "redacted" \/
   exists first rest,
     getClientIP strings_TrimSpace net_SplitHostPort r = first ++ String "." rest /\
     hasByte "." first = false /\
     snd (fst (redactRequestFields strings_TrimSpace net_SplitHostPort url_ParseQuery
                 url_Values_Encode r cfg)) = first ++ ".0.0.0") /\
  (1 <= String.length (snd (redactRequestFields strings_TrimSpace net_SplitHostPort
                              url_ParseQuery url_Values_Encode r cfg)) <= 100)%nat /\
  (Request_Header_Get r "User-Agent" = "" /\
   snd (redactRequestFields strings_TrimSpace net_SplitHostPort url_ParseQuery
          url_Values_Encode r cfg) = "<redacted>" \/
   exists rest,
     Request_Header_Get r "User-Agent" =
     snd (redactRequestFields strings_TrimSpace net_SplitHostPort url_ParseQuery
            url_Values_Encode r cfg) ++ rest) /\
  (URL_RawQuery r = "" /\
   fst (fst (redactRequestFields strings_TrimSpace net_SplitHostPort url_ParseQuery
               url_Values_Encode r cfg)) = "" \/
   fst (fst (redactRequestFields strings_TrimSpace net_SplitHostPort url_ParseQuery
               url_Values_Encode r cfg)) = "<invalid_query>" \/
   exists queryValues sanitizedParams,
     url_ParseQuery (URL_RawQuery r) = (queryValues, None) /\
     fst (fst (redactRequestFields strings_TrimSpace net_SplitHostPort url_ParseQuery
                 url_Values_Encode r cfg)) = url_Values_Encode sanitizedParams /\
     forall key,
       sanitizedParams !! key =
       match queryValues !! key with
       | Some values =>
           Some (if String.eqb key "page" || String.eqb key "limit"
                 then values else ["<redacted>"])
       | None => None
       end).
Proof.
  intros Hon. unfold redactRequestFields. rewrite Hon. cbn [negb fst snd].
  set (clientIP := getClientIP strings_TrimSpace net_SplitHostPort r).
  set (userAgent := Request_Header_Get r "User-Agent").
  split; [|split; [|split]].
  - destruct (hasByte "." clientIP && negb (hasByte ":" clientIP)); [|by left].
    destruct (Nat.eqb_spec (length (strings_Split clientIP ".")) 4) as [Hfour|]; [|by left].
    right. destruct (strings_Split_first clientIP ".") as (Hfirst & rest & Hrest); [lia|].
    exists (nth 0 (strings_Split clientIP ".") ""), rest. done.
  - destruct (Nat.ltb_spec 100 (String.length userAgent)) as [Hlong|Hshort].
    + destruct (substring_prefix 100 userAgent) as (Hlen & _); [lia|].
      destruct (substring 0 100 userAgent) as [|ch cut] eqn:Hcut; [discriminate Hlen|].
      cbn [String.eqb]. rewrite Hlen. lia.
    + destruct userAgent as [|ch rest]; [cbn; lia|].
      cbn [String.eqb]. cbn [String.length] in *. lia.
  - destruct (Nat.ltb_spec 100 (String.length userAgent)) as [Hlong|Hshort].
    + destruct (substring_prefix 100 userAgent) as (Hlen & rest & Hrest); [lia|].
      destruct (substring 0 100 userAgent) as [|ch cut] eqn:Hcut; [discriminate Hlen|].
      cbn [String.eqb]. right. by exists rest.
    + destruct userAgent as [|ch rest]; [by left|].
      right. exists "". cbn [String.eqb]. clear.
      change (String ch rest = String ch (rest ++ "")). f_equal.
      induction rest as [|ch' rest IH]; [reflexivity|].
      change (String ch' rest = String ch' (rest ++ "")). by rewrite <- IH.
  - destruct (String.eqb_spec (URL_RawQuery r) "") as [Hempty|Hquery]; [by left|].
    cbn [negb]. right.
    destruct (url_ParseQuery (URL_RawQuery r)) as [queryValues [err|]]; [by left|].
    right. exists queryValues, (sanitizeParams queryValues).
    split; [done|]. split; [done|]. intros key. unfold sanitizeParams.
    rewrite map_lookup_imap. by destruct (queryValues !! key).
Qed.

End Redaction.

Lemma redactRequestFields_redacted_proxied :
  redactRequestFields (fun s => s) splitAtLastColon unparsedQuery noEncoding proxied
    {| observability.EnablePIIRedaction := true |} =
  ("<invalid_query>", "203.0.0.0", "curl/8.5.0") /\
  (1 <= String.length (snd (redactRequestFields (fun s => s) splitAtLastColon unparsedQuery
                              noEncoding proxied
                              {| observability.EnablePIIRedaction := true |})) <= 100)%nat.
Proof.
  split; [reflexivity|].
  apply (redactRequestFields_redacted (fun s => s) splitAtLastColon unparsedQuery
           noEncoding proxied {| observability.EnablePIIRedaction := true |}).
  reflexivity.
Defined.

(** ** The configuration *)

Lemma policyAllowed_elem_of (value : string) (allowed : list string) :
  policyAllowed value allowed = true <-> value ∈ allowed.
Proof.
  induction allowed as [|a rest IH]; cbn [policyAllowed].
  - split; [discriminate | by intros ?%elem_of_nil].
  - rewrite elem_of_cons.
    destruct (String.eqb_spec value a) as [->|Hne]; [by split; [left|]|].
    rewrite IH. split; [by right | by intros [?|?]].
Qed.

Lemma validatePolicy_None (name value : string) (allowed : list string) :
  validatePolicy name value allowed = None <-> value ∈ allowed.
Proof.
  unfold validatePolicy. rewrite <- policyAllowed_elem_of.
  by destruct (policyAllowed value allowed).
Qed.

(** X27: [SecurityConfig.Validate] accepts a configuration exactly when
    each of its six policies is, byte for byte, one of the values allowed
    for it, the empty string included; otherwise its error is that of the
    first policy outside its list, in the order DefaultCOEP, DefaultCOOP,
    DefaultCORP, APICOEP, APICOOP, APICORP, and names that policy, its
    value and the allowed values. *)
Theorem SecurityConfig_Validate_first (sc : SecurityConfig) :
  (SecurityConfig_Validate sc = None <->
   Forall (fun policy => elem_of (snd (fst policy)) (snd policy)) (policies sc)) /\
  SecurityConfig_Validate sc =
    head (omap (fun policy => validatePolicy (fst (fst policy)) (snd (fst policy)) (snd policy)) (policies sc)) /\
  (forall err, SecurityConfig_Validate sc = Some err ->
     exists policy, policy ∈ policies sc /\ (snd (fst policy) ∉ snd policy) /\
       Error err = "invalid " ++ fst (fst policy) ++ " value '" ++ snd (fst policy)
                   ++ "', allowed values: " ++ strings_Join_by (snd policy) ", ").
Proof.
  assert (SecurityConfig_Validate sc =
          head (omap (fun policy => validatePolicy (fst (fst policy)) (snd (fst policy)) (snd policy))
                     (policies sc))) as Hhead.
  { unfold SecurityConfig_Validate, policies. cbn [omap list_omap fst snd].
    repeat (match goal with
            | |- context [validatePolicy ?name ?value ?allowed] =>
                destruct (validatePolicy name value allowed)
            end; cbn [omap list_omap head fst snd]; [reflexivity|]).
    reflexivity. }
  split; [|split; [exact Hhead|]].
  - rewrite Hhead. unfold policies. cbn [fst snd omap list_omap]. split.
    + intros Hnone.
      repeat match type of Hnone with
      | context [validatePolicy ?name ?value ?allowed] =>
          let Hvalid := fresh "Hvalid" in
          destruct (validatePolicy name value allowed) eqn:Hvalid;
          cbn [omap list_omap head] in Hnone; [discriminate Hnone|];
          apply validatePolicy_None in Hvalid
      end.
      repeat (apply Forall_cons; split; [assumption|]). apply Forall_nil_2.
    + rewrite !Forall_cons. cbn [fst snd].
      intros (H1 & H2 & H3 & H4 & H5 & H6 & _).
      rewrite (proj2 (validatePolicy_None "DefaultCOEP" _ _) H1),
        (proj2 (validatePolicy_None "DefaultCOOP" _ _) H2),
        (proj2 (validatePolicy_None "DefaultCORP" _ _) H3),
        (proj2 (validatePolicy_None "APICOEP" _ _) H4),
        (proj2 (validatePolicy_None "APICOOP" _ _) H5),
        (proj2 (validatePolicy_None "APICORP" _ _) H6).
      reflexivity.
  - intros err. rewrite Hhead. intros Herr%head_Some_elem_of.
    apply list_elem_of_omap in Herr as (policy & Hin & Hpolicy).
    exists policy. split; [exact Hin|].
    unfold validatePolicy in Hpolicy.
    destruct (policyAllowed (snd (fst policy)) (snd policy)) eqn:Hallowed; [discriminate|].
    injection Hpolicy as <-. split; [|reflexivity].
    intros Hyes%policyAllowed_elem_of. congruence.
Qed.

Section ConfigProperties.

Variable os_Getenv : string -> string.
Variable time_ParseDuration : string -> Z * option error.
Variable strconv_Atoi : string -> Z * option error.
Variable strconv_ParseFloat : string -> float64 * option error.
Variable strconv_ParseBool : string -> bool * option error.

Lemma getEnv_value (key defaultValue : string) :
  getEnv os_Getenv key defaultValue =
  if String.eqb (os_Getenv key) "" then defaultValue else os_Getenv key.
Proof. unfold getEnv. by destruct (String.eqb (os_Getenv key) ""). Qed.

Lemma getEnv_nonempty (key defaultValue : string) :
  defaultValue <> "" -> getEnv os_Getenv key defaultValue <> "".
Proof.
  intros Hdefault. rewrite getEnv_value.
  by destruct (String.eqb_spec (os_Getenv key) "").
Qed.

Lemma getDuration_positive (key : string) (defaultValue : Z) :
  0 < defaultValue -> 0 < getDuration os_Getenv time_ParseDuration key defaultValue.
Proof.
  intros Hdefault. unfold getDuration.
  destruct (negb (String.eqb (os_Getenv key) "")); [|done].
  destruct (time_ParseDuration (os_Getenv key)) as [duration [err|]]; [done|].
  destruct (Z.gtb_spec duration 0); [lia|done].
Qed.

Lemma getInt_nonnegative (key : string) (defaultValue : Z) :
  0 <= defaultValue -> 0 <= getInt os_Getenv strconv_Atoi key defaultValue.
Proof.
  intros Hdefault. unfold getInt.
  destruct (negb (String.eqb (os_Getenv key) "")); [|done].
  destruct (strconv_Atoi (os_Getenv key)) as [intValue [err|]]; [done|].
  destruct (Z.geb_spec intValue 0); [lia|done].
Qed.

Lemma getFloat_positive (key : string) (defaultValue : float64) :
  float64_positive defaultValue = true ->
  float64_positive (getFloat os_Getenv strconv_ParseFloat key defaultValue) = true.
Proof.
  intros Hdefault. unfold getFloat.
  destruct (negb (String.eqb (os_Getenv key) "")); [|done].
  destruct (strconv_ParseFloat (os_Getenv key)) as [floatValue [err|]]; [done|].
  by destruct (float64_positive floatValue) eqn:Hpositive.
Qed.

(** X28: whatever the environment holds and whatever the parsers make of
    it, the configuration [Load] returns has a retry count that is not
    negative, seven durations and a retry multiplier that are positive
    (the multiplier is never NaN), and a port, a log level and five of the
    six cross-origin policies that are not empty: a variable that is
    empty, does not parse or is out of range falls back to its default. *)
Theorem Load_valid :
  let conf := Load os_Getenv time_ParseDuration strconv_Atoi strconv_ParseFloat
                   strconv_ParseBool in
  0 <= MaxRetries (Metadata conf) /\
  0 < HTTPTimeout (Metadata conf) /\
  0 < BaseRetryDelay (Metadata conf) /\
  0 < MaxRetryDelay (Metadata conf) /\
  float64_positive (RetryMultiplier (Metadata conf)) = true /\
  0 < ReadTimeout (Server conf) /\
  0 < WriteTimeout (Server conf) /\
  0 < IdleTimeout (Server conf) /\
  0 < ShutdownTimeout (Observability conf) /\
  Port (Server conf) <> "" /\
  LogLevel (Observability conf) <> "" /\
  DefaultCOEP (Security conf) <> "" /\
  DefaultCOOP (Security conf) <> "" /\
  DefaultCORP (Security conf) <> "" /\
  APICOOP (Security conf) <> "" /\
  APICORP (Security conf) <> "".
Proof.
  cbv zeta. unfold Load.
  cbn [Server Metadata Observability Security MaxRetries HTTPTimeout BaseRetryDelay
       MaxRetryDelay RetryMultiplier ReadTimeout WriteTimeout IdleTimeout ShutdownTimeout
       Port LogLevel DefaultCOEP DefaultCOOP DefaultCORP APICOOP APICORP].
  split; [by apply getInt_nonnegative|].
  repeat (split; [by apply getDuration_positive|]).
  split; [by apply getFloat_positive|].
  repeat (split; [by apply getDuration_positive|]).
  repeat (split; [by apply getEnv_nonempty|]).
  by apply getEnv_nonempty.
Qed.

(** X29: [Load] takes a retry count of zero from the environment, and a
    client built with it never calls the network: every fetch fails at
    once with [failed after 0 attempts] and no cause. *)
Theorem Load_zero_retries (c : Client) (e : Env) (url : string) :
  os_Getenv "METADATA_MAX_RETRIES" <> "" ->
  strconv_Atoi (os_Getenv "METADATA_MAX_RETRIES") = (0, None) ->
  maxRetries c = MaxRetries (Metadata (Load os_Getenv time_ParseDuration strconv_Atoi
                                            strconv_ParseFloat strconv_ParseBool)) ->
  MaxRetries (Metadata (Load os_Getenv time_ParseDuration strconv_Atoi
                             strconv_ParseFloat strconv_ParseBool)) = 0 /\
  FetchMetadata c e url =
    (("", Some (errors_New "failed after 0 attempts: %!w(<nil>)")), []).
Proof.
  intros Hset Hzero Hclient.
  assert (MaxRetries (Metadata (Load os_Getenv time_ParseDuration strconv_Atoi
                                     strconv_ParseFloat strconv_ParseBool)) = 0) as Hload.
  { unfold Load. cbn [Metadata MaxRetries]. unfold getInt. rewrite Hzero.
    by destruct (String.eqb_spec (os_Getenv "METADATA_MAX_RETRIES") ""). }
  split; [exact Hload|]. rewrite Hload in Hclient.
  unfold FetchMetadata. rewrite Hclient. change (Z.to_nat 0) with O.
  cbn [retryLoop]. unfold failedAfter. rewrite Hclient. reflexivity.
Qed.

(** X30: the cross-origin headers of the API endpoints are what the
    environment says, unchecked: SECURITY_API_COOP and SECURITY_API_CORP,
    when not empty, become the header values as they are, whether or not
    [Validate] would accept them, and an empty variable gives the default,
    so these two headers are always set; Cross-Origin-Embedder-Policy is
    set only when SECURITY_API_COEP is not empty.  The content security
    policy of options built by [CustomSecurityOptions] is always the lax
    one. *)
Theorem apiSecurityOptions_headers (w : ResponseWriter) :
  let conf := Load os_Getenv time_ParseDuration strconv_Atoi strconv_ParseFloat
                   strconv_ParseBool in
  Header_Get "Cross-Origin-Opener-Policy"
    (rwHeader (setSecurityHeadersWithOptions w (apiSecurityOptions conf)))
    = (if String.eqb (os_Getenv "SECURITY_API_COOP") "" then "same-origin-allow-popups"
       else os_Getenv "SECURITY_API_COOP") /\
  Header_Get "Cross-Origin-Resource-Policy"
    (rwHeader (setSecurityHeadersWithOptions w (apiSecurityOptions conf)))
    = (if String.eqb (os_Getenv "SECURITY_API_CORP") "" then "cross-origin"
       else os_Getenv "SECURITY_API_CORP") /\
  Header_Get "Cross-Origin-Embedder-Policy"
    (rwHeader (setSecurityHeadersWithOptions w (apiSecurityOptions conf)))
    = (if String.eqb (os_Getenv "SECURITY_API_COEP") ""
       then Header_Get "Cross-Origin-Embedder-Policy" (rwHeader w)
       else os_Getenv "SECURITY_API_COEP") /\
  Header_Get "Content-Security-Policy"
    (rwHeader (setSecurityHeadersWithOptions w (apiSecurityOptions conf)))
    = "default-src 'self'; frame-ancestors 'none'" /\
  Header_Get "Content-Security-Policy"
    (rwHeader (setSecurityHeadersWithOptions w (defaultSecurityOptions conf)))
    = "default-src 'self'; frame-ancestors 'none'".
Proof.
  cbv zeta. unfold apiSecurityOptions, defaultSecurityOptions, Load.
  cbn [Security APICOEP APICOOP APICORP DefaultCOEP DefaultCOOP DefaultCORP].
  rewrite !getEnv_value.
  split; [|split; [|split; [|split]]].
  - apply setSecurityHeadersWithOptions_set. rewrite securityHeaderMap_lookup.
    cbn [CustomSecurityOptions COEP COOP CORP].
    destruct (String.eqb (os_Getenv "SECURITY_API_COOP") "") eqn:Hempty;
      cbv beta iota; rewrite ?Hempty; reflexivity.
  - apply setSecurityHeadersWithOptions_set. rewrite securityHeaderMap_lookup.
    cbn [CustomSecurityOptions COEP COOP CORP].
    destruct (String.eqb (os_Getenv "SECURITY_API_CORP") "") eqn:Hempty;
      cbv beta iota; rewrite ?Hempty; reflexivity.
  - destruct (String.eqb (os_Getenv "SECURITY_API_COEP") "") eqn:Hempty.
    + apply setSecurityHeadersWithOptions_kept. rewrite securityHeaderMap_lookup.
      reflexivity.
    + apply setSecurityHeadersWithOptions_set. rewrite securityHeaderMap_lookup.
      cbn [CustomSecurityOptions COEP COOP CORP]. cbv beta iota. rewrite ?Hempty.
      reflexivity.
  - apply setSecurityHeadersWithOptions_set. rewrite securityHeaderMap_lookup.
    reflexivity.
  - apply setSecurityHeadersWithOptions_set. rewrite securityHeaderMap_lookup.
    reflexivity.
Qed.

End ConfigProperties.

Lemma Load_zero_retries_sample :
  FetchMetadata idleClient refusing ClusterNameURL =
    (("", Some (errors_New "failed after 0 attempts: %!w(<nil>)")), []).
Proof.
  apply (Load_zero_retries sampleEnv noDuration onlyZero noFloat noBool
           idleClient refusing ClusterNameURL);
    [discriminate | reflexivity | reflexivity].
Defined.

Lemma SecurityConfig_Validate_first_sample :
  SecurityConfig_Validate
    (Security (Load (fun _ => "") noDuration onlyZero noFloat noBool)) = None.
Proof.
  apply (proj1 (SecurityConfig_Validate_first
                  (Security (Load (fun _ => "") noDuration onlyZero noFloat noBool)))).
  unfold policies, Load, getEnv. cbn.
  repeat (apply Forall_cons; split;
          [cbv beta; cbn [fst snd]; unfold validCOEP, validCOOP, validCORP;
           rewrite !elem_of_cons; auto 6|]).
  apply Forall_nil_2.
Defined.
